(** * ClickHouse introspection for Django: the type decoder and the
      constraint scan

    A shallow embedding of

    - [clickhouse_backend/management/commands/inspectdb.py]
      ([Command.handle_inspection], [Command.inspect_field_type],
      [Command.consume_enum_choice], [Command.merge_params]) and
    - [clickhouse_backend/backend/introspection.py]
      ([constraint_pattern], [index_pattern],
      [DatabaseIntrospection.get_field_type],
      [DatabaseIntrospection.get_constraints]).

    A Python [str] is a [string]: a character is a code point below 256,
    and the character classes follow Python's on that range.  Generators
    are modelled by the list of the fragments they yield together with the
    way they end: a returned value, a raised exception, or the recursion
    budget of the model running out. *)

From Stdlib Require Import Bool Arith Lia List NArith ZArith Ascii String.
From Stdlib Require Import Permutation.
From Equations Require Import Equations.
Import ListNotations.

Local Open Scope list_scope.
Local Open Scope string_scope.

(** ** Python strings *)

Module Py.

Definition backslash : ascii := "092"%char.
Definition dquote : ascii := "034"%char.
Definition LF : ascii := "010"%char.
Definition CR : ascii := "013"%char.

Definition chr (c : ascii) : string := String c EmptyString.

(** [s[i:]] *)
Fixpoint drop (i : nat) (s : string) : string :=
  match i, s with
  | O, _ => s
  | S _, EmptyString => EmptyString
  | S i', String _ s' => drop i' s'
  end.

(** [s[:i]] *)
Fixpoint take (i : nat) (s : string) : string :=
  match i, s with
  | O, _ => EmptyString
  | S _, EmptyString => EmptyString
  | S i', String c s' => String c (take i' s')
  end.

(** [s[i:j]] for non-negative [i] and [j] *)
Definition slice (i j : nat) (s : string) : string := take (j - i) (drop i s).

(** [s[i:-1]]: the end index counts from the end of the string. *)
Definition slice_to_last (i : nat) (s : string) : string :=
  slice i (String.length s - 1) s.

(** [s.startswith(p)] *)
Definition startswith (s p : string) : bool := String.prefix p s.

Definition in_range (lo hi : nat) (c : ascii) : bool :=
  let n := nat_of_ascii c in Nat.leb lo n && Nat.leb n hi.

(** The decimal digits, which are what [int] and the pattern class
    [\d] accept. *)
Definition isdecimal (c : ascii) : bool := in_range 48 57 c.

(** [str.isdigit]: the decimal digits and the superscript digits. *)
Definition isdigit (c : ascii) : bool :=
  isdecimal c || in_range 178 179 c || in_range 185 185 c.

Definition isalpha (c : ascii) : bool :=
  in_range 65 90 c || in_range 97 122 c
  || in_range 170 170 c || in_range 181 181 c || in_range 186 186 c
  || in_range 192 214 c || in_range 216 246 c || in_range 248 255 c.

(** [str.isalnum]: letters, digits and the vulgar fractions. *)
Definition isalnum (c : ascii) : bool :=
  isalpha c || isdigit c || in_range 188 190 c.

(** [str.isspace], which is also the pattern class [\s]. *)
Definition isspace (c : ascii) : bool :=
  in_range 9 13 c || in_range 28 32 c
  || in_range 133 133 c || in_range 160 160 c.

(** [sep.join(parts)] *)
Fixpoint join (sep : string) (parts : list string) : string :=
  match parts with
  | [] => EmptyString
  | [p] => p
  | p :: rest => p ++ sep ++ join sep rest
  end.

(** [r] is what is left of [s] after a prefix has been read. *)
Definition is_suffix (r s : string) : Prop := exists p, s = p ++ r.

End Py.

(** ** Exceptions and generators *)

Inductive exn : Type :=
| IndexError
| ValueError
| SyntaxError
| AttributeError
| NotImplementedError
| KeyError (key : string)
| ConnectionDoesNotExist (alias : string)
| DatabaseError (msg : string).

(** Where the model stops following Python: the recursion budget given to
    a function was too small, or [eval] was handed a text that is not the
    byte-string literal the call site means to build. *)
Inductive limit : Type :=
| OutOfFuel
| NotALiteral.

(** How a call ends: it returns, it raises, or the model stops. *)
Inductive outcome (A : Type) : Type :=
| Return (a : A)
| Raise (e : exn)
| Stuck (why : limit).
Arguments Return {A} a.
Arguments Raise {A} e.
Arguments Stuck {A} why.

Definition obind {A B} (m : outcome A) (f : A -> outcome B) : outcome B :=
  match m with
  | Return a => f a
  | Raise e => Raise e
  | Stuck w => Stuck w
  end.

(** A generator: the fragments yielded so far and how the run ended. *)
Definition gen (A : Type) : Type := (list string * outcome A)%type.

Definition gret {A} (a : A) : gen A := ([], Return a).
Definition yield (s : string) : gen unit := ([s], Return tt).
Definition lift {A} (m : outcome A) : gen A := ([], m).

Definition gbind {A B} (m : gen A) (f : A -> gen B) : gen B :=
  match m with
  | (ys, Return a) => let (ys', o) := f a in ((ys ++ ys')%list, o)
  | (ys, Raise e) => (ys, Raise e)
  | (ys, Stuck w) => (ys, Stuck w)
  end.

Declare Scope gen_scope.
Delimit Scope gen_scope with gen.
Notation "x <- m ;; k" := (gbind m (fun x => k))
  (at level 61, m at next level, right associativity) : gen_scope.
Notation "m ;;; k" := (gbind m (fun _ => k))
  (at level 61, right associativity) : gen_scope.

Declare Scope out_scope.
Delimit Scope out_scope with out.
Notation "x <- m ;; k" := (obind m (fun x => k))
  (at level 61, m at next level, right associativity) : out_scope.

(** [s[i]]: an index past the end raises [IndexError]. *)
Definition item (s : string) (i : nat) : outcome ascii :=
  match String.get i s with
  | Some c => Return c
  | None => Raise IndexError
  end.

(** [while p(s[i]): i += 1], reading from the suffix [rest = s[i:]]; the
    loop raises [IndexError] when it runs off the end of the string. *)
Fixpoint scan_while (p : ascii -> bool) (rest : string) (i : nat)
  : outcome nat :=
  match rest with
  | EmptyString => Raise IndexError
  | String c rest' => if p c then scan_while p rest' (S i) else Return i
  end.

(** [while i < length and p(s[i]): i += 1] *)
Fixpoint scan_while_bounded (p : ascii -> bool) (rest : string) (i : nat)
  : nat :=
  match rest with
  | EmptyString => i
  | String c rest' => if p c then scan_while_bounded p rest' (S i) else i
  end.

(** ** Evaluating a byte-string literal

    [consume_enum_choice] hands the text [b'...'.decode('utf-8')] to
    Python's [eval].  The model covers the texts that this call site
    builds from a single-quoted label: a byte-string literal followed by a
    UTF-8 decode. *)

Inductive eval_outcome : Type :=
| EvalText (text : list N)      (* the decoded str, as code points *)
| EvalUnicodeDecodeError        (* the bytes are not valid UTF-8 *)
| EvalRaise (e : exn)           (* eval raised something else *)
| EvalNotALiteral.              (* the text does not open with a quote *)

Module Bytes.

Definition code (c : ascii) : N := N_of_ascii c.

Definition isoctal (c : ascii) : bool := Py.in_range 48 55 c.

Definition ishex (c : ascii) : bool :=
  Py.in_range 48 57 c || Py.in_range 65 70 c || Py.in_range 97 102 c.

Definition octal_value (c : ascii) : N := (code c - 48)%N.

Definition hex_value (c : ascii) : N :=
  if Py.in_range 48 57 c then (code c - 48)%N
  else if Py.in_range 65 70 c then (code c - 55)%N
  else (code c - 87)%N.

(** The tokenizer reads the source with universal newlines: [\r\n] and a
    lone [\r] are both a line feed. *)
Fixpoint translate_newlines (s : string) : string :=
  match s with
  | EmptyString => EmptyString
  | String c r =>
      if Ascii.eqb c Py.CR then
        match r with
        | String d r' =>
            if Ascii.eqb d Py.LF then String Py.LF (translate_newlines r')
            else String Py.LF (translate_newlines r)
        | EmptyString => String Py.LF EmptyString
        end
      else String c (translate_newlines r)
  end.

(** The one-character escapes of a byte-string literal. *)
Definition simple_escape (d : ascii) : option N :=
  if Ascii.eqb d Py.backslash then Some 92%N
  else if Ascii.eqb d "'" then Some 39%N
  else if Ascii.eqb d Py.dquote then Some 34%N
  else if Ascii.eqb d "a" then Some 7%N
  else if Ascii.eqb d "b" then Some 8%N
  else if Ascii.eqb d "f" then Some 12%N
  else if Ascii.eqb d "n" then Some 10%N
  else if Ascii.eqb d "r" then Some 13%N
  else if Ascii.eqb d "t" then Some 9%N
  else if Ascii.eqb d "v" then Some 11%N
  else None.

Definition cons_byte (b : N) (m : option (list N)) : option (list N) :=
  match m with Some bs => Some (b :: bs) | None => None end.

(** The bytes denoted by the body of a literal (the text between the
    quotes).  A raw line feed ends the line inside the literal, a NUL or
    a non-ASCII character cannot occur in it, and [\x] needs two
    hexadecimal digits: each of these is a [SyntaxError], the result
    [None].  An octal escape takes up to three digits and keeps the low
    eight bits; an unknown escape stays as it is written. *)
Fixpoint decode_escapes (body : string) : option (list N) :=
  match body with
  | EmptyString => Some []
  | String c r =>
      if Ascii.eqb c Py.backslash then
        match r with
        | EmptyString => None
        | String d r1 =>
            if Ascii.eqb d Py.LF then decode_escapes r1
            else match simple_escape d with
            | Some b => cons_byte b (decode_escapes r1)
            | None =>
              if isoctal d then
                match r1 with
                | String o2 r2 =>
                    if isoctal o2 then
                      match r2 with
                      | String o3 r3 =>
                          if isoctal o3 then
                            cons_byte
                              ((octal_value d * 64 + octal_value o2 * 8
                                + octal_value o3) mod 256)%N
                              (decode_escapes r3)
                          else
                            cons_byte (octal_value d * 8 + octal_value o2)%N
                                      (decode_escapes r2)
                      | EmptyString =>
                          cons_byte (octal_value d * 8 + octal_value o2)%N
                                    (decode_escapes r2)
                      end
                    else cons_byte (octal_value d) (decode_escapes r1)
                | EmptyString => cons_byte (octal_value d) (decode_escapes r1)
                end
              else if Ascii.eqb d "x" then
                match r1 with
                | String h1 (String h2 r3) =>
                    if ishex h1 && ishex h2 then
                      cons_byte (hex_value h1 * 16 + hex_value h2)%N
                                (decode_escapes r3)
                    else None
                | _ => None
                end
              else if Ascii.eqb d zero then None
              else if (code d <? 128)%N then
                cons_byte 92%N (cons_byte (code d) (decode_escapes r1))
              else None
            end
        end
      else if Ascii.eqb c Py.LF then None
      else if Ascii.eqb c zero then None
      else if (code c <? 128)%N then cons_byte (code c) (decode_escapes r)
      else None
  end.

Definition is_cont (b : N) : bool := (128 <=? b)%N && (b <=? 191)%N.

Definition between (lo hi b : N) : bool := (lo <=? b)%N && (b <=? hi)%N.

Definition cons_point (p : N) (m : option (list N)) : option (list N) :=
  match m with Some ps => Some (p :: ps) | None => None end.

(** [bytes.decode('utf-8')] with strict errors: shortest form only, no
    surrogates, nothing above U+10FFFF. *)
Fixpoint utf8_decode (bs : list N) : option (list N) :=
  match bs with
  | [] => Some []
  | b0 :: r0 =>
      if (b0 <? 128)%N then cons_point b0 (utf8_decode r0)
      else if between 194 223 b0 then
        match r0 with
        | b1 :: r1 =>
            if is_cont b1
            then cons_point ((b0 - 192) * 64 + (b1 - 128))%N (utf8_decode r1)
            else None
        | _ => None
        end
      else if between 224 239 b0 then
        match r0 with
        | b1 :: b2 :: r2 =>
            if between (if (b0 =? 224)%N then 160 else 128)
                       (if (b0 =? 237)%N then 159 else 191) b1
               && is_cont b2
            then cons_point
                   ((b0 - 224) * 4096 + (b1 - 128) * 64 + (b2 - 128))%N
                   (utf8_decode r2)
            else None
        | _ => None
        end
      else if between 240 244 b0 then
        match r0 with
        | b1 :: b2 :: b3 :: r3 =>
            if between (if (b0 =? 240)%N then 144 else 128)
                       (if (b0 =? 244)%N then 143 else 191) b1
               && is_cont b2 && is_cont b3
            then cons_point
                   ((b0 - 240) * 262144 + (b1 - 128) * 4096
                    + (b2 - 128) * 64 + (b3 - 128))%N
                   (utf8_decode r3)
            else None
        | _ => None
        end
      else None
  end.

(** [s[1:-1]] of a text that ends in a quote. *)
Definition body_of (name : string) : string := Py.slice_to_last 1 name.

(** [eval(f"b{name}.decode('utf-8')")] for a [name] cut by the label
    scan: it ends with the first quote that no backslash escapes, so when
    it also opens with a quote the whole of it is one literal. *)
Definition eval_decode (name : string) : eval_outcome :=
  match name with
  | String q _ =>
      if Ascii.eqb q "'" then
        match decode_escapes (translate_newlines (body_of name)) with
        | Some bs =>
            match utf8_decode bs with
            | Some text => EvalText text
            | None => EvalUnicodeDecodeError
            end
        | None => EvalRaise SyntaxError
        end
      else EvalNotALiteral
  | EmptyString => EvalNotALiteral
  end.

End Bytes.

(** ** The column type decoder ([inspectdb.py]) *)

(** Modelled from the spec: [ensure_str] is defined in
    [clickhouse_backend/utils/encoding.py], which is not among the sources.
    The spec's decoder takes a string as its input, and on a value that
    already is a [str] the helper hands it back unchanged. *)
Definition ensure_str (s : string) : string := s.

(** [int(c)] for a one-character string. *)
Definition int_of_char (c : ascii) : outcome Z :=
  if Py.isdecimal c then Return (Z.of_nat (nat_of_ascii c) - 48)%Z
  else Raise ValueError.

Definition nonempty (s : string) : bool := negb (String.eqb s EmptyString).

(** [merge_params] joins its arguments that are not empty:
    [", ".join(filter(None, params))]. *)
Definition merge_params (params : list string) : string :=
  Py.join ", " (filter nonempty params).

(** The label loop of [consume_enum_choice], reading from [rest = s[i:]]:
    a backslash skips the character after it (and [\x] sets [has_bytes]),
    a quote ends the label. *)
Fixpoint scan_label (rest : string) (i : nat) (has_bytes : bool)
  : outcome (nat * bool) :=
  match rest with
  | EmptyString => Raise IndexError
  | String c r =>
      if Ascii.eqb c Py.backslash then
        match r with
        | EmptyString => Raise IndexError
        | String d r' =>
            scan_label r' (i + 2) (if Ascii.eqb d "x" then true else has_bytes)
        end
      else if Ascii.eqb c "'" then Return (i, has_bytes)
      else scan_label r (i + 1) has_bytes
  end.

Section TypeDecoder.

(** [models.DateTime64Field.DEFAULT_PRECISION], a constant of the
    package's model fields. *)
Variable DEFAULT_PRECISION : Z.

(** Python's [repr] of a [str], given by its code points. *)
Variable repr : list N -> string.

(** The [try] block of [consume_enum_choice]: only a
    [UnicodeDecodeError] is handled. *)
Definition resolve_label (name : string) (has_bytes : bool)
  : outcome string :=
  if has_bytes then
    match Bytes.eval_decode name with
    | EvalText decoded => Return (repr decoded)
    | EvalUnicodeDecodeError => Return ("b" ++ name)
    | EvalRaise e => Raise e
    | EvalNotALiteral => Stuck NotALiteral
    end
  else Return name.

(** [consume_enum_choice(s)] returns [name, value, s[i:]]. *)
Definition consume_enum_choice (s : string)
  : outcome (string * string * string) :=
  (ih <- scan_label (Py.drop 1 s) 1 false ;;
   let i := fst ih + 1 in
   name <- resolve_label (Py.take i s) (snd ih) ;;
   let i := i + 3 in
   let j := i in
   i <- scan_while Py.isdigit (Py.drop i s) i ;;
   Return (name, Py.slice j i s, Py.drop i s))%out.

Definition choice_text (name value : string) : string :=
  "(" ++ value ++ ", " ++ name ++ ")".

(** [while remain[0] != ")"] of the [Enum] branch; every round reads at
    least the two characters it skips, so [n] rounds are enough for a
    [remain] of length [n]. *)
Fixpoint enum_loop (n : nat) (remain : string) (choices : list string)
  : outcome (string * list string) :=
  (c <- item remain 0 ;;
   if negb (Ascii.eqb c ")") then
     match n with
     | O => Stuck OutOfFuel
     | S n' =>
         nvr <- consume_enum_choice (Py.drop 2 remain) ;;
         let '(name, value, remain) := nvr in
         enum_loop n' remain (choices ++ [choice_text name value])%list
     end
   else Return (remain, choices))%out.

Local Open Scope gen_scope.

(** [while remain[0] == ","] of the [Tuple] branch, over the decoder
    [rec] for the elements. *)
Fixpoint tuple_loop (rec : string -> gen string) (n : nat) (remain : string)
  : gen string :=
  c <- lift (item remain 0) ;;
  if Ascii.eqb c "," then
    match n with
    | O => lift (Stuck OutOfFuel)
    | S n' =>
        yield ", " ;;;
        remain <- rec (Py.drop 2 remain) ;;
        tuple_loop rec n' remain
    end
  else gret remain.

Definition yield_param (param : string) : gen unit :=
  if nonempty param then yield (", " ++ param) else gret tt.

Definition not_quote (c : ascii) : bool := negb (Ascii.eqb c "'").

Definition item_is (s : string) (i : nat) (c : ascii) : bool :=
  match String.get i s with
  | Some d => Ascii.eqb d c
  | None => false
  end.

(** [inspect_field_type(column_type, param)]: the fragments it yields and
    the remainder it returns.  [fuel] bounds the depth of the recursion. *)
Fixpoint inspect_field_type_fuel (fuel : nat) (column_type param : string)
  : gen string :=
  match fuel with
  | O => lift (Stuck OutOfFuel)
  | S fuel' =>
    let column_type := ensure_str column_type in
    if Py.startswith column_type "LowCardinality" then
      let param := merge_params [param; "low_cardinality=True"] in
      remain <- inspect_field_type_fuel fuel' (Py.drop 15 column_type) param ;;
      gret (Py.drop 1 remain)
    else if Py.startswith column_type "Nullable" then
      let param := merge_params [param; "null=True"; "blank=True"] in
      remain <- inspect_field_type_fuel fuel' (Py.drop 9 column_type) param ;;
      gret (Py.drop 1 remain)
    else if Py.startswith column_type "FixedString" then
      i <- lift (scan_while Py.isdigit (Py.drop 12 column_type) 12) ;;
      let param :=
        merge_params [param; "max_bytes=" ++ Py.slice 12 i column_type] in
      yield ("models.FixedStringField(" ++ param ++ ")") ;;;
      gret (Py.drop (i + 1) column_type)
    else if Py.startswith column_type "DateTime64" then
      c11 <- lift (item column_type 11) ;;
      precision <- lift (int_of_char c11) ;;
      let param :=
        if negb (Z.eqb precision DEFAULT_PRECISION)
        then merge_params [param; "precision=" ++ Py.chr c11]
        else param in
      yield ("models.DateTime64Field(" ++ param ++ ")") ;;;
      c12 <- lift (item column_type 12) ;;
      if Ascii.eqb c12 "," then
        i <- lift (scan_while not_quote (Py.drop 15 column_type) 15) ;;
        gret (Py.drop (i + 2) column_type)
      else gret (Py.drop 13 column_type)
    else if Py.startswith column_type "DateTime" then
      yield ("models.DateTimeField(" ++ param ++ ")") ;;;
      if Nat.ltb 8 (String.length column_type) && item_is column_type 8 "("
      then
        (* i = 10; the loop body ends in a return, so it runs at most
           once, with i = 11 *)
        c10 <- lift (item column_type 10) ;;
        if not_quote c10 then gret (Py.drop (11 + 2) column_type)
        else gret (Py.drop 8 column_type)
      else gret (Py.drop 8 column_type)
    else if Py.startswith column_type "Decimal" then
      i <- lift (scan_while Py.isdigit (Py.drop 8 column_type) 8) ;;
      let max_digits := "max_digits=" ++ Py.slice 8 i column_type in
      let i := i + 2 in
      let j := i in
      i <- lift (scan_while Py.isdigit (Py.drop i column_type) i) ;;
      let decimal_places := "decimal_places=" ++ Py.slice j i column_type in
      let param := merge_params [param; max_digits; decimal_places] in
      yield ("models.DecimalField(" ++ param ++ ")") ;;;
      gret (Py.drop (i + 1) column_type)
    else if Py.startswith column_type "Enum" then
      i <- lift (scan_while Py.isdigit (Py.drop 4 column_type) 4) ;;
      let typ := Py.take i column_type in
      nvr <- lift (consume_enum_choice (Py.drop (i + 1) column_type)) ;;
      let '(name, value, remain) := nvr in
      rc <- lift (enum_loop (String.length remain) remain
                            [choice_text name value]) ;;
      let '(remain, choices) := rc in
      let param :=
        merge_params [param; "choices=[" ++ Py.join ", " choices ++ "]"] in
      yield ("models." ++ typ ++ "Field(" ++ param ++ ")") ;;;
      gret (Py.drop 1 remain)
    else if Py.startswith column_type "Array" then
      yield "models.ArrayField(" ;;;
      remain <- inspect_field_type_fuel fuel' (Py.drop 6 column_type) "" ;;
      yield_param param ;;;
      yield ")" ;;;
      gret (Py.drop 1 remain)
    else if Py.startswith column_type "Tuple" then
      yield "models.TupleField([" ;;;
      remain <- inspect_field_type_fuel fuel' (Py.drop 6 column_type) "" ;;
      remain <- tuple_loop (fun t => inspect_field_type_fuel fuel' t "")
                           (String.length remain) remain ;;
      yield "]" ;;;
      yield_param param ;;;
      yield ")" ;;;
      gret (Py.drop 1 remain)
    else if Py.startswith column_type "Map" then
      yield "models.MapField(" ;;;
      remain <- inspect_field_type_fuel fuel' (Py.drop 4 column_type) "" ;;
      yield ", " ;;;
      remain <- inspect_field_type_fuel fuel' (Py.drop 2 remain) "" ;;
      yield_param param ;;;
      yield ")" ;;;
      gret (Py.drop 1 remain)
    else if Py.startswith column_type "Object('json')" then
      yield ("models.JSONField(" ++ param ++ ")") ;;;
      gret (Py.drop 14 column_type)
    else
      let i := scan_while_bounded Py.isalnum column_type 0 in
      yield ("models." ++ Py.take i column_type ++ "Field(" ++ param ++ ")") ;;;
      gret (Py.drop i column_type)
  end.

(** The decoder itself: a call on [column_type] never nests deeper than
    the string is long.  (Python's own limit on the depth of recursion is
    left out.) *)
Definition inspect_field_type (column_type param : string) : gen string :=
  inspect_field_type_fuel (S (String.length column_type)) column_type param.

End TypeDecoder.

(** ** Regular expressions, as Python's [re] matches them

    A backtracking matcher in continuation-passing style: an alternative
    that was tried first wins, a greedy repetition tries one more round
    before it tries to stop, a lazy one the other way round, and a group
    that took no part in the match stays unset. *)

Module Re.

Inductive regex : Type :=
| Eps
| Chr (c : ascii)
| Class (p : ascii -> bool)
| Seq (r1 r2 : regex)
| Alt (r1 r2 : regex)
| Repeat (greedy : bool) (lo : nat) (hi : option nat) (r : regex)
| Group (n : nat) (r : regex)
| IfGroup (n : nat) (yes no : regex).

(** [r?], [r+], [r+?] and [r*] *)
Definition Opt (r : regex) : regex := Repeat true 0 (Some 1) r.
Definition Plus (r : regex) : regex := Repeat true 1 None r.
Definition LazyPlus (r : regex) : regex := Repeat false 1 None r.
Definition Star (r : regex) : regex := Repeat true 0 None r.

Fixpoint Lit (s : string) : regex :=
  match s with
  | EmptyString => Eps
  | String c s' => Seq (Chr c) (Lit s')
  end.

(** The regular expressions of a list, one after the other. *)
Fixpoint cat (rs : list regex) : regex :=
  match rs with
  | [] => Eps
  | [r] => r
  | r :: rs' => Seq r (cat rs')
  end.

(** The groups that are set, latest first. *)
Definition captures : Type := list (nat * string).

Fixpoint group (n : nat) (caps : captures) : option string :=
  match caps with
  | [] => None
  | (m, text) :: caps' => if Nat.eqb m n then Some text else group n caps'
  end.

Definition is_set (n : nat) (caps : captures) : bool :=
  match group n caps with Some _ => true | None => false end.

Definition below (hi : option nat) (cnt : nat) : bool :=
  match hi with Some h => Nat.ltb cnt h | None => true end.

Definition orelse {R} (a : option R) (b : unit -> option R) : option R :=
  match a with Some x => Some x | None => b tt end.

(** The rounds of a repetition whose body is matched by [body]: [cnt]
    rounds are done, [s] is what is left.  A round has to read at least
    one character, so [fuel], the length of the text the repetition
    started on, bounds the rounds still possible. *)
Fixpoint rounds {R}
         (body : string -> captures -> (string -> captures -> option R)
                 -> option R)
         (greedy : bool) (lo : nat) (hi : option nat)
         (k : string -> captures -> option R)
         (fuel cnt : nat) (s : string) (caps : captures) : option R :=
  let stop := fun _ : unit => if Nat.leb lo cnt then k s caps else None in
  let more := fun _ : unit =>
    match fuel with
    | O => None
    | S fuel' =>
        if below hi cnt then
          body s caps
               (fun s' caps' =>
                  if Nat.ltb (String.length s') (String.length s)
                  then rounds body greedy lo hi k fuel' (S cnt) s' caps'
                  else None)
        else None
    end in
  if greedy then orelse (more tt) stop else orelse (stop tt) more.

(** [mtch r s caps k]: match [r] at the head of [s], then go on with [k]
    on what is left; [None] when every way of matching fails. *)
Fixpoint mtch {R} (r : regex) (s : string) (caps : captures)
         (k : string -> captures -> option R) : option R :=
  match r with
  | Eps => k s caps
  | Chr c =>
      match s with
      | String d s' => if Ascii.eqb d c then k s' caps else None
      | EmptyString => None
      end
  | Class p =>
      match s with
      | String d s' => if p d then k s' caps else None
      | EmptyString => None
      end
  | Seq r1 r2 => mtch r1 s caps (fun s' caps' => mtch r2 s' caps' k)
  | Alt r1 r2 => orelse (mtch r1 s caps k) (fun _ => mtch r2 s caps k)
  | Group n r1 =>
      mtch r1 s caps
           (fun s' caps' =>
              k s' ((n, Py.take (String.length s - String.length s') s)
                    :: caps'))
  | IfGroup n yes no =>
      if is_set n caps then mtch yes s caps k else mtch no s caps k
  | Repeat greedy lo hi r1 =>
      rounds (mtch r1) greedy lo hi k (String.length s) 0 s caps
  end.

(** [pattern.match] at the head of [s]: what is left and the groups. *)
Definition match_here (r : regex) (s : string) : option (string * captures) :=
  mtch r s [] (fun s' caps => Some (s', caps)).

(** The tuple [findall] reports for a match: groups [1..n], an unset
    group as the empty string. *)
Definition groups_of (n : nat) (caps : captures) : list string :=
  map (fun i => match group i caps with Some t => t | None => EmptyString end)
      (List.seq 1 n).

(** [pattern.findall(s)] for a pattern with [n] groups: the matches from
    left to right, each search starting where the last match ended.
    [skip] counts the characters of the last match still to pass.  The
    patterns of this module open with a keyword, so they have no empty
    match, and the special rule for those is left out. *)
Fixpoint findall_from (r : regex) (n : nat) (s : string) (skip : nat)
  : list (list string) :=
  match skip with
  | S skip' =>
      match s with
      | String _ s' => findall_from r n s' skip'
      | EmptyString => []
      end
  | O =>
      match match_here r s with
      | Some (rest, caps) =>
          groups_of n caps ::
          match s with
          | String _ s' =>
              findall_from r n s' (String.length s - String.length rest - 1)
          | EmptyString => []
          end
      | None =>
          match s with
          | String _ s' => findall_from r n s' 0
          | EmptyString => []
          end
      end
  end.

Definition findall (r : regex) (n : nat) (s : string) : list (list string) :=
  findall_from r n s 0.

(** The character classes of the two patterns. *)
Definition dot (c : ascii) : bool := negb (Ascii.eqb c Py.LF).
Definition nonspace (c : ascii) : bool := negb (Py.isspace c).
Definition not_backslash_backtick (c : ascii) : bool :=
  negb (Ascii.eqb c Py.backslash) && negb (Ascii.eqb c "`").
Definition ident_start (c : ascii) : bool :=
  Py.in_range 97 122 c || Py.in_range 65 90 c || Ascii.eqb c "_".
Definition ident_char (c : ascii) : bool :=
  Py.in_range 48 57 c || ident_start c.

End Re.

(** ** Introspection ([introspection.py]) *)

(** The two patterns open alike: a keyword, then a name that is either
    quoted in backticks (with backslash escapes) or a run of characters
    that are not white space:
    [(`)?((?(1)(?:[^\`]|\.)+|\S+))(?(1)`|)] and a space. *)
Definition quoted_or_bare_name : list Re.regex :=
  [ Re.Opt (Re.Group 1 (Re.Chr "`"));
    Re.Group 2
      (Re.IfGroup 1
         (Re.Plus (Re.Alt (Re.Class Re.not_backslash_backtick)
                          (Re.Seq (Re.Chr Py.backslash) (Re.Class Re.dot))))
         (Re.Plus (Re.Class Re.nonspace)));
    Re.IfGroup 1 (Re.Chr "`") Re.Eps;
    Re.Chr " " ].

(** [constraint_pattern]: [CONSTRAINT ], the name, then group 3
    [(CHECK .+?)], then [,?\n]. *)
Definition constraint_pattern : Re.regex :=
  Re.cat
    ([ Re.Lit "CONSTRAINT " ] ++ quoted_or_bare_name ++
     [ Re.Group 3 (Re.Seq (Re.Lit "CHECK ") (Re.LazyPlus (Re.Class Re.dot)));
       Re.Opt (Re.Chr ",");
       Re.Chr Py.LF ])%list.

(** [index_pattern]: [INDEX ], the name, then group 3, which is [.+? TYPE ],
    group 4 for the engine (a letter or underscore, then any number of
    letters, digits and underscores), an opening parenthesis, [.+?], a
    closing parenthesis, [ GRANULARITY \d+]. *)
Definition index_pattern : Re.regex :=
  Re.cat
    ([ Re.Lit "INDEX " ] ++ quoted_or_bare_name ++
     [ Re.Group 3
         (Re.cat
            [ Re.LazyPlus (Re.Class Re.dot);
              Re.Lit " TYPE ";
              Re.Group 4 (Re.Seq (Re.Class Re.ident_start)
                                 (Re.Star (Re.Class Re.ident_char)));
              Re.Chr "(";
              Re.LazyPlus (Re.Class Re.dot);
              Re.Lit ") GRANULARITY ";
              Re.Plus (Re.Class Py.isdecimal) ]) ])%list.

(** A Python [dict] with string keys: the items in insertion order, a key
    at most once; storing under a key that is present replaces its value
    where it stands. *)
Module Dict.

Definition t (V : Type) : Type := list (string * V).

Fixpoint set {V} (d : t V) (k : string) (v : V) : t V :=
  match d with
  | [] => [(k, v)]
  | (k', v') :: d' =>
      if String.eqb k' k then (k, v) :: d' else (k', v') :: set d' k v
  end.

Fixpoint get {V} (d : t V) (k : string) : option V :=
  match d with
  | [] => None
  | (k', v') :: d' => if String.eqb k' k then Some v' else get d' k
  end.

Definition keys {V} (d : t V) : list string := map fst d.

End Dict.

(** The value [get_constraints] stores under a name.  The keys [orders]
    and [type] exist for an index only; [foreign_key] and [options] are
    always [None]. *)
Record constraint_info : Type := mk_constraint {
  columns : list string;
  orders : option (list string);
  primary_key : bool;
  unique : bool;
  foreign_key : option string;
  check : bool;
  index : bool;
  type_ : option string;
  definition : string;
  options : option string
}.

Definition check_info (definition : string) : constraint_info :=
  {| columns := []; orders := None; primary_key := false; unique := false;
     foreign_key := None; check := true; index := false; type_ := None;
     definition := definition; options := None |}.

Definition index_info (definition type_ : string) : constraint_info :=
  {| columns := []; orders := Some []; primary_key := false; unique := false;
     foreign_key := None; check := false; index := true; type_ := Some type_;
     definition := definition; options := None |}.

(** [for backtick, name, definition in constraint_pattern.findall(...)] *)
Definition add_check (constraints : Dict.t constraint_info) (m : list string)
  : Dict.t constraint_info :=
  match m with
  | [_; name; definition] => Dict.set constraints name (check_info definition)
  | _ => constraints
  end.

(** [for backtick, name, definition, type_ in index_pattern.findall(...)] *)
Definition add_index (constraints : Dict.t constraint_info) (m : list string)
  : Dict.t constraint_info :=
  match m with
  | [_; name; definition; type_] =>
      Dict.set constraints name (index_info definition type_)
  | _ => constraints
  end.

(** The two loops of [get_constraints] over the text of
    [SHOW CREATE TABLE]. *)
Definition constraints_of_sql (table_sql : string) : Dict.t constraint_info :=
  let constraints := [] in
  let constraints :=
    fold_left add_check (Re.findall constraint_pattern 3 table_sql)
              constraints in
  let constraints :=
    fold_left add_index (Re.findall index_pattern 4 table_sql) constraints in
  constraints.

(** The first loop of [get_constraints] alone. *)
Definition check_scan (table_sql : string) : Dict.t constraint_info :=
  fold_left add_check (Re.findall constraint_pattern 3 table_sql) [].

(** [get_constraints(cursor, table_name)]; [cursor] answers a query with
    the one column of the row [fetchone] returns, or raises. *)
Definition get_constraints (cursor : string -> outcome string)
           (table_name : string) : outcome (Dict.t constraint_info) :=
  (table_sql <- cursor ("SHOW CREATE TABLE " ++ Py.chr Py.dquote ++ table_name
                        ++ Py.chr Py.dquote) ;;
   Return (constraints_of_sql table_sql))%out.

(** [DatabaseIntrospection.data_types_reverse] *)
Definition data_types_reverse : Dict.t string :=
  [ ("String", "TextField");
    ("Int64", "BigIntegerField");
    ("Int16", "SmallIntegerField");
    ("Int32", "IntegerField");
    ("UInt64", "PositiveBigIntegerField");
    ("UInt16", "PositiveSmallIntegerField");
    ("UInt32", "PositiveIntegerField");
    ("Float32", "FloatField");
    ("Float64", "FloatField");
    ("IPv4", "GenericIPAddressField");
    ("IPv6", "GenericIPAddressField");
    ("Date", "DateField");
    ("Date32", "DateField");
    ("DateTime", "DateTimeField");
    ("UUID", "UUIDField") ].

(** [BaseDatabaseIntrospection.get_field_type] of Django, the method
    [super()] stands for: [self.data_types_reverse[data_type]]. *)
Definition base_get_field_type {description : Type} (data_type : string)
           (_ : description) : outcome string :=
  match Dict.get data_types_reverse data_type with
  | Some field_type => Return field_type
  | None => Raise (KeyError data_type)
  end.

Lemma length_drop (i : nat) (s : string) :
  String.length (Py.drop i s) = String.length s - i.
Proof.
  revert s; induction i as [|i IH]; intros [|c s]; simpl; auto.
Qed.

Lemma length_take (i : nat) (s : string) :
  String.length (Py.take i s) = Nat.min i (String.length s).
Proof.
  revert s; induction i as [|i IH]; intros [|c s]; simpl; auto.
Qed.

Lemma length_slice_to_last (i : nat) (s : string) :
  s <> EmptyString ->
  String.length (Py.slice_to_last i s) < String.length s.
Proof.
  intros Hs. unfold Py.slice_to_last, Py.slice.
  rewrite length_take, length_drop.
  destruct s as [|c s]; [congruence | simpl; lia].
Qed.

(** A value together with the equation that names it, for the recursion
    below to remember which test it passed. *)
Definition inspect {A} (a : A) : {b : A | a = b} := exist _ a eq_refl.

Section FieldType.

(** The description row, which [get_field_type] only passes on. *)
Variable description : Type.

(** [super().get_field_type], the method of Django's
    [BaseDatabaseIntrospection]. *)
Variable super_get_field_type : string -> description -> outcome string.

Equations get_field_type (data_type : string) (d : description)
  : outcome string by wf (String.length data_type) lt :=
  get_field_type data_type d with inspect (Py.startswith data_type "FixedString") := {
    | exist _ true _ => Return "CharField"
    | exist _ false _ with inspect (Py.startswith data_type "DateTime64") := {
      | exist _ true _ => Return "DateTimeField"
      | exist _ false _ with inspect (Py.startswith data_type "Decimal") := {
        | exist _ true _ => Return "DecimalField"
        | exist _ false _ with inspect (Py.startswith data_type "Nullable") := {
          | exist _ true _ => get_field_type (Py.slice_to_last 9 data_type) d
          | exist _ false _ => super_get_field_type data_type d } } } }.
Next Obligation.
  apply length_slice_to_last. intros ->. discriminate.
Qed.

End FieldType.

(** ** The command ([inspectdb.py], [handle_inspection]) *)

(** A row of a table description: Django's [FieldInfo], the named tuple
    [get_table_description] fills from the nine columns of its query.  The
    command reads the name and the type code. *)
Record FieldInfo : Type := mk_field {
  fi_name : string;
  fi_type_code : string
}.

(** An entry of the table list: Django's [TableInfo], the named tuple
    [get_table_list] fills with a name and a type, [t] or [v]. *)
Record TableInfo : Type := mk_table {
  ti_name : string;
  ti_type : string
}.

(** [row.comment] and [info.comment]: neither tuple has a field of that
    name, so reading it raises [AttributeError]. *)
Definition fi_comment (row : FieldInfo) : outcome (option string) :=
  Raise AttributeError.

Definition ti_comment (info : TableInfo) : outcome (option string) :=
  Raise AttributeError.

(** A value among the field parameters: a string or a boolean. *)
Inductive pyval : Type :=
| VStr (s : string)
| VBool (b : bool).

(** What the command asks of the connection: whether comments are
    supported, [connection.cursor()], the table list, the answer the
    cursor gives to [SHOW CREATE TABLE] and a table's description.  Each
    call may raise. *)
Record connection : Type := mk_connection {
  supports_comments : bool;
  open_cursor : outcome unit;
  get_table_list : outcome (list TableInfo);
  cursor : string -> outcome string;
  get_table_description : string -> outcome (list FieldInfo)
}.

Record command_options : Type := mk_options {
  opt_database : string;
  opt_table : list string;
  opt_include_views : bool;
  opt_table_name_filter : option (string -> bool)
}.

Definition truthy (s : option string) : bool :=
  match s with Some t => nonempty t | None => false end.

Definition upper (c : ascii) : ascii :=
  if Py.in_range 97 122 c then ascii_of_nat (nat_of_ascii c - 32) else c.

Definition lower (c : ascii) : ascii :=
  if Py.in_range 65 90 c then ascii_of_nat (nat_of_ascii c + 32) else c.

Definition is_ascii_letter (c : ascii) : bool :=
  Py.in_range 65 90 c || Py.in_range 97 122 c.

(** [re.sub(r"[^a-zA-Z0-9]", "", table_name.title())], character by
    character: a letter is upper-cased at the start of a run of letters
    and lower-cased inside it; only ASCII letters and digits survive the
    substitution.  A letter above 127 continues a run and leaves nothing,
    but for a sharp s at the start of a run, whose title case is [Ss]. *)
Fixpoint table2model_from (s : string) (in_word : bool) : string :=
  match s with
  | EmptyString => EmptyString
  | String c s' =>
      if is_ascii_letter c then
        String (if in_word then lower c else upper c) (table2model_from s' true)
      else if Py.isalpha c then
        (if Ascii.eqb c "223" && negb in_word then "Ss" else "")
        ++ table2model_from s' true
      else if Py.isdecimal c then String c (table2model_from s' false)
      else table2model_from s' false
  end.

Definition table2model (table_name : string) : string :=
  table2model_from table_name false.

Fixpoint insert_sorted (x : string) (l : list string) : list string :=
  match l with
  | [] => [x]
  | y :: l' => if String.leb x y then x :: l else y :: insert_sorted x l'
  end.

(** [sorted(names)] *)
Definition sorted (l : list string) : list string :=
  fold_right insert_sorted [] l.

(** ["".join(generator)]: the fragments put together, unless the
    generator raises. *)
Definition join_gen {A} (g : gen A) : outcome string :=
  match g with
  | (ys, Return _) => Return (String.concat "" ys)
  | (_, Raise e) => Raise e
  | (_, Stuck w) => Stuck w
  end.

Definition header (db_module : string) : list string :=
  [ "# This is an auto-generated Django model module.";
    "# You'll have to do the following manually to clean this up:";
    "#   * Rearrange models' order";
    "#   * Make sure each model has one field with primary_key=True";
    "#   * Remove `managed = False` lines if you wish to allow "
      ++ "Django to create, modify, and delete the table";
    "# Feel free to rename the models, but don't rename db_table values or "
      ++ "field names.";
    "from " ++ db_module ++ " import models" ].

Definition db_module : string := "clickhouse_backend".

Fixpoint yield_all (lines : list string) : gen unit :=
  match lines with
  | [] => gret tt
  | l :: ls => gbind (yield l) (fun _ => yield_all ls)
  end.

Section Inspection.

Variable DEFAULT_PRECISION : Z.
Variable repr : list N -> string.

(** [compat.dj_ge42] *)
Variable dj_ge42 : bool.

(** [str(e)], the message of an exception. *)
Variable str_of_exn : exn -> string.

(** Django's [normalize_col_name(col_name, used_column_names,
    is_relation)]: the attribute name, the field parameters and the
    notes. *)
Variable normalize_col_name :
  string -> list string -> bool -> string * Dict.t pyval * list string.

(** Django's [get_meta(table_name, constraints, column_to_field_name,
    is_view, is_partition, comment)]: the lines of the [Meta] class. *)
Variable get_meta :
  string -> Dict.t constraint_info -> Dict.t string -> bool -> bool ->
  option string -> list string.

Variable conn : connection.

Definition repr_val (v : pyval) : string :=
  match v with
  | VStr s => repr (map N_of_ascii (list_ascii_of_string s))
  | VBool true => "True"
  | VBool false => "False"
  end.

Local Open Scope gen_scope.

(** The body of [for row in table_description].  The comment of the row
    is read when [dj_ge42] and [supports_comments] both hold, and nothing
    around that or around the call of [inspect_field_type] handles an
    exception. *)
Definition inspect_row (row : FieldInfo)
           (st : list string * Dict.t string)
  : gen (list string * Dict.t string) :=
  let '(used_column_names, column_to_field_name) := st in
  let column_name := fi_name row in
  let '(att_name, extra_params, comment_notes) :=
    normalize_col_name column_name used_column_names false in
  let used_column_names := (used_column_names ++ [att_name])%list in
  let column_to_field_name :=
    Dict.set column_to_field_name column_name att_name in
  extra_params <-
    lift (if dj_ge42 && supports_comments conn then
            (comment <- fi_comment row ;;
             Return (if truthy comment
                     then Dict.set extra_params "db_comment"
                            (VStr (match comment with
                                   | Some c => c
                                   | None => EmptyString
                                   end))
                     else extra_params))%out
          else Return extra_params) ;;
  let param :=
    match extra_params with
    | [] => EmptyString
    | _ => Py.join ", "
             (map (fun kv => fst kv ++ "=" ++ repr_val (snd kv)) extra_params)
    end in
  field_define <-
    lift (join_gen (inspect_field_type DEFAULT_PRECISION repr
                                       (fi_type_code row) param)) ;;
  let field_desc := att_name ++ " = " ++ field_define in
  let field_desc :=
    match comment_notes with
    | [] => field_desc
    | _ => field_desc ++ "  # " ++ Py.join " " comment_notes
    end in
  yield ("    " ++ field_desc) ;;;
  gret (used_column_names, column_to_field_name).

Fixpoint inspect_rows (rows : list FieldInfo)
         (st : list string * Dict.t string)
  : gen (list string * Dict.t string) :=
  match rows with
  | [] => gret st
  | row :: rows' => st' <- inspect_row row st ;; inspect_rows rows' st'
  end.

(** The [try] block at the head of the table loop: a
    [NotImplementedError] of [get_constraints] gives no constraints, any
    other exception of the two catalog calls goes to the handler. *)
Definition fetch_table (table_name : string)
  : outcome (Dict.t constraint_info * list FieldInfo) :=
  (constraints <-
     match get_constraints (cursor conn) table_name with
     | Raise NotImplementedError => Return []
     | o => o
     end ;;
   table_description <- get_table_description conn table_name ;;
   Return (constraints, table_description))%out.

(** One round of [for table_name in ...], after the name filter. *)
Definition inspect_table (table_info : Dict.t TableInfo) (table_name : string)
  : gen unit :=
  match fetch_table table_name with
  | Raise e =>
      yield ("# Unable to inspect table '" ++ table_name ++ "'") ;;;
      yield ("# The error was: " ++ str_of_exn e)
  | Stuck w => lift (Stuck w)
  | Return (constraints, table_description) =>
      let model_name := table2model table_name in
      yield "" ;;;
      yield "" ;;;
      yield ("class " ++ model_name ++ "(models.ClickhouseModel):") ;;;
      st <- inspect_rows table_description ([], []) ;;
      let column_to_field_name := snd st in
      vc <- lift (match Dict.get table_info table_name with
                  | Some info =>
                      (comment <- (if supports_comments conn
                                   then ti_comment info else Return None) ;;
                       Return (String.eqb (ti_type info) "v", comment))%out
                  | None => Return (false, None)
                  end) ;;
      let '(is_view, comment) := vc in
      yield_all (get_meta table_name constraints column_to_field_name
                          is_view false comment)
  end.

Fixpoint inspect_tables (opts : command_options) (table_info : Dict.t TableInfo)
         (names : list string) : gen unit :=
  match names with
  | [] => gret tt
  | table_name :: names' =>
      let skip :=
        match opt_table_name_filter opts with
        | Some table_name_filter => negb (table_name_filter table_name)
        | None => false
        end in
      (if skip then gret tt else inspect_table table_info table_name) ;;;
      inspect_tables opts table_info names'
  end.

End Inspection.

Section Command.

Variable DEFAULT_PRECISION : Z.
Variable repr : list N -> string.
Variable dj_ge42 : bool.
Variable str_of_exn : exn -> string.
Variable normalize_col_name :
  string -> list string -> bool -> string * Dict.t pyval * list string.
Variable get_meta :
  string -> Dict.t constraint_info -> Dict.t string -> bool -> bool ->
  option string -> list string.

(** Django's [connections], the handler of the configured databases:
    [connections[alias]] gives a connection or raises. *)
Variable connections : string -> outcome connection.

Local Open Scope gen_scope.

(** [handle_inspection(options)]: the lines the generator yields and how
    it ends.  The connection is looked up and its cursor is opened before
    the first line is yielded; the cursor is closed when the block is
    left, which Django's cursor wrapper does without letting a database
    error out. *)
Definition handle_inspection (opts : command_options) : gen unit :=
  conn <- lift (connections (opt_database opts)) ;;
  lift (open_cursor conn) ;;;
  yield_all (header db_module) ;;;
  let types := if opt_include_views opts then ["t"; "v"] else ["t"] in
  table_list <- lift (get_table_list conn) ;;
  let table_info :=
    fold_left
      (fun d info =>
         if existsb (String.eqb (ti_type info)) types
         then Dict.set d (ti_name info) info else d)
      table_list [] in
  let names :=
    match opt_table opts with
    | [] => sorted (Dict.keys table_info)
    | _ :: _ => opt_table opts
    end in
  inspect_tables DEFAULT_PRECISION repr dj_ge42 str_of_exn normalize_col_name
                 get_meta conn opts table_info names.

End Command.

(** ** An instance of the parameters

    The decoder is parametric in [DEFAULT_PRECISION] and in [repr]; the
    examples run it at precision 6 and with [repr_str]: Python's [repr] of
    a [str] of code points below 256.  A code point from 256 on is written
    as an escape, which is what Python does for those that are not
    printable. *)

Definition hex_digit (n : N) : ascii :=
  if (n <? 10)%N then ascii_of_N (48 + n) else ascii_of_N (87 + n).

Fixpoint hex_digits (width : nat) (n : N) : string :=
  match width with
  | O => EmptyString
  | S w => hex_digits w (n / 16) ++ Py.chr (hex_digit (n mod 16))
  end.

Definition repr_char (quote : N) (p : N) : string :=
  if (p =? quote)%N || (p =? 92)%N then
    String Py.backslash (Py.chr (ascii_of_N p))
  else if (p =? 9)%N then String Py.backslash "t"
  else if (p =? 10)%N then String Py.backslash "n"
  else if (p =? 13)%N then String Py.backslash "r"
  else if (p <? 32)%N || (p =? 127)%N then
    String Py.backslash ("x" ++ hex_digits 2 p)
  else if (p <? 127)%N then Py.chr (ascii_of_N p)
  else if (p <? 256)%N then
    if (p <=? 160)%N || (p =? 173)%N
    then String Py.backslash ("x" ++ hex_digits 2 p)
    else Py.chr (ascii_of_N p)
  else if (p <? 65536)%N then String Py.backslash ("u" ++ hex_digits 4 p)
  else String Py.backslash ("U" ++ hex_digits 8 p).

Definition repr_str (text : list N) : string :=
  let quote :=
    if existsb (N.eqb 39) text && negb (existsb (N.eqb 34) text)
    then 34%N else 39%N in
  Py.chr (ascii_of_N quote)
  ++ String.concat "" (map (repr_char quote) text)
  ++ Py.chr (ascii_of_N quote).

(** ** The text of an enumeration type

    The strings the claims about [Enum8] and [Enum16] speak of: a width, an
    opening parenthesis, the pairs ['label' = value] separated by a comma
    and a space, a closing parenthesis. *)

Fixpoint all_chars (p : ascii -> bool) (s : string) : bool :=
  match s with
  | EmptyString => true
  | String c s' => p c && all_chars p s'
  end.

(** A label without byte escapes: no bare quote, and every backslash is
    followed by a character other than [x]. *)
Fixpoint plain_label (l : string) : bool :=
  match l with
  | EmptyString => true
  | String c r =>
      if Ascii.eqb c Py.backslash then
        match r with
        | EmptyString => false
        | String d r' => negb (Ascii.eqb d "x") && plain_label r'
        end
      else negb (Ascii.eqb c "'") && plain_label r
  end.

(** A printable ASCII character. *)
Definition printable (c : ascii) : bool := Py.in_range 32 126 c.

(** A label whose byte-string literal Python accepts: printable ASCII, no
    bare quote, every backslash followed by a printable character, and
    [\x] followed by two hexadecimal digits. *)
Inductive escaped_label : string -> Prop :=
| el_nil : escaped_label EmptyString
| el_plain (c : ascii) (s : string) :
    printable c = true -> c <> Py.backslash -> c <> "'"%char ->
    escaped_label s -> escaped_label (String c s)
| el_hex (h1 h2 : ascii) (s : string) :
    Bytes.ishex h1 = true -> Bytes.ishex h2 = true ->
    escaped_label s ->
    escaped_label (String Py.backslash (String "x" (String h1 (String h2 s))))
| el_escape (d : ascii) (s : string) :
    printable d = true -> d <> "x"%char ->
    escaped_label s -> escaped_label (String Py.backslash (String d s)).

(** The label holds a byte escape: the scan sets [has_bytes]. *)
Fixpoint has_byte_escape (l : string) : bool :=
  match l with
  | EmptyString => false
  | String c r =>
      if Ascii.eqb c Py.backslash then
        match r with
        | EmptyString => false
        | String d r' => Ascii.eqb d "x" || has_byte_escape r'
        end
      else has_byte_escape r
  end.

(** The label ends where the scan says: no bare quote in it and no
    backslash at its end. *)
Fixpoint closed_label (l : string) : bool :=
  match l with
  | EmptyString => true
  | String c r =>
      if Ascii.eqb c Py.backslash then
        match r with
        | EmptyString => false
        | String d r' => closed_label r'
        end
      else negb (Ascii.eqb c "'") && closed_label r
  end.

Definition variant_ok (v : string * string) : bool :=
  plain_label (fst v) && all_chars Py.isdecimal (snd v).

Definition quoted (label : string) : string := "'" ++ label ++ "'".

Definition variant_text (v : string * string) : string :=
  quoted (fst v) ++ " = " ++ snd v.

Definition enum_type_text (width : string) (variants : list (string * string))
  : string :=
  "Enum" ++ width ++ "(" ++ Py.join ", " (map variant_text variants) ++ ")".

(** The [choices] parameter for the variants: the pairs [(value, 'label')]
    in the order of the variants. *)
Definition choices_param (variants : list (string * string)) : string :=
  "choices=["
  ++ Py.join ", " (map (fun v => choice_text (quoted (fst v)) (snd v)) variants)
  ++ "]".




(** What [sep.join] puts after the first part. *)
Fixpoint join_tail (sep : string) (parts : list string) : string :=
  match parts with
  | [] => EmptyString
  | p :: rest => sep ++ p ++ join_tail sep rest
  end.

(** The first character of [s] is not a digit, so a digit scan stops
    there. *)
Definition stops_digits (s : string) : Prop :=
  exists c s', s = String c s' /\ Py.isdigit c = false.

(** ** Entries of the constraint mapping *)

(** The entry a match of [constraint_pattern] stores. *)
Definition check_entry (m : list string) : option (string * constraint_info) :=
  match m with
  | [_; name; definition] => Some (name, check_info definition)
  | _ => None
  end.

(** The entry a match of [index_pattern] stores. *)
Definition index_entry (m : list string) : option (string * constraint_info) :=
  match m with
  | [_; name; definition; type_] => Some (name, index_info definition type_)
  | _ => None
  end.

(** The value of the last pair of [entries] whose key is [name]. *)
Fixpoint last_entry {V} (name : string) (entries : list (option (string * V)))
  : option V :=
  match entries with
  | [] => None
  | e :: entries' =>
      match last_entry name entries' with
      | Some v => Some v
      | None =>
          match e with
          | Some (k, v) => if String.eqb k name then Some v else None
          | None => None
          end
      end
  end.

(** Storing an entry, if there is one. *)
Definition store {V} (d : Dict.t V) (e : option (string * V)) : Dict.t V :=
  match e with
  | Some (k, v) => Dict.set d k v
  | None => d
  end.

(** A line feed, and the DDL texts of the examples. *)
Definition nl : string := Py.chr Py.LF.



Definition ddl_check_fragment : string :=
  "CONSTRAINT `my check` CHECK (x > 0),".

Definition ddl_index_then_check : string :=
  "INDEX c x TYPE set(1) GRANULARITY 4," ++ nl
  ++ "CONSTRAINT c CHECK (x > 0)," ++ nl.

(** ** Clauses the matcher is followed on *)

(** The first character of [s], if there is one, fails [p]. *)
Definition head_fails (p : ascii -> bool) (s : string) : Prop :=
  match s with
  | EmptyString => True
  | String c _ => p c = false
  end.






(** [c] stands somewhere in [s]. *)
Definition occurs (c : ascii) (s : string) : Prop :=
  exists a b, s = a ++ String c b.

(** Every match of the pattern reads the character [c]: a sufficient
    test, by the characters the pattern asks for one after the other. *)
Fixpoint needs (c : ascii) (r : Re.regex) : bool :=
  match r with
  | Re.Chr d => Ascii.eqb d c
  | Re.Seq r1 r2 => needs c r1 || needs c r2
  | Re.Group _ r1 => needs c r1
  | _ => false
  end.

Definition is_not (c d : ascii) : bool := negb (Ascii.eqb d c).


(** ** A catalog for the examples

    A connection with one table, [events], whose second column has an
    enumeration type with a negative value; Django's [normalize_col_name]
    and [get_meta] stand as their plainest cases. *)

Definition demo_normalize_col_name (col_name : string)
           (used_column_names : list string) (is_relation : bool)
  : string * Dict.t pyval * list string :=
  (col_name, [], []).

Definition demo_get_meta (table_name : string)
           (constraints : Dict.t constraint_info)
           (column_to_field_name : Dict.t string) (is_view is_partition : bool)
           (comment : option string) : list string :=
  [ "";
    "    class Meta:";
    "        managed = False";
    "        db_table = '" ++ table_name ++ "'" ].

Definition demo_str_of_exn (e : exn) : string :=
  match e with
  | DatabaseError msg => msg
  | KeyError key => quoted key
  | IndexError => "string index out of range"
  | _ => EmptyString
  end.

Definition demo_columns : list FieldInfo :=
  [ mk_field "id" "Int32";
    mk_field "kind" "Enum8('a' = -1, 'b' = 1)";
    mk_field "count" "Int16" ].

Definition demo_connection : connection :=
  {| supports_comments := false;
     open_cursor := Return tt;
     get_table_list := Return [mk_table "events" "t"];
     cursor := fun _ => Return "CREATE TABLE events (...) ENGINE = Memory";
     get_table_description := fun _ => Return demo_columns |}.

(** The handler of a project with one database, [default]. *)
Definition one_database (conn : connection) (alias : string)
  : outcome connection :=
  if String.eqb alias "default" then Return conn
  else Raise (ConnectionDoesNotExist alias).

Definition demo_connections : string -> outcome connection :=
  one_database demo_connection.

Definition demo_options : command_options :=
  {| opt_database := "default"; opt_table := []; opt_include_views := false;
     opt_table_name_filter := None |}.

(** The decoder raises [e] on this type, whatever the parameters. *)
Definition undecodable (DEFAULT_PRECISION : Z) (repr : list N -> string)
           (type_code : string) (e : exn) : Prop :=
  forall param,
    snd (inspect_field_type DEFAULT_PRECISION repr type_code param) = Raise e.

(** The table passes the name filter. *)
Definition selected (opts : command_options) (table_name : string) : Prop :=
  match opt_table_name_filter opts with
  | Some table_name_filter => table_name_filter table_name = true
  | None => True
  end.

(** ** The types the decoder is written for *)

(** *** Type expressions

    The column types the decoder is written for, as a syntax tree: the
    text of a type and the fragments the decoder is expected to yield for
    it.  [TDateTime] is the bare [DateTime]; the form with a time zone is
    left out of the tree, the decoder giving back the wrong remainder
    for it. *)

#[warnings="-register-all"]
Inductive type_expr : Type :=
| TSimple (name : string)
| TNullable (t : type_expr)
| TLowCardinality (t : type_expr)
| TFixedString (n : string)
| TDateTime64 (precision : ascii) (tz : option string)
| TDateTime
| TDecimal (p s : string)
| TEnum (width : string) (v : string * string) (vs : list (string * string))
| TArray (t : type_expr)
| TTuple (t : type_expr) (ts : list type_expr)
| TMap (k v : type_expr)
| TJSON.

(** The prefixes [inspect_field_type] tests, in its order. *)
Definition keywords : list string :=
  [ "LowCardinality"; "Nullable"; "FixedString"; "DateTime64"; "DateTime";
    "Decimal"; "Enum"; "Array"; "Tuple"; "Map"; "Object('json')" ].

(** A name the last branch of the decoder reads as a whole: letters and
    digits, opening with none of the prefixes. *)
Definition simple_name (name : string) : bool :=
  all_chars Py.isalnum name
  && forallb (fun kw => negb (Py.startswith name kw)) keywords.

(** What may follow a type: nothing, or a character that is neither a
    letter, a digit nor an opening parenthesis. *)
Definition closes (rest : string) : bool :=
  match rest with
  | EmptyString => true
  | String c _ => negb (Py.isalnum c) && negb (Ascii.eqb c "(")
  end.

Fixpoint type_text (t : type_expr) : string :=
  match t with
  | TSimple name => name
  | TNullable t => "Nullable(" ++ type_text t ++ ")"
  | TLowCardinality t => "LowCardinality(" ++ type_text t ++ ")"
  | TFixedString n => "FixedString(" ++ n ++ ")"
  | TDateTime64 p None => "DateTime64(" ++ String p ")"
  | TDateTime64 p (Some tz) => "DateTime64(" ++ String p (", '" ++ tz ++ "')")
  | TDateTime => "DateTime"
  | TDecimal p s => "Decimal(" ++ p ++ ", " ++ s ++ ")"
  | TEnum width v vs => enum_type_text width (v :: vs)
  | TArray t => "Array(" ++ type_text t ++ ")"
  | TTuple t ts =>
      "Tuple(" ++ type_text t ++ join_tail ", " (map type_text ts) ++ ")"
  | TMap k v => "Map(" ++ type_text k ++ ", " ++ type_text v ++ ")"
  | TJSON => "Object('json')"
  end.

Fixpoint well_formed (t : type_expr) : bool :=
  match t with
  | TSimple name => simple_name name
  | TNullable t | TLowCardinality t | TArray t => well_formed t
  | TFixedString n => all_chars Py.isdecimal n
  | TDateTime64 p None => Py.isdecimal p
  | TDateTime64 p (Some tz) => Py.isdecimal p && all_chars not_quote tz
  | TDateTime | TJSON => true
  | TDecimal p s => all_chars Py.isdecimal p && all_chars Py.isdecimal s
  | TEnum width v vs =>
      all_chars Py.isdecimal width && forallb variant_ok (v :: vs)
  | TTuple t ts => well_formed t && forallb well_formed ts
  | TMap k v => well_formed k && well_formed v
  end.

(** [yield f", {param}"] under [if param]. *)
Definition param_fragment (param : string) : list string :=
  if nonempty param then [", " ++ param] else [].

(** The fragments for a type, in the order they are to be yielded. *)
Fixpoint fragments (DEFAULT_PRECISION : Z) (t : type_expr) (param : string)
  : list string :=
  match t with
  | TSimple name => ["models." ++ name ++ "Field(" ++ param ++ ")"]
  | TNullable t =>
      fragments DEFAULT_PRECISION t
                (merge_params [param; "null=True"; "blank=True"])
  | TLowCardinality t =>
      fragments DEFAULT_PRECISION t
                (merge_params [param; "low_cardinality=True"])
  | TFixedString n =>
      ["models.FixedStringField(" ++ merge_params [param; "max_bytes=" ++ n]
       ++ ")"]
  | TDateTime64 p _ =>
      ["models.DateTime64Field("
       ++ (if Z.eqb (Z.of_nat (nat_of_ascii p) - 48) DEFAULT_PRECISION
           then param
           else merge_params [param; "precision=" ++ Py.chr p])
       ++ ")"]
  | TDateTime => ["models.DateTimeField(" ++ param ++ ")"]
  | TDecimal p s =>
      ["models.DecimalField("
       ++ merge_params [param; "max_digits=" ++ p; "decimal_places=" ++ s]
       ++ ")"]
  | TEnum width v vs =>
      ["models.Enum" ++ width ++ "Field("
       ++ merge_params [param; choices_param (v :: vs)] ++ ")"]
  | TArray t =>
      ["models.ArrayField("] ++ fragments DEFAULT_PRECISION t ""
      ++ param_fragment param ++ [")"]
  | TTuple t ts =>
      ["models.TupleField(["] ++ fragments DEFAULT_PRECISION t ""
      ++ flat_map (fun u => ", " :: fragments DEFAULT_PRECISION u "") ts
      ++ ["]"] ++ param_fragment param ++ [")"]
  | TMap k v =>
      ["models.MapField("] ++ fragments DEFAULT_PRECISION k ""
      ++ [", "] ++ fragments DEFAULT_PRECISION v ""
      ++ param_fragment param ++ [")"]
  | TJSON => ["models.JSONField(" ++ param ++ ")"]
  end.

(** Every part of a prefix, read up to a character that is not a letter
    or a digit, ends at an opening parenthesis. *)
Fixpoint keyword_shape (kw : string) : bool :=
  match kw with
  | EmptyString => true
  | String k kw' => if Py.isalnum k then keyword_shape kw' else Ascii.eqb k "("
  end.

(** ** Induction over type expressions *)

Section TypeExprInd.
Variable P : type_expr -> Prop.
Hypothesis HSimple : forall name, P (TSimple name).
Hypothesis HNullable : forall t, P t -> P (TNullable t).
Hypothesis HLowCardinality : forall t, P t -> P (TLowCardinality t).
Hypothesis HFixedString : forall n, P (TFixedString n).
Hypothesis HDateTime64 : forall p tz, P (TDateTime64 p tz).
Hypothesis HDateTime : P TDateTime.
Hypothesis HDecimal : forall p s, P (TDecimal p s).
Hypothesis HEnum : forall width v vs, P (TEnum width v vs).
Hypothesis HArray : forall t, P t -> P (TArray t).
Hypothesis HTuple : forall t ts, P t -> Forall P ts -> P (TTuple t ts).
Hypothesis HMap : forall k v, P k -> P v -> P (TMap k v).
Hypothesis HJSON : P TJSON.

Fixpoint type_expr_induction (t : type_expr) : P t :=
  match t with
  | TSimple name => HSimple name
  | TNullable t => HNullable t (type_expr_induction t)
  | TLowCardinality t => HLowCardinality t (type_expr_induction t)
  | TFixedString n => HFixedString n
  | TDateTime64 p tz => HDateTime64 p tz
  | TDateTime => HDateTime
  | TDecimal p s => HDecimal p s
  | TEnum width v vs => HEnum width v vs
  | TArray t => HArray t (type_expr_induction t)
  | TTuple t ts =>
      HTuple t ts (type_expr_induction t)
             ((fix all (ts : list type_expr) : Forall P ts :=
                 match ts with
                 | [] => Forall_nil P
                 | u :: us => Forall_cons u (type_expr_induction u) (all us)
                 end) ts)
  | TMap k v => HMap k v (type_expr_induction k) (type_expr_induction v)
  | TJSON => HJSON
  end.

End TypeExprInd.

(** A label text in which the scan of [consume_enum_choice] meets no
    closing quote. *)
Fixpoint unclosed_label (l : string) : bool :=
  match l with
  | EmptyString => true
  | String c r =>
      if Ascii.eqb c Py.backslash then
        match r with
        | EmptyString => true
        | String _ r' => unclosed_label r'
        end
      else negb (Ascii.eqb c "'") && unclosed_label r
  end.

(** None of the prefixes opens [ct]. *)
Definition no_keyword (ct : string) : Prop :=
  Forall (fun kw => Py.startswith ct kw = false) keywords.

(** The decoder reads the type [t], whatever closes it: it yields the
    fragments of [t] and returns what follows the text of [t]. *)
Definition decodes (DEFAULT_PRECISION : Z) (repr : list N -> string)
           (t : type_expr) : Prop :=
  well_formed t = true ->
  forall param rest,
    closes rest = true ->
    inspect_field_type DEFAULT_PRECISION repr (type_text t ++ rest) param
    = (fragments DEFAULT_PRECISION t param, Return rest).

(** ** Texts and values of the constraint mapping *)

(** [w in s] *)
Fixpoint contains (w s : string) : bool :=
  Py.startswith s w
  || match s with
     | EmptyString => false
     | String _ s' => contains w s'
     end.

(** The two shapes of a value of the mapping. *)
Definition entry_shape (v : constraint_info) : Prop :=
  (exists definition, v = check_info definition)
  \/ (exists definition type_, v = index_info definition type_).

(** Every value of the mapping has one of the two shapes. *)
Definition all_shaped (d : Dict.t constraint_info) : Prop :=
  forall name v, Dict.get d name = Some v -> entry_shape v.

(** ** Clauses in a table definition *)





















(** ** Names, options and rows of the command *)

(** An ASCII letter or digit: what [re.sub] leaves of a table name. *)
Definition is_ascii_alnum (c : ascii) : bool :=
  is_ascii_letter c || Py.isdecimal c.

(** The options without the name filter. *)
Definition without_filter (opts : command_options) : command_options :=
  {| opt_database := opt_database opts;
     opt_table := opt_table opts;
     opt_include_views := opt_include_views opts;
     opt_table_name_filter := None |}.

(** The tables the name filter lets through. *)
Definition filtered (opts : command_options) (names : list string)
  : list string :=
  match opt_table_name_filter opts with
  | Some table_name_filter => filter table_name_filter names
  | None => names
  end.

(** The tables [handle_inspection] keeps of the table list. *)
Definition wanted (include_views : bool) (info : TableInfo) : bool :=
  existsb (String.eqb (ti_type info))
          (if include_views then ["t"; "v"] else ["t"]).

(** [table_info] of [handle_inspection]: the entries of the table list
    whose type is asked for, by name. *)
Definition table_info_of (include_views : bool) (table_list : list TableInfo)
  : Dict.t TableInfo :=
  fold_left
    (fun d info =>
       if existsb (String.eqb (ti_type info))
                  (if include_views then ["t"; "v"] else ["t"])
       then Dict.set d (ti_name info) info else d)
    table_list [].

(** Every name is at most the one after it, in the order of Python on
    strings. *)
Fixpoint ascending (names : list string) : bool :=
  match names with
  | a :: (b :: _) as rest => String.leb a b && ascending rest
  | _ => true
  end.

(** * Properties *)

(** ** Strings *)

Lemma append_empty_r (s : string) : s ++ "" = s.
Proof. induction s as [|c s IH]; simpl; congruence. Qed.

Lemma append_assoc (a b c : string) : (a ++ b) ++ c = a ++ (b ++ c).
Proof. induction a as [|x a IH]; simpl; congruence. Qed.

Lemma length_append (a b : string) :
  String.length (a ++ b) = String.length a + String.length b.
Proof. induction a as [|x a IH]; simpl; congruence. Qed.

Lemma drop_append_length (a b : string) : Py.drop (String.length a) (a ++ b) = b.
Proof. induction a as [|x a IH]; simpl; auto. Qed.

Lemma take_append_length (a b : string) : Py.take (String.length a) (a ++ b) = a.
Proof. induction a as [|x a IH]; simpl; congruence. Qed.

Lemma drop_plus_append (a b : string) (n : nat) :
  Py.drop (String.length a + n) (a ++ b) = Py.drop n b.
Proof. induction a as [|x a IH]; simpl; auto. Qed.

Lemma take_plus_append (a b : string) (n : nat) :
  Py.take (String.length a + n) (a ++ b) = a ++ Py.take n b.
Proof. induction a as [|x a IH]; simpl; congruence. Qed.

Lemma take_drop (i : nat) (s : string) : Py.take i s ++ Py.drop i s = s.
Proof.
  revert s; induction i as [|i IH]; intros [|c s]; simpl; auto.
  now rewrite IH.
Qed.

Lemma take_all (s : string) : Py.take (String.length s) s = s.
Proof. induction s as [|c s IH]; simpl; congruence. Qed.

Lemma startswith_append (p s : string) : Py.startswith (p ++ s) p = true.
Proof.
  unfold Py.startswith. induction p as [|c p IH]; cbn [append String.prefix].
  - now destruct s.
  - destruct (ascii_dec c c); [exact IH | congruence].
Qed.

Lemma is_suffix_refl (s : string) : Py.is_suffix s s.
Proof. now exists "". Qed.

Lemma is_suffix_trans (a b c : string) :
  Py.is_suffix a b -> Py.is_suffix b c -> Py.is_suffix a c.
Proof.
  intros [p ->] [q ->]. exists (q ++ p). now rewrite append_assoc.
Qed.

Lemma drop_is_suffix (i : nat) (s : string) : Py.is_suffix (Py.drop i s) s.
Proof. exists (Py.take i s). symmetry. apply take_drop. Qed.

Lemma is_suffix_drop (i : nat) (r s : string) :
  Py.is_suffix r s -> Py.is_suffix (Py.drop i r) s.
Proof. intros H. eapply is_suffix_trans; [apply drop_is_suffix | exact H]. Qed.

Lemma is_suffix_length (r s : string) :
  Py.is_suffix r s -> String.length r <= String.length s.
Proof. intros [p ->]. rewrite length_append. lia. Qed.

(** Close a goal [is_suffix r s] from the slices and the hypotheses that
    lead from [s] to [r]. *)
Ltac solve_suffix :=
  repeat first
    [ assumption
    | apply is_suffix_refl
    | apply drop_is_suffix
    | apply is_suffix_drop
    | match goal with
      | H : Py.is_suffix ?a ?b |- Py.is_suffix ?a ?c =>
          apply (is_suffix_trans a b c H); clear H
      end ].

Create HintDb suffix.
#[local] Hint Resolve is_suffix_refl drop_is_suffix is_suffix_drop : suffix.

(** ** Generators *)

Lemma gbind_return {A B} (m : gen A) (f : A -> gen B) (ys : list string) (b : B) :
  gbind m f = (ys, Return b) ->
  exists ys1 a ys2,
    m = (ys1, Return a) /\ f a = (ys2, Return b) /\ ys = (ys1 ++ ys2)%list.
Proof.
  destruct m as [ys1 [a|e|w]]; simpl; try discriminate.
  destruct (f a) as [ys2 o] eqn:E. intros [= <- ->].
  now exists ys1, a, ys2.
Qed.

Lemma lift_return {A} (m : outcome A) (ys : list string) (a : A) :
  lift m = (ys, Return a) -> m = Return a /\ ys = [].
Proof. unfold lift. now intros [= <- ->]. Qed.

Lemma gret_return {A} (a b : A) (ys : list string) :
  gret a = (ys, Return b) -> a = b /\ ys = [].
Proof. unfold gret. now intros [= <- ->]. Qed.

Lemma obind_return {A B} (m : outcome A) (f : A -> outcome B) (b : B) :
  obind m f = Return b -> exists a, m = Return a /\ f a = Return b.
Proof. destruct m as [a|e|w]; simpl; try discriminate. eauto. Qed.

Lemma gbind_assoc {A B C} (m : gen A) (f : A -> gen B) (g : B -> gen C) :
  gbind (gbind m f) g = gbind m (fun a => gbind (f a) g).
Proof.
  destruct m as [ys [a|e|w]]; cbn [gbind]; try reflexivity.
  destruct (f a) as [ys1 [b|e|w]]; cbn [gbind]; try reflexivity.
  destruct (g b) as [ys2 o]. now rewrite app_assoc.
Qed.

Lemma gbind_gret_l {A B} (a : A) (f : A -> gen B) : gbind (gret a) f = f a.
Proof. unfold gret. cbn [gbind]. now destruct (f a). Qed.

Lemma gbind_ext {A B} (m : gen A) (f g : A -> gen B) :
  (forall a, f a = g a) -> gbind m f = gbind m g.
Proof.
  intros H. destruct m as [ys [a|e|w]]; cbn [gbind]; try reflexivity.
  now rewrite H.
Qed.

Lemma gbind_ext_returned {A B} (m : gen A) (f g : A -> gen B) :
  (forall ys a, m = (ys, Return a) -> f a = g a) -> gbind m f = gbind m g.
Proof.
  intros H. destruct m as [ys [a|e|w]]; cbn [gbind]; try reflexivity.
  now rewrite (H ys a eq_refl).
Qed.

(** Take a run that returned apart into the steps that returned. *)
Ltac invert_run :=
  repeat match goal with
  | H : gbind _ _ = (_, Return _) |- _ =>
      let ys1 := fresh "ys" in let a := fresh "a" in let ys2 := fresh "ys" in
      let H1 := fresh "Hrun" in let H2 := fresh "Hrun" in
      apply gbind_return in H;
      destruct H as (ys1 & a & ys2 & H1 & H2 & ->)
  | H : lift _ = (_, Return _) |- _ =>
      let E := fresh "Hout" in
      apply lift_return in H; destruct H as [E ->]
  | H : gret _ = (_, Return _) |- _ =>
      apply gret_return in H; destruct H as [<- ->]
  | H : obind _ _ = Return _ |- _ =>
      let a := fresh "a" in
      let H1 := fresh "Hout" in let H2 := fresh "Hout" in
      apply obind_return in H; destruct H as (a & H1 & H2)
  | H : Return _ = Return _ |- _ => injection H as H; subst
  | H : context [let '(_, _) := ?a in _] |- _ => is_var a; destruct a
  | H : (if ?b then _ else _) = (_, Return _) |- _ => destruct b eqn:?
  | H : (if ?b then _ else _) = Return _ |- _ => destruct b eqn:?
  end.

(** ** The decoder reads from left to right *)

Section DecoderFacts.

Variable DEFAULT_PRECISION : Z.
Variable repr : list N -> string.

Lemma consume_enum_choice_suffix (s name value rest : string) :
  consume_enum_choice repr s = Return (name, value, rest) ->
  Py.is_suffix rest s.
Proof.
  unfold consume_enum_choice. intros H. invert_run.
  auto with suffix.
Qed.

Lemma enum_loop_suffix (n : nat) :
  forall remain choices rest cs,
    enum_loop repr n remain choices = Return (rest, cs) ->
    Py.is_suffix rest remain.
Proof.
  induction n as [|n IH]; intros remain choices rest cs H;
    cbn [enum_loop] in H; invert_run; auto with suffix; try discriminate.
  match goal with
  | Hc : consume_enum_choice _ _ = Return _,
    Hl : enum_loop _ _ _ _ = Return _ |- _ =>
      apply IH in Hl; apply consume_enum_choice_suffix in Hc;
      eapply is_suffix_trans; [exact Hl|];
      eapply is_suffix_trans; [exact Hc|]; auto with suffix
  end.
Qed.

Lemma tuple_loop_suffix (rec : string -> gen string) :
  (forall t ys r, rec t = (ys, Return r) -> Py.is_suffix r t) ->
  forall n remain ys rest,
    tuple_loop rec n remain = (ys, Return rest) ->
    Py.is_suffix rest remain.
Proof.
  intros Hrec. induction n as [|n IH]; intros remain ys rest H;
    cbn [tuple_loop] in H; invert_run; auto with suffix; try discriminate.
  match goal with
  | Hr : rec _ = (_, Return _), Hl : tuple_loop _ _ _ = _ |- _ =>
      apply IH in Hl; apply Hrec in Hr;
      eapply is_suffix_trans; [exact Hl|];
      eapply is_suffix_trans; [exact Hr|]; auto with suffix
  end.
Qed.

Lemma inspect_field_type_fuel_suffix (fuel : nat) :
  forall column_type param ys rest,
    inspect_field_type_fuel DEFAULT_PRECISION repr fuel column_type param
    = (ys, Return rest) ->
    Py.is_suffix rest column_type.
Proof.
  induction fuel as [|fuel IH]; intros column_type param ys rest H.
  - discriminate.
  - cbn [inspect_field_type_fuel] in H. unfold ensure_str in H.
    repeat match type of H with
    | (if Py.startswith ?a ?b then _ else _) = _ =>
        destruct (Py.startswith a b) eqn:?
    end.
    all: invert_run.
    all: try discriminate.
    all: repeat match goal with
         | Hr : inspect_field_type_fuel _ _ _ _ _ = (_, Return _) |- _ =>
             apply IH in Hr
         end.
    all: repeat match goal with
         | Hc : consume_enum_choice _ _ = Return _ |- _ =>
             apply consume_enum_choice_suffix in Hc
         | Hl : enum_loop _ _ _ _ = Return _ |- _ =>
             apply enum_loop_suffix in Hl
         | Hl : tuple_loop _ _ _ = (_, Return _) |- _ =>
             apply tuple_loop_suffix in Hl; [|intros ? ? ?; apply IH]
         end.
    all: solve_suffix.
Qed.

(** *** The recursion budget is enough *)

Definition in_budget {A} (o : outcome A) : Prop := o <> Stuck OutOfFuel.

Lemma in_budget_gbind {A B} (m : gen A) (f : A -> gen B) :
  in_budget (snd m) ->
  (forall ys a, m = (ys, Return a) -> in_budget (snd (f a))) ->
  in_budget (snd (gbind m f)).
Proof.
  destruct m as [ys [a|e|w]]; simpl; intros Hm Hf.
  - specialize (Hf ys a eq_refl). destruct (f a) as [ys' o]. exact Hf.
  - discriminate.
  - intros E. apply Hm. now injection E as ->.
Qed.

Lemma in_budget_obind {A B} (m : outcome A) (f : A -> outcome B) :
  in_budget m ->
  (forall a, m = Return a -> in_budget (f a)) ->
  in_budget (obind m f).
Proof.
  destruct m as [a|e|w]; simpl; intros Hm Hf.
  - now apply Hf.
  - discriminate.
  - intros E. apply Hm. now injection E as ->.
Qed.

Lemma in_budget_scan_while (p : ascii -> bool) (rest : string) (i : nat) :
  in_budget (scan_while p rest i).
Proof.
  revert i; induction rest as [|c rest IH]; intros i; simpl.
  - discriminate.
  - destruct (p c); [apply IH | discriminate].
Qed.

Lemma in_budget_scan_label (rest : string) :
  forall i has_bytes, in_budget (scan_label rest i has_bytes).
Proof.
  assert (H : forall n rest, String.length rest <= n ->
            forall i hb, in_budget (scan_label rest i hb)).
  { induction n as [|n IH]; intros [|c r] Hn i hb; simpl in *;
      try discriminate; try lia.
    destruct (Ascii.eqb c Py.backslash).
    - destruct r as [|d r']; [discriminate|]. apply IH. simpl in Hn. lia.
    - destruct (Ascii.eqb c "'"); [discriminate|]. apply IH. lia. }
  intros i hb. now apply (H (String.length rest)).
Qed.

Lemma in_budget_item (s : string) (i : nat) : in_budget (item s i).
Proof. unfold item. destruct (String.get i s); discriminate. Qed.

Lemma in_budget_consume_enum_choice (s : string) :
  in_budget (consume_enum_choice repr s).
Proof.
  unfold consume_enum_choice.
  apply in_budget_obind; [apply in_budget_scan_label|]. intros ih _.
  apply in_budget_obind.
  - unfold resolve_label. destruct (snd ih); [|discriminate].
    destruct (Bytes.eval_decode _); discriminate.
  - intros name _. apply in_budget_obind; [apply in_budget_scan_while|].
    intros; discriminate.
Qed.

Lemma item_0_length (s : string) (c : ascii) :
  item s 0 = Return c -> 1 <= String.length s.
Proof. destruct s; simpl; [discriminate | lia]. Qed.

Lemma length_drop_lt (i : nat) (s : string) :
  1 <= i -> 1 <= String.length s ->
  String.length (Py.drop i s) < String.length s.
Proof. rewrite length_drop. lia. Qed.

Lemma in_budget_enum_loop (n : nat) :
  forall remain choices,
    String.length remain <= n ->
    in_budget (enum_loop repr n remain choices).
Proof.
  induction n as [|n IH]; intros remain choices Hn; cbn [enum_loop];
    (apply in_budget_obind; [apply in_budget_item|]); intros c Hc;
    apply item_0_length in Hc.
  - lia.
  - destruct (negb _); [|discriminate].
    apply in_budget_obind; [apply in_budget_consume_enum_choice|].
    intros [[name value] remain'] Hr.
    apply consume_enum_choice_suffix, is_suffix_length in Hr.
    apply IH. rewrite length_drop in Hr. lia.
Qed.

Lemma in_budget_tuple_loop (rec : string -> gen string) (n : nat) :
  forall remain,
    String.length remain <= n ->
    (forall t, String.length t < String.length remain ->
               in_budget (snd (rec t))) ->
    (forall t ys r, rec t = (ys, Return r) -> Py.is_suffix r t) ->
    in_budget (snd (tuple_loop rec n remain)).
Proof.
  induction n as [|n IH]; intros remain Hn Hrec Hsuf; cbn [tuple_loop];
    (apply in_budget_gbind; [apply in_budget_item|]); intros ys c Hc;
    apply lift_return in Hc; destruct Hc as [Hc _];
    apply item_0_length in Hc.
  - lia.
  - destruct (Ascii.eqb c ","); [|discriminate].
    apply in_budget_gbind; [discriminate|]. intros _ _ _.
    assert (Hlt : String.length (Py.drop 2 remain) < String.length remain)
      by (apply length_drop_lt; lia).
    apply in_budget_gbind; [now apply Hrec|].
    intros ys' remain' Hr. apply Hsuf, is_suffix_length in Hr.
    apply IH; [lia | | exact Hsuf].
    intros t Ht. apply Hrec. lia.
Qed.

Lemma startswith_nonempty (s p : string) :
  Py.startswith s p = true -> p <> EmptyString -> 1 <= String.length s.
Proof.
  destruct s as [|c s]; simpl; [|lia].
  destruct p; [congruence | discriminate].
Qed.

Lemma in_budget_int_of_char (c : ascii) : in_budget (int_of_char c).
Proof. unfold int_of_char. destruct (Py.isdecimal c); discriminate. Qed.

Lemma in_budget_yield_param (param : string) :
  in_budget (snd (yield_param param)).
Proof. unfold yield_param. destruct (nonempty param); discriminate. Qed.

Lemma inspect_field_type_fuel_in_budget (fuel : nat) :
  forall column_type param,
    String.length column_type < fuel ->
    in_budget
      (snd (inspect_field_type_fuel DEFAULT_PRECISION repr fuel
                                    column_type param)).
Proof.
  induction fuel as [|fuel IH]; intros column_type param Hlen; [lia|].
  cbn [inspect_field_type_fuel]. unfold ensure_str.
  repeat match goal with
  | |- context [if Py.startswith ?a ?b then _ else _] =>
      let E := fresh "Hkw" in
      destruct (Py.startswith a b) eqn:E;
      [apply startswith_nonempty in E; [|discriminate] |]
  end.
  all: repeat first
    [ apply in_budget_gbind; [|intros ? ? ?]
    | progress cbn [lift snd yield gret]
    | apply in_budget_scan_while
    | apply in_budget_item
    | apply in_budget_int_of_char
    | apply in_budget_consume_enum_choice
    | apply in_budget_yield_param
    | apply in_budget_enum_loop; apply Nat.le_refl
    | discriminate
    | match goal with
      | |- in_budget (snd (if ?b then _ else _)) => destruct b
      | |- in_budget (snd (let '(_, _) := ?a in _)) => destruct a
      end ].
  all: repeat match goal with
       | H : inspect_field_type_fuel _ _ _ _ _ = (_, Return _) |- _ =>
           apply inspect_field_type_fuel_suffix, is_suffix_length in H;
           rewrite length_drop in H
       end.
  all: try (apply IH; rewrite ?length_drop; lia).
  apply in_budget_tuple_loop; [apply Nat.le_refl | |].
  - intros t Ht. apply IH. lia.
  - intros t ys' r. apply inspect_field_type_fuel_suffix.
Qed.

(** The decoder never stops for want of budget: with the budget it
    gives itself, it returns or raises as the Python code does. *)
Lemma inspect_field_type_in_budget (column_type param : string) :
  in_budget
    (snd (inspect_field_type DEFAULT_PRECISION repr column_type param)).
Proof.
  unfold inspect_field_type. apply inspect_field_type_fuel_in_budget. lia.
Qed.

Lemma tuple_loop_ext (rec1 rec2 : string -> gen string) (n : nat) :
  forall remain,
    (forall t, String.length t < String.length remain -> rec1 t = rec2 t) ->
    (forall t ys r, rec1 t = (ys, Return r) -> Py.is_suffix r t) ->
    tuple_loop rec1 n remain = tuple_loop rec2 n remain.
Proof.
  induction n as [|n IH]; intros remain Hrec Hsuf; cbn [tuple_loop];
    apply gbind_ext_returned; intros ys c Hc;
    apply lift_return in Hc as [Hc _]; apply item_0_length in Hc.
  - reflexivity.
  - destruct (Ascii.eqb c ","); [|reflexivity].
    apply gbind_ext. intros _.
    assert (Hlt : String.length (Py.drop 2 remain) < String.length remain)
      by (apply length_drop_lt; lia).
    rewrite <- (Hrec _ Hlt). apply gbind_ext_returned. intros ys' r Hr.
    apply Hsuf, is_suffix_length in Hr.
    apply IH; [|exact Hsuf]. intros t Ht. apply Hrec. lia.
Qed.

(** A budget above the length of the input is as good as any other. *)
Lemma inspect_field_type_fuel_any (fuel1 : nat) :
  forall fuel2 column_type param,
    String.length column_type < fuel1 ->
    String.length column_type < fuel2 ->
    inspect_field_type_fuel DEFAULT_PRECISION repr fuel1 column_type param
    = inspect_field_type_fuel DEFAULT_PRECISION repr fuel2 column_type param.
Proof.
  induction fuel1 as [|fuel1 IH]; intros [|fuel2] column_type param H1 H2;
    try lia.
  cbn [inspect_field_type_fuel]. unfold ensure_str.
  repeat match goal with
  | |- context [if Py.startswith ?a ?b then _ else _] =>
      let E := fresh "Hkw" in
      destruct (Py.startswith a b) eqn:E;
      [apply startswith_nonempty in E; [|discriminate] |]
  end.
  all: try reflexivity.
  all: repeat first
    [ reflexivity
    | rewrite (IH fuel2) by (rewrite ?length_drop; lia)
    | apply gbind_ext_returned; intros ? ? ?;
      repeat match goal with
      | H : inspect_field_type_fuel _ _ _ _ _ = (_, Return _) |- _ =>
          apply inspect_field_type_fuel_suffix, is_suffix_length in H;
          rewrite length_drop in H
      end ].
  rewrite (tuple_loop_ext _ (fun t => inspect_field_type_fuel
                                        DEFAULT_PRECISION repr fuel2 t ""));
    [reflexivity | | intros t ys' r; apply inspect_field_type_fuel_suffix].
  intros t Ht. apply IH; lia.
Qed.

Lemma inspect_field_type_fuel_stable (fuel : nat) (column_type param : string) :
  String.length column_type < fuel ->
  inspect_field_type_fuel DEFAULT_PRECISION repr fuel column_type param
  = inspect_field_type DEFAULT_PRECISION repr column_type param.
Proof.
  intros H. unfold inspect_field_type. apply inspect_field_type_fuel_any; lia.
Qed.
(** C9.  At every depth of the recursion, a call of the decoder that
    returns hands back a suffix of the string it was given: what it read
    is a prefix of its input, and what is left is never longer than the
    input. *)
Theorem parse_returns_suffix (fuel : nat) (column_type param : string)
        (ys : list string) (rest : string) :
  inspect_field_type_fuel DEFAULT_PRECISION repr fuel column_type param
  = (ys, Return rest) ->
  Py.is_suffix rest column_type
  /\ String.length rest <= String.length column_type.
Proof.
  intros H. apply inspect_field_type_fuel_suffix in H.
  split; [exact H | now apply is_suffix_length].
Qed.

(** *** [DateTime] with a time zone *)

Lemma inspect_field_type_fuel_DateTime (fuel : nat) (ct param : string) :
  Py.startswith ct "LowCardinality" = false ->
  Py.startswith ct "Nullable" = false ->
  Py.startswith ct "FixedString" = false ->
  Py.startswith ct "DateTime64" = false ->
  Py.startswith ct "DateTime" = true ->
  inspect_field_type_fuel DEFAULT_PRECISION repr (S fuel) ct param
  = gbind (yield ("models.DateTimeField(" ++ param ++ ")"))
      (fun _ =>
         if (Nat.ltb 8 (String.length ct) && item_is ct 8 "(")%bool
         then gbind (lift (item ct 10))
                (fun c10 => if not_quote c10 then gret (Py.drop (11 + 2) ct)
                            else gret (Py.drop 8 ct))
         else gret (Py.drop 8 ct)).
Proof.
  intros H1 H2 H3 H4 H5. cbn [inspect_field_type_fuel]. unfold ensure_str.
  rewrite H1, H2, H3, H4, H5. reflexivity.
Qed.

(** C1, as the code behaves.  On [DateTime('tz')] with a [tz] that does
    not open with a quote, the loop that should look for the closing
    quote returns in its first round: the decoder yields the
    [DateTimeField] and returns [column_type[13:]], the input from the
    fourth character of the time zone on.  That is the empty string for
    a time zone of one character only; for a longer one the end of the
    argument is handed back unread. *)
Theorem datetime_timezone_remainder (c : ascii) (tz param : string) :
  c <> "'"%char ->
  inspect_field_type DEFAULT_PRECISION repr
                     ("DateTime('" ++ String c tz ++ "')") param
  = (["models.DateTimeField(" ++ param ++ ")"],
     Return (Py.drop 2 (tz ++ "')"))).
Proof.
  intros Hc. unfold inspect_field_type.
  rewrite inspect_field_type_fuel_DateTime by reflexivity.
  change (Nat.ltb 8 _) with true.
  change (item_is _ 8 "(") with true.
  change (item _ 10) with (Return (A:=ascii) c).
  unfold gbind, yield, lift, gret, not_quote.
  apply Ascii.eqb_neq in Hc. rewrite Hc.
  reflexivity.
Qed.

(** *** Wrappers *)

Lemma inspect_field_type_fuel_LowCardinality (fuel : nat) (ct param : string) :
  Py.startswith ct "LowCardinality" = true ->
  inspect_field_type_fuel DEFAULT_PRECISION repr (S fuel) ct param
  = gbind (inspect_field_type_fuel DEFAULT_PRECISION repr fuel (Py.drop 15 ct)
             (merge_params [param; "low_cardinality=True"]))
          (fun remain => gret (Py.drop 1 remain)).
Proof.
  intros H. cbn [inspect_field_type_fuel]. unfold ensure_str.
  now rewrite H.
Qed.

Lemma inspect_field_type_fuel_Nullable (fuel : nat) (ct param : string) :
  Py.startswith ct "LowCardinality" = false ->
  Py.startswith ct "Nullable" = true ->
  inspect_field_type_fuel DEFAULT_PRECISION repr (S fuel) ct param
  = gbind (inspect_field_type_fuel DEFAULT_PRECISION repr fuel (Py.drop 9 ct)
             (merge_params [param; "null=True"; "blank=True"]))
          (fun remain => gret (Py.drop 1 remain)).
Proof.
  intros H1 H2. cbn [inspect_field_type_fuel]. unfold ensure_str.
  now rewrite H1, H2.
Qed.

(** One wrapper: the inner type is decoded with the wrapper's flags added
    to the parameters, and the closing parenthesis is passed over. *)
Lemma inspect_field_type_Nullable (inner param : string) :
  inspect_field_type DEFAULT_PRECISION repr ("Nullable(" ++ inner) param
  = gbind (inspect_field_type DEFAULT_PRECISION repr inner
             (merge_params [param; "null=True"; "blank=True"]))
          (fun remain => gret (Py.drop 1 remain)).
Proof.
  unfold inspect_field_type at 1.
  rewrite inspect_field_type_fuel_Nullable;
    [|reflexivity | apply (startswith_append "Nullable" ("(" ++ inner))].
  change (Py.drop 9 ("Nullable(" ++ inner)) with inner.
  rewrite inspect_field_type_fuel_stable; [reflexivity|].
  cbn [String.length append]. lia.
Qed.

Lemma inspect_field_type_LowCardinality (inner param : string) :
  inspect_field_type DEFAULT_PRECISION repr ("LowCardinality(" ++ inner) param
  = gbind (inspect_field_type DEFAULT_PRECISION repr inner
             (merge_params [param; "low_cardinality=True"]))
          (fun remain => gret (Py.drop 1 remain)).
Proof.
  unfold inspect_field_type at 1.
  rewrite inspect_field_type_fuel_LowCardinality;
    [|apply (startswith_append "LowCardinality" ("(" ++ inner))].
  change (Py.drop 15 ("LowCardinality(" ++ inner)) with inner.
  rewrite inspect_field_type_fuel_stable; [reflexivity|].
  cbn [String.length append]. lia.
Qed.

Lemma join_app (sep : string) (xs ys : list string) :
  xs <> [] -> ys <> [] ->
  Py.join sep (xs ++ ys) = Py.join sep xs ++ sep ++ Py.join sep ys.
Proof.
  intros Hx Hy. induction xs as [|x xs IH]; [congruence|].
  destruct xs as [|x' xs].
  - destruct ys as [|y ys]; [congruence | reflexivity].
  - change (Py.join sep ((x :: x' :: xs) ++ ys))
      with (x ++ sep ++ Py.join sep ((x' :: xs) ++ ys)).
    change (Py.join sep (x :: x' :: xs))
      with (x ++ sep ++ Py.join sep (x' :: xs)).
    rewrite IH by discriminate. now rewrite !append_assoc.
Qed.

Lemma join_nonempty (sep : string) (xs : list string) :
  xs <> [] -> forallb nonempty xs = true -> nonempty (Py.join sep xs) = true.
Proof.
  destruct xs as [|x xs]; [congruence|]. intros _ H.
  cbn [forallb] in H. apply andb_true_iff in H as [Hx _].
  destruct x as [|c x]; [discriminate|].
  destruct xs; reflexivity.
Qed.

Lemma forallb_filter {A} (p : A -> bool) (l : list A) :
  forallb p (filter p l) = true.
Proof.
  induction l as [|x l IH]; [reflexivity|]. cbn [filter].
  destruct (p x) eqn:E; [|exact IH]. cbn [forallb]. now rewrite E.
Qed.

(** [merge_params] of merged parameters is [merge_params] of them all. *)
Lemma merge_params_nested (ps qs : list string) :
  merge_params (merge_params ps :: qs) = merge_params (ps ++ qs).
Proof.
  unfold merge_params. rewrite filter_app. cbn [filter].
  destruct (filter nonempty ps) as [|x fp] eqn:Ep; [reflexivity|].
  assert (Hne : nonempty (Py.join ", " (x :: fp)) = true).
  { apply join_nonempty; [discriminate|]. rewrite <- Ep. apply forallb_filter. }
  rewrite Hne.
  destruct (filter nonempty qs) as [|y fq]; [now rewrite app_nil_r|].
  rewrite join_app by discriminate. reflexivity.
Qed.

(** Both nestings of the two wrappers decode the inner type with the same
    flags added to the parameters, in the order of the nesting, and pass
    over the two closing parentheses. *)
Lemma wrapper_flags_compose (inner param : string) :
  inspect_field_type DEFAULT_PRECISION repr
                     ("Nullable(LowCardinality(" ++ inner) param
  = gbind (inspect_field_type DEFAULT_PRECISION repr inner
             (merge_params [param; "null=True"; "blank=True";
                            "low_cardinality=True"]))
          (fun remain => gret (Py.drop 1 (Py.drop 1 remain)))
  /\ inspect_field_type DEFAULT_PRECISION repr
                        ("LowCardinality(Nullable(" ++ inner) param
     = gbind (inspect_field_type DEFAULT_PRECISION repr inner
                (merge_params [param; "low_cardinality=True"; "null=True";
                               "blank=True"]))
             (fun remain => gret (Py.drop 1 (Py.drop 1 remain))).
Proof.
  split.
  - change ("Nullable(LowCardinality(" ++ inner)
      with ("Nullable(" ++ "LowCardinality(" ++ inner).
    rewrite inspect_field_type_Nullable, inspect_field_type_LowCardinality.
    rewrite gbind_assoc, (merge_params_nested [_; _; _] [_]).
    apply gbind_ext. intros remain. now rewrite gbind_gret_l.
  - change ("LowCardinality(Nullable(" ++ inner)
      with ("LowCardinality(" ++ "Nullable(" ++ inner).
    rewrite inspect_field_type_LowCardinality, inspect_field_type_Nullable.
    rewrite gbind_assoc, (merge_params_nested [_; _] [_; _]).
    apply gbind_ext. intros remain. now rewrite gbind_gret_l.
Qed.

(** C8.  [Nullable(LowCardinality(Int16))] and
    [LowCardinality(Nullable(Int16))] both decode to one [Int16Field]
    fragment and read the whole input.  Each fragment carries the flags
    [null=True], [blank=True] and [low_cardinality=True], separated by a
    comma and a space, and nothing else; the order of the flags follows
    the nesting, so the two texts differ, the flags do not. *)
Theorem wrapper_order_same_flags :
  let flags_nl := ["null=True"; "blank=True"; "low_cardinality=True"] in
  let flags_ln := ["low_cardinality=True"; "null=True"; "blank=True"] in
  inspect_field_type DEFAULT_PRECISION repr
                     "Nullable(LowCardinality(Int16))" ""
  = (["models.Int16Field(null=True, blank=True, low_cardinality=True)"],
     Return "")
  /\ inspect_field_type DEFAULT_PRECISION repr
                        "LowCardinality(Nullable(Int16))" ""
     = (["models.Int16Field(low_cardinality=True, null=True, blank=True)"],
        Return "")
  /\ "models.Int16Field(null=True, blank=True, low_cardinality=True)"
     = "models.Int16Field(" ++ Py.join ", " flags_nl ++ ")"
  /\ "models.Int16Field(low_cardinality=True, null=True, blank=True)"
     = "models.Int16Field(" ++ Py.join ", " flags_ln ++ ")"
  /\ Permutation flags_nl flags_ln.
Proof.
  cbv zeta. destruct (wrapper_flags_compose "Int16))" "") as [Hnl Hln].
  split; [|split; [|split; [|split]]].
  - change ("Nullable(LowCardinality(Int16))")
      with ("Nullable(LowCardinality(" ++ "Int16))").
    rewrite Hnl. reflexivity.
  - change ("LowCardinality(Nullable(Int16))")
      with ("LowCardinality(Nullable(" ++ "Int16))").
    rewrite Hln. reflexivity.
  - reflexivity.
  - reflexivity.
  - apply Permutation_sym, (Permutation_cons_app [_; _] []).
    apply Permutation_refl.
Qed.

End DecoderFacts.

Lemma parse_returns_suffix_Int8 :
  inspect_field_type_fuel 6 repr_str 15 "Int8, String))" ""
  = (["models.Int8Field()"], Return ", String))")
  /\ Py.is_suffix ", String))" "Int8, String))"
  /\ String.length ", String))" <= String.length "Int8, String))".
Proof.
  split; [reflexivity|].
  apply (parse_returns_suffix 6 repr_str 15 "Int8, String))" ""
                              ["models.Int8Field()"]).
  reflexivity.
Defined.

(** The sibling branch, for comparison: [DateTime64] looks for the
    closing quote and reads the whole argument; so does [DateTime] on a
    time zone of one character, and a bare [DateTime] has nothing to
    read. *)
Example datetime_siblings :
  inspect_field_type 6 repr_str "DateTime64(3, 'UTC')" ""
  = (["models.DateTime64Field(precision=3)"], Return "")
  /\ inspect_field_type 6 repr_str "DateTime('Z')" ""
     = (["models.DateTimeField()"], Return "")
  /\ inspect_field_type 6 repr_str "DateTime" ""
     = (["models.DateTimeField()"], Return "").
Proof. repeat split; vm_compute; reflexivity. Qed.

Lemma datetime_timezone_remainder_UTC :
  "U"%char <> "'"%char /\
  inspect_field_type 6 repr_str "DateTime('UTC')" ""
  = (["models.DateTimeField()"], Return "')").
Proof.
  split; [discriminate|].
  apply (datetime_timezone_remainder 6 repr_str "U" "TC" ""). discriminate.
Defined.

(** ** Enumerations *)

Section EnumFacts.
Variable DEFAULT_PRECISION : Z.
Variable repr : list N -> string.

Lemma isdecimal_isdigit (c : ascii) : Py.isdecimal c = true -> Py.isdigit c = true.
Proof. unfold Py.isdigit. now intros ->. Qed.

Lemma scan_while_digits (v rest : string) (i : nat) :
  all_chars Py.isdecimal v = true -> stops_digits rest ->
  scan_while Py.isdigit (v ++ rest) i = Return (i + String.length v).
Proof.
  intros Hv (c & s' & -> & Hc). revert i.
  induction v as [|d v IH]; intros i; simpl in *.
  - rewrite Hc. f_equal. lia.
  - apply andb_true_iff in Hv as [Hd Hv].
    rewrite (isdecimal_isdigit _ Hd), IH by assumption. f_equal. lia.
Qed.

Lemma drop_drop (a b : nat) (s : string) :
  Py.drop (a + b) s = Py.drop b (Py.drop a s).
Proof.
  revert s; induction a as [|a IH]; intros s; [reflexivity|].
  destruct s as [|c s]; cbn [Nat.add Py.drop]; [|apply IH].
  now destruct b.
Qed.

(** Where the parts of [quoted l ++ " = " ++ v ++ rest] begin. *)
Lemma take_quoted (l rest : string) :
  Py.take (1 + String.length l + 1) (String "'" (l ++ String "'" rest))
  = quoted l.
Proof.
  unfold quoted. cbn [Nat.add Py.take append]. f_equal.
  rewrite take_plus_append. reflexivity.
Qed.

Lemma drop_quoted (l rest : string) (n : nat) :
  Py.drop (1 + String.length l + 1 + n) (String "'" (l ++ String "'" rest))
  = Py.drop n rest.
Proof.
  cbn [Nat.add Py.drop]. rewrite <- Nat.add_assoc, drop_plus_append.
  reflexivity.
Qed.

Lemma scan_label_closed (l rest : string) :
  closed_label l = true ->
  forall i hb, scan_label (l ++ String "'" rest) i hb
               = Return (i + String.length l, hb || has_byte_escape l).
Proof.
  assert (H : forall n l, String.length l <= n -> closed_label l = true ->
            forall i hb, scan_label (l ++ String "'" rest) i hb
                         = Return (i + String.length l, hb || has_byte_escape l)).
  { clear l. induction n as [|n IH]; intros [|c r] Hn Hl i hb;
      cbn [String.length] in Hn; try lia.
    - cbn [append scan_label String.length has_byte_escape].
      change (Ascii.eqb "'" Py.backslash) with false.
      rewrite Ascii.eqb_refl, Nat.add_0_r, orb_false_r. reflexivity.
    - cbn [append scan_label String.length has_byte_escape].
      change (Ascii.eqb "'" Py.backslash) with false.
      rewrite Ascii.eqb_refl, Nat.add_0_r, orb_false_r. reflexivity.
    - cbn [closed_label] in Hl.
      cbn [append scan_label String.length has_byte_escape].
      destruct (Ascii.eqb c Py.backslash).
      + destruct r as [|d r']; [discriminate|].
        cbn [append String.length] in *.
        rewrite IH by (assumption || lia). f_equal. f_equal; [lia|].
        destruct (Ascii.eqb d "x"); [now rewrite orb_true_r | reflexivity].
      + apply andb_true_iff in Hl as [Hq Hl].
        apply negb_true_iff in Hq. rewrite Hq.
        rewrite IH by (assumption || lia). f_equal. f_equal. lia. }
  intros Hl i hb. now apply (H (String.length l)).
Qed.

Lemma consume_enum_choice_closed (l v rest : string) :
  closed_label l = true -> all_chars Py.isdecimal v = true ->
  stops_digits rest ->
  consume_enum_choice repr (variant_text (l, v) ++ rest)
  = obind (resolve_label repr (quoted l) (has_byte_escape l))
          (fun name => Return (name, v, rest)).
Proof.
  intros Hl Hv Hrest. unfold consume_enum_choice, variant_text, quoted.
  cbn [fst snd append Py.drop].
  rewrite !append_assoc. cbn [append].
  rewrite (scan_label_closed l _ Hl). cbn [obind fst snd orb].
  rewrite take_quoted, drop_quoted. cbn [Py.drop].
  unfold quoted.
  destruct (resolve_label repr _ _) as [name|e|w]; cbn [obind]; try reflexivity.
  rewrite (scan_while_digits v rest _ Hv Hrest). cbn [obind].
  unfold Py.slice.
  rewrite (drop_drop (1 + String.length l + 1 + 3) (String.length v)).
  rewrite drop_quoted. cbn [Py.drop].
  rewrite drop_append_length, Nat.add_comm, Nat.add_sub, take_append_length.
  reflexivity.
Qed.

Lemma eqb_false_of_test (p : ascii -> bool) (c d : ascii) :
  p c = true -> p d = false -> Ascii.eqb c d = false.
Proof.
  intros Hc Hd. destruct (Ascii.eqb_spec c d); [congruence | reflexivity].
Qed.

Lemma escaped_label_closed (l : string) :
  escaped_label l -> closed_label l = true.
Proof.
  induction 1 as [|c s Hp Hb Hq _ IH|h1 h2 s H1 H2 _ IH|d s Hp Hx _ IH].
  - reflexivity.
  - cbn [closed_label]. apply Ascii.eqb_neq in Hb, Hq. now rewrite Hb, Hq.
  - cbn [closed_label]. rewrite Ascii.eqb_refl.
    rewrite (eqb_false_of_test _ h1 Py.backslash H1 eq_refl).
    rewrite (eqb_false_of_test _ h1 "'" H1 eq_refl).
    rewrite (eqb_false_of_test _ h2 Py.backslash H2 eq_refl).
    rewrite (eqb_false_of_test _ h2 "'" H2 eq_refl).
    exact IH.
  - cbn [closed_label]. now rewrite Ascii.eqb_refl.
Qed.

Lemma printable_code (c : ascii) :
  printable c = true -> (Bytes.code c <? 128)%N = true.
Proof.
  unfold printable, Py.in_range, Bytes.code, nat_of_ascii.
  intros H. apply andb_true_iff in H as [_ H]. apply Nat.leb_le in H.
  apply N.ltb_lt. lia.
Qed.

Lemma escaped_label_tail (c : ascii) (r : string) :
  escaped_label (String c r) -> Ascii.eqb c Py.backslash = false ->
  escaped_label r.
Proof.
  intros H Hc. inversion H; subst; try assumption;
    rewrite Ascii.eqb_refl in Hc; discriminate.
Qed.

Lemma translate_newlines_escaped (s : string) :
  escaped_label s -> Bytes.translate_newlines s = s.
Proof.
  induction 1 as [|c s Hp Hb Hq _ IH|h1 h2 s H1 H2 _ IH|d s Hp Hx _ IH].
  - reflexivity.
  - cbn [Bytes.translate_newlines].
    rewrite (eqb_false_of_test _ c Py.CR Hp eq_refl). now rewrite IH.
  - cbn [Bytes.translate_newlines].
    change (Ascii.eqb Py.backslash Py.CR) with false.
    change (Ascii.eqb "x" Py.CR) with false.
    rewrite (eqb_false_of_test _ h1 Py.CR H1 eq_refl).
    rewrite (eqb_false_of_test _ h2 Py.CR H2 eq_refl).
    cbv iota. now rewrite IH.
  - cbn [Bytes.translate_newlines].
    change (Ascii.eqb Py.backslash Py.CR) with false.
    rewrite (eqb_false_of_test _ d Py.CR Hp eq_refl).
    cbv iota. now rewrite IH.
Qed.

Lemma cons_byte_some (b : N) (m : option (list N)) :
  (exists bs, m = Some bs) -> exists bs, Bytes.cons_byte b m = Some bs.
Proof. intros [bs ->]. now exists (b :: bs). Qed.

Lemma decode_escapes_escaped (s : string) :
  escaped_label s -> exists bs, Bytes.decode_escapes s = Some bs.
Proof.
  assert (H : forall n s, String.length s <= n -> escaped_label s ->
            exists bs, Bytes.decode_escapes s = Some bs).
  { clear s. induction n as [|n IH]; intros s Hn Hs.
    - destruct s; [now exists [] | cbn in Hn; lia].
    - inversion Hs as [|c r Hp Hb Hq Hr|h1 h2 r H1 H2 Hr|d r Hp Hx Hr]; subst.
      + now exists [].
      + cbn [Bytes.decode_escapes String.length] in *.
        apply Ascii.eqb_neq in Hb. rewrite Hb.
        rewrite (eqb_false_of_test _ c Py.LF Hp eq_refl).
        rewrite (eqb_false_of_test _ c zero Hp eq_refl).
        rewrite (printable_code c Hp).
        apply cons_byte_some, IH; [lia | assumption].
      + cbn [Bytes.decode_escapes String.length] in *.
        rewrite Ascii.eqb_refl.
        change (Ascii.eqb "x" Py.LF) with false.
        change (Bytes.simple_escape "x") with (@None N).
        change (Bytes.isoctal "x") with false.
        change (Ascii.eqb "x" "x") with true.
        cbv iota. rewrite H1, H2. cbn [andb].
        apply cons_byte_some, IH; [lia | assumption].
      + cbn [Bytes.decode_escapes String.length] in *.
        rewrite Ascii.eqb_refl.
        rewrite (eqb_false_of_test _ d Py.LF Hp eq_refl).
        destruct (Bytes.simple_escape d) as [b|].
        { apply cons_byte_some, IH; [lia | assumption]. }
        destruct (Bytes.isoctal d) eqn:Hoct.
        { destruct r as [|o2 r2];
            [apply cons_byte_some, IH; [cbn; lia | assumption]|].
          destruct (Bytes.isoctal o2) eqn:Ho2;
            [|apply cons_byte_some, IH; [cbn in *; lia | assumption]].
          assert (Hr2 : escaped_label r2)
            by (apply (escaped_label_tail o2); [assumption|];
                apply (eqb_false_of_test Bytes.isoctal o2 Py.backslash Ho2 eq_refl)).
          destruct r2 as [|o3 r3];
            [apply cons_byte_some, IH; [cbn in *; lia | assumption]|].
          destruct (Bytes.isoctal o3) eqn:Ho3;
            [|apply cons_byte_some, IH; [cbn in *; lia | assumption]].
          apply cons_byte_some, IH; [cbn in *; lia|].
          apply (escaped_label_tail o3); [assumption|].
          apply (eqb_false_of_test Bytes.isoctal o3 Py.backslash Ho3 eq_refl). }
        apply Ascii.eqb_neq in Hx. rewrite Hx.
        rewrite (eqb_false_of_test _ d zero Hp eq_refl).
        rewrite (printable_code d Hp).
        apply cons_byte_some, cons_byte_some, IH; [lia | assumption]. }
  intros Hs. now apply (H (String.length s)).
Qed.

Lemma body_of_quoted (l : string) : Bytes.body_of (quoted l) = l.
Proof.
  unfold Bytes.body_of, Py.slice_to_last, Py.slice, quoted.
  cbn [append Py.drop String.length]. rewrite length_append.
  cbn [String.length].
  replace (S (String.length l + 1) - 1 - 1) with (String.length l) by lia.
  apply take_append_length.
Qed.

Lemma plain_label_closed (l : string) :
  plain_label l = true -> closed_label l = true /\ has_byte_escape l = false.
Proof.
  assert (H : forall n l, String.length l <= n -> plain_label l = true ->
            closed_label l = true /\ has_byte_escape l = false).
  { clear l. induction n as [|n IH]; intros [|c r] Hn Hl;
      cbn [String.length] in Hn; try lia; try (now split).
    cbn [plain_label closed_label has_byte_escape] in *.
    destruct (Ascii.eqb c Py.backslash).
    - destruct r as [|d r']; [discriminate|].
      apply andb_true_iff in Hl as [Hd Hl]. apply negb_true_iff in Hd.
      rewrite Hd. apply IH; [cbn in Hn; lia | assumption].
    - apply andb_true_iff in Hl as [Hq Hl]. rewrite Hq.
      apply IH; [lia | assumption]. }
  intros Hl. now apply (H (String.length l)).
Qed.

Lemma consume_enum_choice_plain (l v rest : string) :
  plain_label l = true -> all_chars Py.isdecimal v = true ->
  stops_digits rest ->
  consume_enum_choice repr (variant_text (l, v) ++ rest)
  = Return (quoted l, v, rest).
Proof.
  intros Hl Hv Hrest. apply plain_label_closed in Hl as [Hc Hx].
  rewrite consume_enum_choice_closed by assumption.
  now rewrite Hx.
Qed.

Lemma join_cons (sep p : string) (rest : list string) :
  Py.join sep (p :: rest) = p ++ join_tail sep rest.
Proof.
  revert p; induction rest as [|q rest IH]; intros p.
  - simpl. now rewrite append_empty_r.
  - change (Py.join sep (p :: q :: rest)) with (p ++ sep ++ Py.join sep (q :: rest)).
    now rewrite IH.
Qed.

Lemma length_join_tail (parts : list string) (after : string) :
  List.length parts
  <= String.length (join_tail ", " parts ++ after).
Proof.
  induction parts as [|p parts IH]; cbn [join_tail List.length]; [lia|].
  rewrite !append_assoc. cbn [append String.length].
  rewrite length_append. lia.
Qed.

Lemma stops_digits_tail (parts : list string) (after : string) :
  stops_digits (join_tail ", " parts ++ String ")" after).
Proof.
  destruct parts as [|p parts]; cbn [join_tail append].
  - now exists ")"%char, after.
  - eexists ","%char, _. split; [reflexivity | reflexivity].
Qed.

Lemma enum_loop_variants (vs : list (string * string)) :
  forall n choices after,
    forallb variant_ok vs = true ->
    List.length vs <= n ->
    enum_loop repr n
              (join_tail ", " (map variant_text vs) ++ String ")" after)
              choices
    = Return (String ")" after,
              (choices
               ++ map (fun v => choice_text (quoted (fst v)) (snd v)) vs)%list).
Proof.
  induction vs as [|[l v] vs IH]; intros n choices after Hok Hn.
  - cbn [map join_tail append]. rewrite app_nil_r.
    destruct n; reflexivity.
  - cbn [forallb] in Hok. apply andb_true_iff in Hok as [Hv Hok].
    apply andb_true_iff in Hv as [Hl Hv]. cbn [fst snd] in Hl, Hv.
    destruct n as [|n]; [cbn in Hn; lia|].
    cbn [map join_tail]. rewrite !append_assoc.
    cbn [append enum_loop item String.get obind Py.drop].
    change (negb (Ascii.eqb "," ")")) with true. cbv iota.
    rewrite (consume_enum_choice_plain l v _ Hl Hv (stops_digits_tail _ _)).
    cbn [obind]. rewrite IH by (assumption || (cbn in Hn; lia)).
    rewrite <- app_assoc. reflexivity.
Qed.

Lemma inspect_field_type_fuel_Enum (fuel : nat) (ct param : string) :
  Py.startswith ct "LowCardinality" = false ->
  Py.startswith ct "Nullable" = false ->
  Py.startswith ct "FixedString" = false ->
  Py.startswith ct "DateTime64" = false ->
  Py.startswith ct "DateTime" = false ->
  Py.startswith ct "Decimal" = false ->
  Py.startswith ct "Enum" = true ->
  inspect_field_type_fuel DEFAULT_PRECISION repr (S fuel) ct param
  = gbind (lift (scan_while Py.isdigit (Py.drop 4 ct) 4))
      (fun i =>
         gbind (lift (consume_enum_choice repr (Py.drop (i + 1) ct)))
           (fun nvr =>
              let '(name, value, remain) := nvr in
              gbind (lift (enum_loop repr (String.length remain) remain
                                     [choice_text name value]))
                (fun rc =>
                   let '(remain, choices) := rc in
                   gbind (yield ("models." ++ Py.take i ct ++ "Field("
                                 ++ merge_params
                                      [param;
                                       "choices=[" ++ Py.join ", " choices
                                       ++ "]"]
                                 ++ ")"))
                     (fun _ => gret (Py.drop 1 remain))))).
Proof.
  intros H1 H2 H3 H4 H5 H6 H7. cbn [inspect_field_type_fuel].
  unfold ensure_str. rewrite H1, H2, H3, H4, H5, H6, H7. reflexivity.
Qed.






(** C4, as the code behaves.  For a label with a byte escape, written in
    printable ASCII, in which every backslash is followed by a printable
    character and every [\x] by two hexadecimal digits, the literal
    evaluates to bytes, and the choice comes back with its label replaced:
    by the [repr] of the decoded text when the bytes are UTF-8, by the
    label behind a [b] when they are not.  Nothing is raised. *)
Theorem enum_label_recovery (label value rest : string) :
  escaped_label label -> has_byte_escape label = true ->
  all_chars Py.isdecimal value = true -> stops_digits rest ->
  exists bs,
    Bytes.decode_escapes label = Some bs
    /\ consume_enum_choice repr (variant_text (label, value) ++ rest)
       = Return (match Bytes.utf8_decode bs with
                 | Some decoded => repr decoded
                 | None => "b" ++ quoted label
                 end, value, rest).
Proof.
  intros Hl Hx Hv Hrest.
  destruct (decode_escapes_escaped label Hl) as [bs Hbs].
  exists bs. split; [exact Hbs|].
  rewrite consume_enum_choice_closed
    by (assumption || now apply escaped_label_closed).
  rewrite Hx. unfold resolve_label, Bytes.eval_decode.
  rewrite body_of_quoted. unfold quoted at 1. cbn [append].
  rewrite Ascii.eqb_refl.
  rewrite (translate_newlines_escaped label Hl), Hbs.
  now destruct (Bytes.utf8_decode bs).
Qed.

End EnumFacts.



(** With a label that has a byte escape among the variants. *)
Example enum_variants_in_order_bytes :
  inspect_field_type 6 repr_str "Enum16('\x61' = 10, 'b' = 2, '\xff' = 300)" ""
  = (["models.Enum16Field(choices=[(10, 'a'), (2, 'b'), (300, b'\xff')])"],
     Return "").
Proof. vm_compute. reflexivity. Qed.

(** C4 is false as stated: the label scan accepts ['\xZZ'] (it skips the
    character after a backslash, whatever it is), [eval] then raises a
    [SyntaxError] for the escape, and the handler, which is for
    [UnicodeDecodeError] only, lets it pass. *)
Lemma invalid_byte_escape_raises :
  scan_label (Py.drop 1 "'\xZZ' = 1)") 1 false = Return (5, true)
  /\ consume_enum_choice repr_str "'\xZZ' = 1)" = Raise SyntaxError
  /\ inspect_field_type 6 repr_str "Enum8('\xZZ' = 1)" ""
     = ([], Raise SyntaxError).
Proof. repeat split; vm_compute; reflexivity. Qed.

Lemma enum_label_recovery_xff :
  escaped_label "\xff" /\ has_byte_escape "\xff" = true
  /\ all_chars Py.isdecimal "1" = true /\ stops_digits ")"
  /\ exists bs,
       Bytes.decode_escapes "\xff" = Some bs
       /\ consume_enum_choice repr_str (variant_text ("\xff", "1") ++ ")")
          = Return (match Bytes.utf8_decode bs with
                    | Some decoded => repr_str decoded
                    | None => "b" ++ quoted "\xff"
                    end, "1", ")").
Proof.
  assert (Hl : escaped_label "\xff")
    by (apply el_hex; [reflexivity | reflexivity | apply el_nil]).
  assert (Hr : stops_digits ")") by (now exists ")"%char, EmptyString).
  split; [exact Hl|]. split; [reflexivity|]. split; [reflexivity|].
  split; [exact Hr|].
  apply (enum_label_recovery repr_str "\xff" "1" ")");
    [exact Hl | reflexivity | reflexivity | exact Hr].
Defined.

(** The two ways the recovery ends, on the decoder: bytes that are not
    UTF-8 keep the label as a byte-string literal, bytes that are UTF-8
    give the text they spell. *)
Example enum_label_bytes_kept :
  inspect_field_type 6 repr_str "Enum8('\xff' = 1)" ""
  = (["models.Enum8Field(choices=[(1, b'\xff')])"], Return "").
Proof. vm_compute. reflexivity. Qed.

Example enum_label_text_decoded :
  inspect_field_type 6 repr_str "Enum8('\x61\x62' = 1)" ""
  = (["models.Enum8Field(choices=[(1, 'ab')])"], Return "").
Proof. vm_compute. reflexivity. Qed.

(** ** The field type of a nullable column *)

Section FieldTypeFacts.

Variable description : Type.
Variable super_get_field_type : string -> description -> outcome string.

(** The body of [get_field_type], one call unfolded. *)
Lemma get_field_type_eq (data_type : string) (d : description) :
  get_field_type description super_get_field_type data_type d
  = if Py.startswith data_type "FixedString" then Return "CharField"
    else if Py.startswith data_type "DateTime64" then Return "DateTimeField"
    else if Py.startswith data_type "Decimal" then Return "DecimalField"
    else if Py.startswith data_type "Nullable"
         then get_field_type description super_get_field_type
                             (Py.slice_to_last 9 data_type) d
         else super_get_field_type data_type d.
Proof.
  funelim (get_field_type description super_get_field_type data_type d).
  all: repeat match goal with
       | e : Py.startswith ?a ?b = _ |- context [Py.startswith ?a ?b] =>
           rewrite e
       end.
  all: reflexivity.
Qed.

Lemma slice_to_last_Nullable (T : string) :
  Py.slice_to_last 9 ("Nullable(" ++ T ++ ")") = T.
Proof.
  unfold Py.slice_to_last, Py.slice.
  cbn [append Py.drop String.length]. rewrite length_append.
  cbn [String.length].
  replace (S (S (S (S (S (S (S (S (S (String.length T + 1))))))))) - 1 - 9)
    with (String.length T) by lia.
  apply take_append_length.
Qed.

(** C10.  For every type string [T] and every description row, the
    field type of [Nullable(T)] is the field type of [T]: the same name
    when [T] has one, the same exception when the lookup of [T] raises. *)
Theorem get_field_type_Nullable (T : string) (d : description) :
  get_field_type description super_get_field_type
                 ("Nullable(" ++ T ++ ")") d
  = get_field_type description super_get_field_type T d.
Proof.
  rewrite get_field_type_eq.
  change (Py.startswith ("Nullable(" ++ T ++ ")") "FixedString") with false.
  change (Py.startswith ("Nullable(" ++ T ++ ")") "DateTime64") with false.
  change (Py.startswith ("Nullable(" ++ T ++ ")") "Decimal") with false.
  change (Py.startswith ("Nullable(" ++ T ++ ")") "Nullable")
    with (Py.startswith ("Nullable" ++ "(" ++ T ++ ")") "Nullable").
  rewrite startswith_append. now rewrite slice_to_last_Nullable.
Qed.

End FieldTypeFacts.

(** With Django's lookup for the inherited method: [Nullable(Int16)] and
    [Int16] are both a [SmallIntegerField], and a name the table does not
    hold raises the same [KeyError] with or without the wrapper. *)
Example get_field_type_Int16 :
  get_field_type unit base_get_field_type "Nullable(Int16)" tt
  = Return "SmallIntegerField"
  /\ get_field_type unit base_get_field_type "Int16" tt
     = Return "SmallIntegerField"
  /\ get_field_type unit base_get_field_type "Nullable(Int8)" tt
     = Raise (KeyError "Int8").
Proof. repeat split; reflexivity. Qed.

(** ** The matcher *)


Lemma length_lt_cons (c : ascii) (s : string) :
  Nat.ltb (String.length s) (String.length (String c s)) = true.
Proof. apply Nat.ltb_lt. cbn [String.length]. lia. Qed.

Section MatcherFacts.
Context {R : Type}.
Implicit Types (k : string -> Re.captures -> option R) (caps : Re.captures).


(** Repetitions of a body that reads one character of the class [p]. *)
Section ClassRuns.
Variable p : ascii -> bool.
Variable body :
  string -> Re.captures -> (string -> Re.captures -> option R) -> option R.
Hypothesis body_step :
  forall c s caps k, p c = true -> body (String c s) caps k = k s caps.

(** A greedy repetition reads a whole run of the class when the body has
    no match after the run and the rest of the pattern matches there. *)
Lemma rounds_greedy_run (lo : nat) k (x : R) (rest : string) caps (w : string) :
  forall fuel cnt,
    all_chars p w = true ->
    (forall k', body rest caps k' = None) ->
    String.length w <= fuel -> lo <= cnt + String.length w ->
    k rest caps = Some x ->
    Re.rounds body true lo None k fuel cnt (w ++ rest) caps = Some x.
Proof.
  induction w as [|c w IH]; intros fuel cnt Hw Hrest Hfuel Hlo Hk;
    cbn [String.length append all_chars] in *.
  - assert (Hstop : Nat.leb lo cnt = true) by (apply Nat.leb_le; lia).
    destruct fuel as [|fuel]; cbn [Re.rounds Re.below Re.orelse];
      rewrite ?Hstop, ?Hrest; exact Hk.
  - apply andb_true_iff in Hw as [Hc Hw].
    destruct fuel as [|fuel]; [lia|].
    cbn [Re.rounds Re.below]. rewrite body_step, length_lt_cons by exact Hc.
    rewrite (IH fuel (S cnt)); [reflexivity | | | | |]; try assumption; lia.
Qed.



End ClassRuns.

Lemma class_step (p : ascii -> bool) (c : ascii) (s : string) caps k :
  p c = true -> Re.mtch (Re.Class p) (String c s) caps k = k s caps.
Proof. intros H. cbn [Re.mtch]. now rewrite H. Qed.

Lemma class_stops (p : ascii -> bool) (rest : string) caps k :
  head_fails p rest -> Re.mtch (Re.Class p) rest caps k = None.
Proof.
  destruct rest as [|c rest]; cbn [head_fails Re.mtch]; [reflexivity|].
  now intros ->.
Qed.

Lemma mtch_Plus_run (p : ascii -> bool) k (x : R) (rest : string) caps
      (w : string) :
  w <> EmptyString -> all_chars p w = true -> head_fails p rest ->
  k rest caps = Some x ->
  Re.mtch (Re.Plus (Re.Class p)) (w ++ rest) caps k = Some x.
Proof.
  intros Hne Hw Hrest Hk. unfold Re.Plus. cbn [Re.mtch].
  apply (rounds_greedy_run p); try assumption.
  - intros; now apply class_step.
  - intros; now apply class_stops.
  - rewrite length_append. lia.
  - destruct w; [congruence | cbn; lia].
Qed.



Lemma mtch_Seq (r1 r2 : Re.regex) (s : string) caps k :
  Re.mtch (Re.Seq r1 r2) s caps k
  = Re.mtch r1 s caps (fun s' caps' => Re.mtch r2 s' caps' k).
Proof. reflexivity. Qed.

Lemma mtch_Group (n : nat) (r : Re.regex) (s : string) caps k :
  Re.mtch (Re.Group n r) s caps k
  = Re.mtch r s caps
            (fun s' caps' =>
               k s' ((n, Py.take (String.length s - String.length s') s)
                     :: caps')).
Proof. reflexivity. Qed.










Lemma mtch_Plus_run_end (p : ascii -> bool) k (x : R) caps (w : string) :
  w <> EmptyString -> all_chars p w = true ->
  k EmptyString caps = Some x ->
  Re.mtch (Re.Plus (Re.Class p)) w caps k = Some x.
Proof.
  intros Hne Hw Hk. rewrite <- (append_empty_r w).
  now apply mtch_Plus_run.
Qed.

Lemma all_chars_app (p : ascii -> bool) (a b : string) :
  all_chars p (a ++ b) = all_chars p a && all_chars p b.
Proof.
  induction a as [|c a IH]; cbn [append all_chars]; [reflexivity|].
  now rewrite IH, andb_assoc.
Qed.


(** The matcher only moves forward: when a match succeeds, the rest of
    the pattern was started on a suffix of the text. *)
Lemma rounds_reads
      (body : string -> Re.captures -> (string -> Re.captures -> option R)
              -> option R) :
  (forall s caps k x, body s caps k = Some x ->
     exists s' caps', Py.is_suffix s' s /\ k s' caps' = Some x) ->
  forall fuel greedy lo hi k cnt s caps x,
    Re.rounds body greedy lo hi k fuel cnt s caps = Some x ->
    exists s' caps', Py.is_suffix s' s /\ k s' caps' = Some x.
Proof.
  intros Hbody.
  assert (Hstop : forall lo cnt (k : string -> Re.captures -> option R) s caps y,
            (if Nat.leb lo cnt then k s caps else None) = Some y ->
            exists s' caps', Py.is_suffix s' s /\ k s' caps' = Some y).
  { intros lo cnt k s caps y Hy. destruct (Nat.leb lo cnt); [|discriminate].
    exists s, caps. split; [apply is_suffix_refl | exact Hy]. }
  induction fuel as [|fuel IH];
    intros greedy lo hi k cnt s caps x H; cbn [Re.rounds] in H;
    cbv zeta in H; unfold Re.orelse in H.
  - destruct greedy.
    + now apply Hstop in H.
    + destruct (if Nat.leb lo cnt then k s caps else None) as [y|] eqn:E;
        [|discriminate].
      injection H as ->. now apply Hstop in E.
  - assert (Hmore : forall y,
              (if Re.below hi cnt
               then body s caps
                      (fun s' caps' =>
                         if Nat.ltb (String.length s') (String.length s)
                         then Re.rounds body greedy lo hi k fuel (S cnt) s'
                                        caps'
                         else None)
               else None) = Some y ->
              exists s' caps', Py.is_suffix s' s /\ k s' caps' = Some y).
    { intros y Hy. destruct (Re.below hi cnt); [|discriminate].
      apply Hbody in Hy as (s1 & caps1 & Hs1 & Hy).
      destruct (Nat.ltb _ _); [|discriminate].
      apply IH in Hy as (s2 & caps2 & Hs2 & Hy).
      exists s2, caps2. split; [|exact Hy].
      eapply is_suffix_trans; eassumption. }
    destruct greedy.
    + destruct (if Re.below hi cnt then _ else None) as [y|] eqn:E.
      * injection H as ->. now apply Hmore.
      * now apply Hstop in H.
    + destruct (if Nat.leb lo cnt then _ else None) as [y|] eqn:E.
      * injection H as ->. now apply Hstop in E.
      * now apply Hmore.
Qed.

Lemma mtch_reads (r : Re.regex) :
  forall s caps k x,
    Re.mtch r s caps k = Some x ->
    exists s' caps', Py.is_suffix s' s /\ k s' caps' = Some x.
Proof.
  induction r as [|c|p|r1 IH1 r2 IH2|r1 IH1 r2 IH2|g lo hi r1 IH1|n r1 IH1
                  |n r1 IH1 r2 IH2];
    intros s caps k x H; cbn [Re.mtch] in H.
  - exists s, caps. split; [apply is_suffix_refl | exact H].
  - destruct s as [|d s]; [discriminate|].
    destruct (Ascii.eqb d c); [|discriminate].
    exists s, caps. split; [apply (drop_is_suffix 1 (String d s)) | exact H].
  - destruct s as [|d s]; [discriminate|].
    destruct (p d); [|discriminate].
    exists s, caps. split; [apply (drop_is_suffix 1 (String d s)) | exact H].
  - apply IH1 in H as (s1 & caps1 & Hs1 & H).
    apply IH2 in H as (s2 & caps2 & Hs2 & H).
    exists s2, caps2. split; [|exact H]. eapply is_suffix_trans; eassumption.
  - unfold Re.orelse in H.
    destruct (Re.mtch r1 s caps k) as [y|] eqn:E.
    + injection H as ->. now apply IH1 in E.
    + now apply IH2 in H.
  - apply (rounds_reads (Re.mtch r1) IH1) in H. exact H.
  - apply IH1 in H as (s1 & caps1 & Hs1 & H). eauto.
  - destruct (Re.is_set n caps); [now apply IH1 in H | now apply IH2 in H].
Qed.

End MatcherFacts.

Lemma occurs_suffix (c : ascii) (r s : string) :
  Py.is_suffix r s -> occurs c r -> occurs c s.
Proof.
  intros [p ->] (a & b & ->). exists (p ++ a), b. now rewrite append_assoc.
Qed.

Lemma needs_sound {R} (c : ascii) (r : Re.regex) :
  needs c r = true ->
  forall s caps (k : string -> Re.captures -> option R) x,
    Re.mtch r s caps k = Some x -> occurs c s.
Proof.
  induction r as [|d|p|r1 IH1 r2 IH2|r1 IH1 r2 IH2|g lo hi r1 IH1|n r1 IH1
                  |n r1 IH1 r2 IH2];
    cbn [needs]; intros Hn s caps k x H; try discriminate.
  - cbn [Re.mtch] in H. destruct s as [|e s]; [discriminate|].
    destruct (Ascii.eqb_spec e d) as [->|]; [|discriminate].
    apply Ascii.eqb_eq in Hn as ->. now exists EmptyString, s.
  - rewrite mtch_Seq in H. apply orb_true_iff in Hn as [Hn|Hn].
    + exact (IH1 Hn _ _ _ _ H).
    + apply mtch_reads in H as (s1 & caps1 & Hs1 & H).
      apply (occurs_suffix c s1 s Hs1). exact (IH2 Hn _ _ _ _ H).
  - rewrite mtch_Group in H. exact (IH1 Hn _ _ _ _ H).
Qed.

Lemma occurs_all_chars (c : ascii) (s : string) :
  all_chars (is_not c) s = true -> ~ occurs c s.
Proof.
  intros H (a & b & ->). rewrite all_chars_app in H.
  apply andb_true_iff in H as [_ H]. cbn [all_chars] in H.
  unfold is_not in H. rewrite Ascii.eqb_refl in H. discriminate.
Qed.

(** A pattern that needs a character finds nothing in a text without
    it. *)
Lemma findall_from_none (c : ascii) (r : Re.regex) (n : nat) (s : string) :
  needs c r = true -> all_chars (is_not c) s = true ->
  forall skip, Re.findall_from r n s skip = [].
Proof.
  intros Hn. induction s as [|d s IH]; intros Hs skip.
  - destruct skip; cbn [Re.findall_from]; [|reflexivity].
    destruct (Re.match_here r EmptyString) as [[rest caps]|] eqn:E;
      [|reflexivity].
    apply (needs_sound c r Hn) in E. now apply occurs_all_chars in E.
  - assert (Hs' : all_chars (is_not c) s = true)
      by (cbn [all_chars] in Hs; now apply andb_true_iff in Hs as [_ Hs]).
    destruct skip; cbn [Re.findall_from]; [|now apply IH].
    destruct (Re.match_here r (String d s)) as [[rest caps]|] eqn:E;
      [|now apply IH].
    apply (needs_sound c r Hn) in E. now apply occurs_all_chars in E.
Qed.







Section OptionalFacts.
Context {R : Type}.
Implicit Types (k : string -> Re.captures -> option R) (caps : Re.captures).









End OptionalFacts.



(** ** The constraint mapping *)

Section DictFacts.
Context {V : Type}.

Lemma get_set_same (d : Dict.t V) (k : string) (v : V) :
  Dict.get (Dict.set d k v) k = Some v.
Proof.
  induction d as [|[k' v'] d IH]; cbn [Dict.set Dict.get].
  - now rewrite String.eqb_refl.
  - destruct (String.eqb k' k) eqn:E; cbn [Dict.get].
    + now rewrite String.eqb_refl.
    + now rewrite E.
Qed.

Lemma get_set_other (d : Dict.t V) (k k' : string) (v : V) :
  String.eqb k k' = false ->
  Dict.get (Dict.set d k v) k' = Dict.get d k'.
Proof.
  intros Hk. induction d as [|[k0 v0] d IH]; cbn [Dict.set Dict.get].
  - now rewrite Hk.
  - destruct (String.eqb k0 k) eqn:E; cbn [Dict.get].
    + apply String.eqb_eq in E as ->. now rewrite Hk.
    + now rewrite IH.
Qed.

Lemma keys_set (d : Dict.t V) (k : string) (v : V) :
  Dict.keys (Dict.set d k v)
  = if existsb (String.eqb k) (Dict.keys d) then Dict.keys d
    else (Dict.keys d ++ [k])%list.
Proof.
  induction d as [|[k0 v0] d IH]; cbn [Dict.set Dict.keys map fst existsb];
    [reflexivity|].
  rewrite (String.eqb_sym k k0).
  destruct (String.eqb k0 k) eqn:E; cbn [map fst orb].
  - apply String.eqb_eq in E as ->. reflexivity.
  - fold (Dict.keys (Dict.set d k v)). rewrite IH. fold (Dict.keys d).
    now destruct (existsb _ _).
Qed.

Lemma NoDup_keys_set (d : Dict.t V) (k : string) (v : V) :
  NoDup (Dict.keys d) -> NoDup (Dict.keys (Dict.set d k v)).
Proof.
  intros Hd. rewrite keys_set. destruct (existsb _ _) eqn:E; [exact Hd|].
  apply NoDup_app; [exact Hd | repeat constructor; intros [] |].
  intros x Hx [Hk|[]]. subst x.
  assert (existsb (String.eqb k) (Dict.keys d) = true)
    by (apply existsb_exists; exists k; now rewrite String.eqb_refl).
  congruence.
Qed.

Lemma get_fold_store (entries : list (option (string * V))) :
  forall (d : Dict.t V) (name : string),
    Dict.get (fold_left store entries d) name
    = match last_entry name entries with
      | Some v => Some v
      | None => Dict.get d name
      end.
Proof.
  induction entries as [|e entries IH]; intros d name;
    cbn [fold_left last_entry]; [reflexivity|].
  rewrite IH. destruct (last_entry name entries); [reflexivity|].
  destruct e as [[k v]|]; cbn [store]; [|reflexivity].
  destruct (String.eqb k name) eqn:E.
  - apply String.eqb_eq in E as ->. apply get_set_same.
  - now apply get_set_other.
Qed.

Lemma NoDup_fold_store (entries : list (option (string * V))) :
  forall d : Dict.t V,
    NoDup (Dict.keys d) -> NoDup (Dict.keys (fold_left store entries d)).
Proof.
  induction entries as [|e entries IH]; intros d Hd; cbn [fold_left];
    [exact Hd|].
  apply IH. destruct e as [[k v]|]; cbn [store]; [|exact Hd].
  now apply NoDup_keys_set.
Qed.

End DictFacts.

Lemma fold_add_check (ms : list (list string)) (d : Dict.t constraint_info) :
  fold_left add_check ms d = fold_left store (map check_entry ms) d.
Proof.
  revert d; induction ms as [|m ms IH]; intros d; cbn [fold_left map];
    [reflexivity|].
  rewrite IH. f_equal.
  destruct m as [|a [|b [|c [|x m]]]]; reflexivity.
Qed.

Lemma fold_add_index (ms : list (list string)) (d : Dict.t constraint_info) :
  fold_left add_index ms d = fold_left store (map index_entry ms) d.
Proof.
  revert d; induction ms as [|m ms IH]; intros d; cbn [fold_left map];
    [reflexivity|].
  rewrite IH. f_equal.
  destruct m as [|a [|b [|c [|x [|y m]]]]]; reflexivity.
Qed.

(** The mapping of [get_constraints] is the INDEX loop run on what the
    CHECK loop leaves. *)
Lemma constraints_of_sql_check_scan (table_sql : string) :
  constraints_of_sql table_sql
  = fold_left add_index (Re.findall index_pattern 4 table_sql)
              (check_scan table_sql).
Proof. reflexivity. Qed.

(** C7, as the code behaves.  The mapping has one entry for a name.  It
    holds the last INDEX clause of that name when there is one, wherever
    the CHECK clauses of that name stand in the text, and the last CHECK
    clause of that name otherwise: the occurrence that is later in the
    text wins among clauses of the same kind only. *)
Theorem constraint_names_last_wins_by_kind (table_sql name : string) :
  Dict.get (constraints_of_sql table_sql) name
  = match last_entry name
            (map index_entry (Re.findall index_pattern 4 table_sql)) with
    | Some v => Some v
    | None =>
        last_entry name
          (map check_entry (Re.findall constraint_pattern 3 table_sql))
    end
  /\ NoDup (Dict.keys (constraints_of_sql table_sql)).
Proof.
  unfold constraints_of_sql. rewrite fold_add_index, fold_add_check. split.
  - rewrite !get_fold_store. cbn [Dict.get].
    now destruct (last_entry name (map check_entry _)).
  - apply NoDup_fold_store, NoDup_fold_store. constructor.
Qed.

(** C7 is false as stated: here the CHECK clause named [c] comes after the
    INDEX clause named [c], and the mapping holds the INDEX clause. *)
Lemma index_clause_beats_later_check :
  constraints_of_sql ddl_index_then_check
  = [("c", index_info "x TYPE set(1) GRANULARITY 4" "set")].
Proof. vm_compute. reflexivity. Qed.




(** On that text the INDEX scan finds nothing, and the mapping of
    [get_constraints] is the one of the CHECK scan.  The line feed is
    part of the match: cut off at its comma, the clause is not found. *)
Example check_fragment_mapping :
  constraints_of_sql (ddl_check_fragment ++ nl)
  = [("my check", check_info "CHECK (x > 0)")]
  /\ check_scan ddl_check_fragment = [].
Proof. split; vm_compute; reflexivity. Qed.

(** ** A column the decoder cannot read *)

Section InspectionFacts.

Variable DEFAULT_PRECISION : Z.
Variable repr : list N -> string.
Variable dj_ge42 : bool.
Variable str_of_exn : exn -> string.
Variable normalize_col_name :
  string -> list string -> bool -> string * Dict.t pyval * list string.
Variable get_meta :
  string -> Dict.t constraint_info -> Dict.t string -> bool -> bool ->
  option string -> list string.
Variable conn : connection.

Lemma inspect_row_raises (row : FieldInfo) (e : exn)
      (st : list string * Dict.t string) :
  dj_ge42 && supports_comments conn = false ->
  undecodable DEFAULT_PRECISION repr (fi_type_code row) e ->
  inspect_row DEFAULT_PRECISION repr dj_ge42 normalize_col_name conn row st
  = ([], Raise e).
Proof.
  intros Hflags Hbad. unfold inspect_row. destruct st as [used c2f].
  destruct (normalize_col_name _ _ _) as [[att_name extra_params] notes].
  rewrite Hflags. cbn [lift gbind].
  match goal with
  | |- context [inspect_field_type _ _ _ ?p] => specialize (Hbad p);
      destruct (inspect_field_type DEFAULT_PRECISION repr (fi_type_code row) p)
        as [ys o]
  end.
  cbn [snd] in Hbad. subst o. reflexivity.
Qed.

Lemma inspect_rows_app (pre rows : list FieldInfo)
      (st : list string * Dict.t string) :
  inspect_rows DEFAULT_PRECISION repr dj_ge42 normalize_col_name conn
               (pre ++ rows) st
  = gbind (inspect_rows DEFAULT_PRECISION repr dj_ge42 normalize_col_name
                        conn pre st)
          (inspect_rows DEFAULT_PRECISION repr dj_ge42 normalize_col_name
                        conn rows).
Proof.
  revert st; induction pre as [|row pre IH]; intros st; cbn [app inspect_rows].
  - now rewrite gbind_gret_l.
  - rewrite gbind_assoc. apply gbind_ext. intros st'. apply IH.
Qed.

Lemma inspect_rows_stop (pre post : list FieldInfo) (bad : FieldInfo)
      (e : exn) (ys : list string) (st0 st : list string * Dict.t string) :
  dj_ge42 && supports_comments conn = false ->
  inspect_rows DEFAULT_PRECISION repr dj_ge42 normalize_col_name conn pre st0
  = (ys, Return st) ->
  undecodable DEFAULT_PRECISION repr (fi_type_code bad) e ->
  inspect_rows DEFAULT_PRECISION repr dj_ge42 normalize_col_name conn
               (pre ++ bad :: post) st0
  = (ys, Raise e).
Proof.
  intros Hflags Hpre Hbad. rewrite inspect_rows_app, Hpre.
  cbn [gbind inspect_rows]. rewrite (inspect_row_raises bad e st Hflags Hbad).
  cbn [gbind]. now rewrite app_nil_r.
Qed.

(** C2, as the code behaves.  Nothing in the column loop handles an
    exception of the decoder.  When the decoder is reached, which it is
    unless Django is at least 4.2 and the connection supports comments,
    and raises on a column of a table that is inspected, the lines of the
    class header and of the columns before it have been yielded, and the
    exception ends the generator: no line for that column, for the
    columns after it or for the tables after this one, and no record of
    the failure. *)
Theorem column_failure_ends_inspection
        (opts : command_options) (table_info : Dict.t TableInfo)
        (table_name : string) (names : list string)
        (constraints : Dict.t constraint_info)
        (pre post : list FieldInfo) (bad : FieldInfo) (e : exn)
        (ys : list string) (st : list string * Dict.t string) :
  dj_ge42 && supports_comments conn = false ->
  selected opts table_name ->
  fetch_table conn table_name = Return (constraints, (pre ++ bad :: post)%list) ->
  inspect_rows DEFAULT_PRECISION repr dj_ge42 normalize_col_name conn pre
               ([], [])
  = (ys, Return st) ->
  undecodable DEFAULT_PRECISION repr (fi_type_code bad) e ->
  inspect_tables DEFAULT_PRECISION repr dj_ge42 str_of_exn normalize_col_name
                 get_meta conn opts table_info (table_name :: names)
  = ("" :: ""
      :: ("class " ++ table2model table_name ++ "(models.ClickhouseModel):")
      :: ys,
     Raise e).
Proof.
  intros Hflags Hsel Hfetch Hpre Hbad. cbn [inspect_tables].
  assert (Hskip : match opt_table_name_filter opts with
                  | Some table_name_filter =>
                      negb (table_name_filter table_name)
                  | None => false
                  end = false).
  { unfold selected in Hsel. destruct (opt_table_name_filter opts);
      [now rewrite Hsel | reflexivity]. }
  rewrite Hskip. unfold inspect_table. rewrite Hfetch.
  rewrite (inspect_rows_stop pre post bad e ys _ st Hflags Hpre Hbad).
  reflexivity.
Qed.

End InspectionFacts.

Lemma column_failure_ends_inspection_events :
  true && supports_comments demo_connection = false
  /\ selected demo_options "events"
  /\ fetch_table demo_connection "events"
     = Return ([], ([mk_field "id" "Int32"]
                    ++ mk_field "kind" "Enum8('a' = -1, 'b' = 1)"
                    :: [mk_field "count" "Int16"])%list)
  /\ inspect_rows 6 repr_str true demo_normalize_col_name demo_connection
                  [mk_field "id" "Int32"] ([], [])
     = (["    id = models.Int32Field()"], Return (["id"], [("id", "id")]))
  /\ undecodable 6 repr_str "Enum8('a' = -1, 'b' = 1)" IndexError
  /\ inspect_tables 6 repr_str true demo_str_of_exn demo_normalize_col_name
                    demo_get_meta demo_connection demo_options
                    [("events", mk_table "events" "t")] ["events"]
     = ([""; ""; "class Events(models.ClickhouseModel):";
         "    id = models.Int32Field()"],
        Raise IndexError).
Proof.
  assert (Hbad : undecodable 6 repr_str "Enum8('a' = -1, 'b' = 1)" IndexError)
    by (intros param; vm_compute; reflexivity).
  split; [reflexivity|].
  split; [exact I|]. split; [reflexivity|]. split; [reflexivity|].
  split; [exact Hbad|].
  apply (column_failure_ends_inspection
           6 repr_str true demo_str_of_exn demo_normalize_col_name
           demo_get_meta demo_connection demo_options
           [("events", mk_table "events" "t")] "events" [] []
           [mk_field "id" "Int32"] [mk_field "count" "Int16"]
           (mk_field "kind" "Enum8('a' = -1, 'b' = 1)") IndexError
           ["    id = models.Int32Field()"] (["id"], [("id", "id")]));
    [reflexivity | exact I | reflexivity | reflexivity | exact Hbad].
Defined.

(** C2 is false as stated: the second column of [events] cannot be
    decoded; the run yields the header, the class line and the line of
    the first column, then ends with the [IndexError].  The third column,
    which decodes, is never emitted. *)
Lemma column_failure_not_caught :
  handle_inspection 6 repr_str true demo_str_of_exn demo_normalize_col_name
                    demo_get_meta demo_connections demo_options
  = ((header db_module
      ++ [""; ""; "class Events(models.ClickhouseModel):";
          "    id = models.Int32Field()"])%list,
     Raise IndexError)
  /\ inspect_field_type 6 repr_str "Int16" ""
     = (["models.Int16Field()"], Return "")
  /\ ~ In "    count = models.Int16Field()"
          (fst (handle_inspection 6 repr_str true demo_str_of_exn
                                  demo_normalize_col_name demo_get_meta
                                  demo_connections demo_options)).
Proof.
  split; [vm_compute; reflexivity|]. split; [vm_compute; reflexivity|].
  vm_compute. intros H.
  repeat (destruct H as [H|H]; [discriminate H|]). exact H.
Qed.

(** * The rest of the decoder

    What [inspect_field_type], [consume_enum_choice] and [merge_params]
    do on the types they are written for, and on inputs that are cut
    off. *)

Section GrammarFacts.

Variable DEFAULT_PRECISION : Z.
Variable repr : list N -> string.

(** *** The branches *)

Lemma inspect_field_type_fuel_FixedString (fuel : nat) (ct param : string) :
  Py.startswith ct "LowCardinality" = false ->
  Py.startswith ct "Nullable" = false ->
  Py.startswith ct "FixedString" = true ->
  inspect_field_type_fuel DEFAULT_PRECISION repr (S fuel) ct param
  = gbind (lift (scan_while Py.isdigit (Py.drop 12 ct) 12))
      (fun i =>
         gbind (yield ("models.FixedStringField("
                       ++ merge_params
                            [param; "max_bytes=" ++ Py.slice 12 i ct]
                       ++ ")"))
           (fun _ => gret (Py.drop (i + 1) ct))).
Proof.
  intros H1 H2 H3. cbn [inspect_field_type_fuel]. unfold ensure_str.
  now rewrite H1, H2, H3.
Qed.

Lemma inspect_field_type_fuel_DateTime64 (fuel : nat) (ct param : string) :
  Py.startswith ct "LowCardinality" = false ->
  Py.startswith ct "Nullable" = false ->
  Py.startswith ct "FixedString" = false ->
  Py.startswith ct "DateTime64" = true ->
  inspect_field_type_fuel DEFAULT_PRECISION repr (S fuel) ct param
  = gbind (lift (item ct 11))
      (fun c11 =>
         gbind (lift (int_of_char c11))
           (fun precision =>
              gbind (yield ("models.DateTime64Field("
                            ++ (if negb (Z.eqb precision DEFAULT_PRECISION)
                                then merge_params
                                       [param; "precision=" ++ Py.chr c11]
                                else param)
                            ++ ")"))
                (fun _ =>
                   gbind (lift (item ct 12))
                     (fun c12 =>
                        if Ascii.eqb c12 ","
                        then gbind (lift (scan_while not_quote
                                                     (Py.drop 15 ct) 15))
                               (fun i => gret (Py.drop (i + 2) ct))
                        else gret (Py.drop 13 ct))))).
Proof.
  intros H1 H2 H3 H4. cbn [inspect_field_type_fuel]. unfold ensure_str.
  now rewrite H1, H2, H3, H4.
Qed.

Lemma inspect_field_type_fuel_Decimal (fuel : nat) (ct param : string) :
  Py.startswith ct "LowCardinality" = false ->
  Py.startswith ct "Nullable" = false ->
  Py.startswith ct "FixedString" = false ->
  Py.startswith ct "DateTime64" = false ->
  Py.startswith ct "DateTime" = false ->
  Py.startswith ct "Decimal" = true ->
  inspect_field_type_fuel DEFAULT_PRECISION repr (S fuel) ct param
  = gbind (lift (scan_while Py.isdigit (Py.drop 8 ct) 8))
      (fun i =>
         gbind (lift (scan_while Py.isdigit (Py.drop (i + 2) ct) (i + 2)))
           (fun i' =>
              gbind (yield ("models.DecimalField("
                            ++ merge_params
                                 [param;
                                  "max_digits=" ++ Py.slice 8 i ct;
                                  "decimal_places="
                                  ++ Py.slice (i + 2) i' ct]
                            ++ ")"))
                (fun _ => gret (Py.drop (i' + 1) ct)))).
Proof.
  intros H1 H2 H3 H4 H5 H6. cbn [inspect_field_type_fuel]. unfold ensure_str.
  now rewrite H1, H2, H3, H4, H5, H6.
Qed.

Lemma inspect_field_type_fuel_Array (fuel : nat) (ct param : string) :
  Py.startswith ct "LowCardinality" = false ->
  Py.startswith ct "Nullable" = false ->
  Py.startswith ct "FixedString" = false ->
  Py.startswith ct "DateTime64" = false ->
  Py.startswith ct "DateTime" = false ->
  Py.startswith ct "Decimal" = false ->
  Py.startswith ct "Enum" = false ->
  Py.startswith ct "Array" = true ->
  inspect_field_type_fuel DEFAULT_PRECISION repr (S fuel) ct param
  = gbind (yield "models.ArrayField(")
      (fun _ =>
         gbind (inspect_field_type_fuel DEFAULT_PRECISION repr fuel
                                        (Py.drop 6 ct) "")
           (fun remain =>
              gbind (yield_param param)
                (fun _ => gbind (yield ")")
                            (fun _ => gret (Py.drop 1 remain))))).
Proof.
  intros H1 H2 H3 H4 H5 H6 H7 H8. cbn [inspect_field_type_fuel].
  unfold ensure_str. now rewrite H1, H2, H3, H4, H5, H6, H7, H8.
Qed.

Lemma inspect_field_type_fuel_Tuple (fuel : nat) (ct param : string) :
  Py.startswith ct "LowCardinality" = false ->
  Py.startswith ct "Nullable" = false ->
  Py.startswith ct "FixedString" = false ->
  Py.startswith ct "DateTime64" = false ->
  Py.startswith ct "DateTime" = false ->
  Py.startswith ct "Decimal" = false ->
  Py.startswith ct "Enum" = false ->
  Py.startswith ct "Array" = false ->
  Py.startswith ct "Tuple" = true ->
  inspect_field_type_fuel DEFAULT_PRECISION repr (S fuel) ct param
  = gbind (yield "models.TupleField([")
      (fun _ =>
         gbind (inspect_field_type_fuel DEFAULT_PRECISION repr fuel
                                        (Py.drop 6 ct) "")
           (fun remain =>
              gbind (tuple_loop
                       (fun t => inspect_field_type_fuel DEFAULT_PRECISION
                                   repr fuel t "")
                       (String.length remain) remain)
                (fun remain =>
                   gbind (yield "]")
                     (fun _ =>
                        gbind (yield_param param)
                          (fun _ => gbind (yield ")")
                                      (fun _ => gret (Py.drop 1 remain))))))).
Proof.
  intros H1 H2 H3 H4 H5 H6 H7 H8 H9. cbn [inspect_field_type_fuel].
  unfold ensure_str. now rewrite H1, H2, H3, H4, H5, H6, H7, H8, H9.
Qed.

Lemma inspect_field_type_fuel_Map (fuel : nat) (ct param : string) :
  Py.startswith ct "LowCardinality" = false ->
  Py.startswith ct "Nullable" = false ->
  Py.startswith ct "FixedString" = false ->
  Py.startswith ct "DateTime64" = false ->
  Py.startswith ct "DateTime" = false ->
  Py.startswith ct "Decimal" = false ->
  Py.startswith ct "Enum" = false ->
  Py.startswith ct "Array" = false ->
  Py.startswith ct "Tuple" = false ->
  Py.startswith ct "Map" = true ->
  inspect_field_type_fuel DEFAULT_PRECISION repr (S fuel) ct param
  = gbind (yield "models.MapField(")
      (fun _ =>
         gbind (inspect_field_type_fuel DEFAULT_PRECISION repr fuel
                                        (Py.drop 4 ct) "")
           (fun remain =>
              gbind (yield ", ")
                (fun _ =>
                   gbind (inspect_field_type_fuel DEFAULT_PRECISION repr fuel
                                                  (Py.drop 2 remain) "")
                     (fun remain =>
                        gbind (yield_param param)
                          (fun _ => gbind (yield ")")
                                      (fun _ => gret (Py.drop 1 remain))))))).
Proof.
  intros H1 H2 H3 H4 H5 H6 H7 H8 H9 H10. cbn [inspect_field_type_fuel].
  unfold ensure_str. now rewrite H1, H2, H3, H4, H5, H6, H7, H8, H9, H10.
Qed.

Lemma inspect_field_type_fuel_JSON (fuel : nat) (ct param : string) :
  Forall (fun kw => Py.startswith ct kw = false)
         (firstn 10 keywords) ->
  Py.startswith ct "Object('json')" = true ->
  inspect_field_type_fuel DEFAULT_PRECISION repr (S fuel) ct param
  = gbind (yield ("models.JSONField(" ++ param ++ ")"))
          (fun _ => gret (Py.drop 14 ct)).
Proof.
  intros H HJ. cbn [firstn keywords] in H.
  repeat match goal with
         | H : Forall _ (_ :: _) |- _ => inversion_clear H
         end.
  cbn [inspect_field_type_fuel]. unfold ensure_str.
  repeat match goal with
         | H : Py.startswith ct _ = _ |- _ => rewrite H; clear H
         end.
  reflexivity.
Qed.

Lemma inspect_field_type_fuel_other (fuel : nat) (ct param : string) :
  no_keyword ct ->
  inspect_field_type_fuel DEFAULT_PRECISION repr (S fuel) ct param
  = ([ "models." ++ Py.take (scan_while_bounded Py.isalnum ct 0) ct
       ++ "Field(" ++ param ++ ")" ],
     Return (Py.drop (scan_while_bounded Py.isalnum ct 0) ct)).
Proof.
  intros H. unfold no_keyword, keywords in H.
  repeat match goal with
         | H : Forall _ (_ :: _) |- _ => inversion_clear H
         end.
  cbn [inspect_field_type_fuel]. unfold ensure_str.
  repeat match goal with
         | H : Py.startswith ct _ = _ |- _ => rewrite H; clear H
         end.
  reflexivity.
Qed.

(** *** The productions without a type inside *)

Lemma stops_digits_cons (c : ascii) (s : string) :
  Py.isdigit c = false -> stops_digits (String c s).
Proof. intros H. now exists c, s. Qed.

Lemma drop_length_plus (a b : string) (n k : nat) :
  n = String.length a -> Py.drop (n + k) (a ++ b) = Py.drop k b.
Proof. intros ->. apply drop_plus_append. Qed.

Lemma drop_exact (a b : string) (n : nat) :
  n = String.length a -> Py.drop n (a ++ b) = b.
Proof. intros ->. apply drop_append_length. Qed.

Lemma slice_from (a b c : string) (i j : nat) :
  i = String.length a -> j = i + String.length b ->
  Py.slice i j (a ++ b ++ c) = b.
Proof.
  intros -> ->. unfold Py.slice.
  rewrite Nat.add_comm, Nat.add_sub.
  rewrite <- (Nat.add_0_r (String.length a)), drop_plus_append.
  cbn [Py.drop]. apply take_append_length.
Qed.

Lemma decode_FixedString (n rest param : string) :
  all_chars Py.isdecimal n = true ->
  inspect_field_type DEFAULT_PRECISION repr
                     ("FixedString(" ++ n ++ ")" ++ rest) param
  = (["models.FixedStringField(" ++ merge_params [param; "max_bytes=" ++ n]
      ++ ")"],
     Return rest).
Proof.
  intros Hn. unfold inspect_field_type.
  rewrite inspect_field_type_fuel_FixedString
    by (reflexivity || apply (startswith_append "FixedString")).
  change (Py.drop 12 ("FixedString(" ++ n ++ ")" ++ rest))
    with (n ++ ")" ++ rest).
  rewrite scan_while_digits by (assumption || now apply stops_digits_cons).
  cbn [lift gbind yield gret app].
  rewrite (slice_from "FixedString(" n (")" ++ rest)) by reflexivity.
  rewrite <- Nat.add_assoc.
  rewrite (drop_length_plus "FixedString(" _ 12) by reflexivity.
  rewrite (drop_length_plus n _ (String.length n)) by reflexivity.
  reflexivity.
Qed.

Lemma int_of_char_decimal (p : ascii) :
  Py.isdecimal p = true ->
  int_of_char p = Return (Z.of_nat (nat_of_ascii p) - 48)%Z.
Proof. intros H. unfold int_of_char. now rewrite H. Qed.

Lemma negb_if {A} (b : bool) (x y : A) :
  (if negb b then x else y) = if b then y else x.
Proof. now destruct b. Qed.

Lemma scan_while_not_quote (tz rest : string) (i : nat) :
  all_chars not_quote tz = true ->
  scan_while not_quote (tz ++ String "'" rest) i
  = Return (i + String.length tz).
Proof.
  revert i; induction tz as [|c tz IH]; intros i H;
    cbn [append scan_while String.length all_chars] in *.
  - now rewrite Nat.add_0_r.
  - apply andb_true_iff in H as [Hc H]. rewrite Hc, IH by exact H.
    f_equal. lia.
Qed.

Lemma decode_DateTime64 (p : ascii) (rest param : string) :
  Py.isdecimal p = true ->
  inspect_field_type DEFAULT_PRECISION repr
                     ("DateTime64(" ++ String p (")" ++ rest)) param
  = (fragments DEFAULT_PRECISION (TDateTime64 p None) param, Return rest).
Proof.
  intros Hp. unfold inspect_field_type.
  rewrite inspect_field_type_fuel_DateTime64
    by (reflexivity || apply (startswith_append "DateTime64")).
  change (item _ 11) with (Return (A:=ascii) p).
  change (item _ 12) with (Return (A:=ascii) ")"%char).
  cbn [lift gbind]. rewrite (int_of_char_decimal p Hp).
  cbn [lift gbind yield gret app fragments]. rewrite negb_if.
  reflexivity.
Qed.

Lemma decode_DateTime64_tz (p : ascii) (tz rest param : string) :
  Py.isdecimal p = true -> all_chars not_quote tz = true ->
  inspect_field_type DEFAULT_PRECISION repr
                     ("DateTime64(" ++ String p (", '" ++ tz ++ "')" ++ rest))
                     param
  = (fragments DEFAULT_PRECISION (TDateTime64 p (Some tz)) param, Return rest).
Proof.
  intros Hp Htz. unfold inspect_field_type.
  rewrite inspect_field_type_fuel_DateTime64
    by (reflexivity || apply (startswith_append "DateTime64")).
  change (item _ 11) with (Return (A:=ascii) p).
  change (item _ 12) with (Return (A:=ascii) ","%char).
  cbn [lift gbind]. rewrite (int_of_char_decimal p Hp).
  cbn [lift gbind yield gret app fragments]. rewrite negb_if.
  change (Ascii.eqb "," ",") with true. cbv iota.
  change (Py.drop 15 ("DateTime64(" ++ String p (", '" ++ tz ++ "')" ++ rest)))
    with (tz ++ String "'" (")" ++ rest)).
  rewrite scan_while_not_quote by exact Htz.
  cbn [lift gbind gret app].
  change ("DateTime64(" ++ String p (", '" ++ tz ++ "')" ++ rest))
    with (("DateTime64(" ++ String p ", '") ++ tz ++ "')" ++ rest).
  rewrite <- Nat.add_assoc.
  rewrite (drop_length_plus ("DateTime64(" ++ String p ", '") _ 15)
    by reflexivity.
  rewrite (drop_length_plus tz _ (String.length tz)) by reflexivity.
  reflexivity.
Qed.

Lemma closes_head (c : ascii) (rest : string) :
  closes (String c rest) = true ->
  Py.isalnum c = false /\ Ascii.eqb c "(" = false.
Proof.
  cbn [closes]. intros H. apply andb_true_iff in H as [H1 H2].
  now apply negb_true_iff in H1, H2.
Qed.

Lemma startswith_cons (c d : ascii) (s p : string) :
  Py.startswith (String c s) (String d p)
  = Ascii.eqb d c && Py.startswith s p.
Proof.
  unfold Py.startswith. cbn [String.prefix].
  destruct (ascii_dec d c) as [->|Hne].
  - now rewrite Ascii.eqb_refl.
  - apply Ascii.eqb_neq in Hne. now rewrite Hne.
Qed.

Lemma startswith_app_same (a s p : string) :
  Py.startswith (a ++ s) (a ++ p) = Py.startswith s p.
Proof.
  induction a as [|c a IH]; cbn [append]; [reflexivity|].
  now rewrite startswith_cons, Ascii.eqb_refl.
Qed.

Lemma decode_DateTime (rest param : string) :
  closes rest = true ->
  inspect_field_type DEFAULT_PRECISION repr ("DateTime" ++ rest) param
  = (["models.DateTimeField(" ++ param ++ ")"], Return rest).
Proof.
  intros Hrest. unfold inspect_field_type.
  assert (H64 : Py.startswith ("DateTime" ++ rest) "DateTime64" = false).
  { change "DateTime64" with ("DateTime" ++ "64").
    rewrite startswith_app_same.
    destruct rest as [|c rest]; [reflexivity|].
    apply closes_head in Hrest as [Hc _]. rewrite startswith_cons.
    destruct (Ascii.eqb_spec "6" c) as [<-|]; [discriminate | reflexivity]. }
  rewrite inspect_field_type_fuel_DateTime
    by (reflexivity || assumption || apply (startswith_append "DateTime")).
  change (Py.drop 8 ("DateTime" ++ rest)) with rest.
  assert (Hparen : item_is ("DateTime" ++ rest) 8 "(" = false).
  { destruct rest as [|c rest]; [reflexivity|].
    apply closes_head in Hrest as [_ Hc]. exact Hc. }
  rewrite Hparen, andb_false_r. reflexivity.
Qed.

Lemma decode_JSON (rest param : string) :
  inspect_field_type DEFAULT_PRECISION repr ("Object('json')" ++ rest) param
  = (["models.JSONField(" ++ param ++ ")"], Return rest).
Proof.
  unfold inspect_field_type.
  rewrite inspect_field_type_fuel_JSON;
    [reflexivity | | apply (startswith_append "Object('json')")].
  repeat constructor.
Qed.

Lemma decode_Decimal (p s rest param : string) :
  all_chars Py.isdecimal p = true -> all_chars Py.isdecimal s = true ->
  inspect_field_type DEFAULT_PRECISION repr
                     ("Decimal(" ++ p ++ ", " ++ s ++ ")" ++ rest) param
  = (["models.DecimalField("
      ++ merge_params [param; "max_digits=" ++ p; "decimal_places=" ++ s]
      ++ ")"],
     Return rest).
Proof.
  intros Hp Hs. unfold inspect_field_type.
  rewrite inspect_field_type_fuel_Decimal
    by (reflexivity || apply (startswith_append "Decimal")).
  change (Py.drop 8 ("Decimal(" ++ p ++ ", " ++ s ++ ")" ++ rest))
    with (p ++ ", " ++ s ++ ")" ++ rest).
  rewrite scan_while_digits by (assumption || now apply stops_digits_cons).
  cbn [lift gbind].
  rewrite <- Nat.add_assoc.
  rewrite (drop_length_plus "Decimal(" _ 8) by reflexivity.
  rewrite (drop_length_plus p _ (String.length p)) by reflexivity.
  change (Py.drop 2 (", " ++ s ++ ")" ++ rest)) with (s ++ ")" ++ rest).
  rewrite scan_while_digits by (assumption || now apply stops_digits_cons).
  cbn [lift gbind yield gret app].
  rewrite (slice_from "Decimal(" p (", " ++ s ++ ")" ++ rest)) by reflexivity.
  replace ("Decimal(" ++ p ++ ", " ++ s ++ ")" ++ rest)
    with (("Decimal(" ++ p ++ ", ") ++ s ++ ")" ++ rest)
    by (now rewrite !append_assoc).
  rewrite (slice_from ("Decimal(" ++ p ++ ", ") s (")" ++ rest));
    [| rewrite !length_append; cbn [String.length]; lia | reflexivity].
  rewrite <- (append_assoc _ s), <- (append_assoc _ ")").
  rewrite drop_exact; [reflexivity|].
  rewrite !length_append. cbn [String.length]. lia.
Qed.

Lemma decode_Enum (width : string) (v : string * string)
      (vs : list (string * string)) (rest param : string) :
  all_chars Py.isdecimal width = true ->
  forallb variant_ok (v :: vs) = true ->
  inspect_field_type DEFAULT_PRECISION repr
                     (enum_type_text width (v :: vs) ++ rest) param
  = (["models.Enum" ++ width ++ "Field("
      ++ merge_params [param; choices_param (v :: vs)] ++ ")"],
     Return rest).
Proof.
  intros Hw Hok. unfold inspect_field_type.
  set (tail := join_tail ", " (map variant_text vs) ++ String ")" rest).
  assert (E : enum_type_text width (v :: vs) ++ rest
              = "Enum" ++ width ++ String "(" (variant_text v ++ tail)).
  { unfold enum_type_text, tail. cbn [map]. rewrite join_cons.
    now rewrite !append_assoc. }
  rewrite E.
  rewrite inspect_field_type_fuel_Enum
    by (reflexivity || apply (startswith_append "Enum")).
  change (Py.drop 4 ("Enum" ++ width ++ String "(" (variant_text v ++ tail)))
    with (width ++ String "(" (variant_text v ++ tail)).
  rewrite scan_while_digits by (assumption || now apply stops_digits_cons).
  cbn [lift gbind].
  replace (Py.take (4 + String.length width)
             ("Enum" ++ width ++ String "(" (variant_text v ++ tail)))
    with ("Enum" ++ width)
    by (cbn [Nat.add Py.take append]; now rewrite take_append_length).
  replace (Py.drop (4 + String.length width + 1)
             ("Enum" ++ width ++ String "(" (variant_text v ++ tail)))
    with (variant_text v ++ tail)
    by (cbn [Nat.add Py.drop append]; now rewrite drop_plus_append).
  cbn [forallb] in Hok. apply andb_true_iff in Hok as [Hv Hok].
  apply andb_true_iff in Hv as [Hl Hv]. destruct v as [l v].
  unfold tail.
  rewrite (consume_enum_choice_plain repr l v _ Hl Hv (stops_digits_tail _ rest)).
  cbv beta iota. rewrite enum_loop_variants;
    [|assumption | rewrite <- (length_map variant_text); apply length_join_tail].
  cbv beta iota. cbn [yield gret gbind app Py.drop].
  reflexivity.
Qed.

(** A prefix of the decoder does not open a name of letters and digits
    that it does not open without what follows the name. *)
Lemma startswith_name_rest (kw : string) :
  keyword_shape kw = true ->
  forall name rest,
    all_chars Py.isalnum name = true -> closes rest = true ->
    Py.startswith name kw = false ->
    Py.startswith (name ++ rest) kw = false.
Proof.
  induction kw as [|k kw IH]; intros Hkw name rest Hname Hrest Hno.
  - now destruct name.
  - destruct name as [|c name]; cbn [append].
    + destruct rest as [|r rest]; [reflexivity|].
      apply closes_head in Hrest as [Hr1 Hr2]. rewrite startswith_cons.
      destruct (Ascii.eqb_spec k r) as [->|]; [|reflexivity].
      cbn [keyword_shape] in Hkw. rewrite Hr1 in Hkw. congruence.
    + rewrite startswith_cons in *.
      cbn [all_chars] in Hname. apply andb_true_iff in Hname as [Hc Hname].
      destruct (Ascii.eqb_spec k c) as [->|]; [|reflexivity].
      cbn [andb] in *. cbn [keyword_shape] in Hkw. rewrite Hc in Hkw.
      now apply IH.
Qed.

Lemma no_keyword_name_rest (name rest : string) :
  simple_name name = true -> closes rest = true ->
  no_keyword (name ++ rest).
Proof.
  unfold simple_name, no_keyword. intros H Hrest.
  apply andb_true_iff in H as [Hname H].
  rewrite forallb_forall in H. apply Forall_forall. intros kw Hin.
  apply startswith_name_rest; try assumption.
  - unfold keywords in Hin. cbn [In] in Hin.
    repeat (destruct Hin as [<-|Hin]; [reflexivity|]). contradiction.
  - specialize (H kw Hin). now apply negb_true_iff in H.
Qed.

Lemma scan_while_bounded_name (name rest : string) (i : nat) :
  all_chars Py.isalnum name = true -> closes rest = true ->
  scan_while_bounded Py.isalnum (name ++ rest) i = i + String.length name.
Proof.
  revert i; induction name as [|c name IH]; intros i Hname Hrest;
    cbn [append String.length all_chars scan_while_bounded] in *.
  - rewrite Nat.add_0_r. destruct rest as [|r rest]; [reflexivity|].
    apply closes_head in Hrest as [Hr _]. cbn [scan_while_bounded].
    now rewrite Hr.
  - apply andb_true_iff in Hname as [Hc Hname]. rewrite Hc, IH by assumption.
    lia.
Qed.

Lemma decode_Simple (name rest param : string) :
  simple_name name = true -> closes rest = true ->
  inspect_field_type DEFAULT_PRECISION repr (name ++ rest) param
  = (["models." ++ name ++ "Field(" ++ param ++ ")"], Return rest).
Proof.
  intros Hname Hrest. unfold inspect_field_type.
  rewrite inspect_field_type_fuel_other
    by now apply no_keyword_name_rest.
  unfold simple_name in Hname. apply andb_true_iff in Hname as [Hname _].
  rewrite scan_while_bounded_name by assumption. cbn [Nat.add].
  now rewrite take_append_length, drop_append_length.
Qed.

(** *** The productions with types inside *)

Lemma inspect_field_type_Array (inner param : string) :
  inspect_field_type DEFAULT_PRECISION repr ("Array(" ++ inner) param
  = gbind (yield "models.ArrayField(")
      (fun _ =>
         gbind (inspect_field_type DEFAULT_PRECISION repr inner "")
           (fun remain =>
              gbind (yield_param param)
                (fun _ => gbind (yield ")")
                            (fun _ => gret (Py.drop 1 remain))))).
Proof.
  unfold inspect_field_type at 1.
  rewrite inspect_field_type_fuel_Array
    by (reflexivity || apply (startswith_append "Array" ("(" ++ inner))).
  change (Py.drop 6 ("Array(" ++ inner)) with inner.
  rewrite inspect_field_type_fuel_stable; [reflexivity|].
  cbn [String.length append]. lia.
Qed.

Lemma inspect_field_type_Map (inner param : string) :
  inspect_field_type DEFAULT_PRECISION repr ("Map(" ++ inner) param
  = gbind (yield "models.MapField(")
      (fun _ =>
         gbind (inspect_field_type DEFAULT_PRECISION repr inner "")
           (fun remain =>
              gbind (yield ", ")
                (fun _ =>
                   gbind (inspect_field_type DEFAULT_PRECISION repr
                                             (Py.drop 2 remain) "")
                     (fun remain =>
                        gbind (yield_param param)
                          (fun _ => gbind (yield ")")
                                      (fun _ => gret (Py.drop 1 remain))))))).
Proof.
  unfold inspect_field_type at 1.
  rewrite inspect_field_type_fuel_Map
    by (reflexivity || apply (startswith_append "Map" ("(" ++ inner))).
  change (Py.drop 4 ("Map(" ++ inner)) with inner.
  rewrite inspect_field_type_fuel_stable
    by (cbn [String.length append]; lia).
  apply gbind_ext. intros _. apply gbind_ext_returned. intros ys remain Hrun.
  apply gbind_ext. intros _.
  rewrite inspect_field_type_fuel_stable; [reflexivity|].
  unfold inspect_field_type in Hrun.
  apply inspect_field_type_fuel_suffix, is_suffix_length in Hrun.
  rewrite length_drop. cbn [String.length append]. lia.
Qed.

Lemma inspect_field_type_Tuple (inner param : string) :
  inspect_field_type DEFAULT_PRECISION repr ("Tuple(" ++ inner) param
  = gbind (yield "models.TupleField([")
      (fun _ =>
         gbind (inspect_field_type DEFAULT_PRECISION repr inner "")
           (fun remain =>
              gbind (tuple_loop
                       (fun t => inspect_field_type DEFAULT_PRECISION repr
                                                    t "")
                       (String.length remain) remain)
                (fun remain =>
                   gbind (yield "]")
                     (fun _ =>
                        gbind (yield_param param)
                          (fun _ => gbind (yield ")")
                                      (fun _ => gret (Py.drop 1 remain))))))).
Proof.
  unfold inspect_field_type at 1.
  rewrite inspect_field_type_fuel_Tuple
    by (reflexivity || apply (startswith_append "Tuple" ("(" ++ inner))).
  change (Py.drop 6 ("Tuple(" ++ inner)) with inner.
  rewrite inspect_field_type_fuel_stable
    by (cbn [String.length append]; lia).
  apply gbind_ext. intros _. apply gbind_ext_returned. intros ys remain Hrun.
  f_equal. apply tuple_loop_ext.
  - intros t Ht. apply inspect_field_type_fuel_stable.
    unfold inspect_field_type in Hrun.
    apply inspect_field_type_fuel_suffix, is_suffix_length in Hrun.
    cbn [String.length append]. lia.
  - intros t ys' r. apply inspect_field_type_fuel_suffix.
Qed.

Lemma closes_paren (rest : string) : closes (")" ++ rest) = true.
Proof. reflexivity. Qed.

Lemma closes_join_tail (parts : list string) (rest : string) :
  closes (join_tail ", " parts ++ ")" ++ rest) = true.
Proof. destruct parts; reflexivity. Qed.

Lemma yield_param_fragment (param : string) :
  yield_param param = (param_fragment param, Return tt).
Proof. unfold yield_param, param_fragment. now destruct (nonempty param). Qed.

Lemma tuple_loop_elements (ts : list type_expr) :
  Forall (decodes DEFAULT_PRECISION repr) ts -> forallb well_formed ts = true ->
  forall n rest,
    List.length ts <= n ->
    tuple_loop (fun t => inspect_field_type DEFAULT_PRECISION repr t "") n
               (join_tail ", " (map type_text ts) ++ ")" ++ rest)
    = (flat_map (fun u => ", " :: fragments DEFAULT_PRECISION u "") ts,
       Return (")" ++ rest)).
Proof.
  induction ts as [|u us IH]; intros Hdec Hwf n rest Hn.
  - destruct n; reflexivity.
  - inversion_clear Hdec as [|? ? Hu Hus].
    cbn [forallb] in Hwf. apply andb_true_iff in Hwf as [Hwu Hwus].
    destruct n as [|n]; [cbn in Hn; lia|].
    cbn [map join_tail flat_map]. rewrite !append_assoc.
    cbn [append tuple_loop item String.get lift gbind Py.drop].
    change (Ascii.eqb "," ",") with true. cbv iota.
    rewrite (Hu Hwu "" _ (closes_join_tail _ rest)).
    cbn [yield gbind].
    rewrite (IH Hus Hwus n rest) by (cbn in Hn; lia).
    reflexivity.
Qed.

Lemma decodes_all (t : type_expr) : decodes DEFAULT_PRECISION repr t.
Proof.
  induction t using type_expr_induction; unfold decodes in *;
    cbn [well_formed type_text]; intros Hwf param rest Hrest.
  - now apply decode_Simple.
  - rewrite !append_assoc, inspect_field_type_Nullable.
    rewrite (IHt Hwf _ _ (closes_paren rest)).
    cbn [gbind gret Py.drop append fragments]. now rewrite app_nil_r.
  - rewrite !append_assoc, inspect_field_type_LowCardinality.
    rewrite (IHt Hwf _ _ (closes_paren rest)).
    cbn [gbind gret Py.drop append fragments]. now rewrite app_nil_r.
  - rewrite !append_assoc. now apply decode_FixedString.
  - destruct tz as [tz|].
    + apply andb_true_iff in Hwf as [Hp Htz]. cbn [append].
      rewrite !append_assoc. now apply decode_DateTime64_tz.
    + cbn [append]. now apply decode_DateTime64.
  - now apply decode_DateTime.
  - apply andb_true_iff in Hwf as [Hp Hs].
    rewrite !append_assoc. now apply decode_Decimal.
  - apply andb_true_iff in Hwf as [Hw Hvs]. now apply decode_Enum.
  - rewrite !append_assoc, inspect_field_type_Array.
    rewrite (IHt Hwf _ _ (closes_paren rest)), yield_param_fragment.
    cbn [yield gbind gret Py.drop append fragments app].
    rewrite ?app_nil_r, <- ?app_assoc. reflexivity.
  - apply andb_true_iff in Hwf as [Hwt Hwts].
    rewrite !append_assoc, inspect_field_type_Tuple.
    rewrite (IHt Hwt _ _ (closes_join_tail _ rest)).
    cbn [yield gbind].
    rewrite tuple_loop_elements, yield_param_fragment;
      [|assumption | assumption
       |rewrite <- (length_map type_text); apply length_join_tail].
    cbn [yield gbind gret Py.drop append fragments app].
    rewrite ?app_nil_r, <- ?app_assoc. reflexivity.
  - apply andb_true_iff in Hwf as [Hwk Hwv].
    rewrite !append_assoc, inspect_field_type_Map.
    rewrite (IHt1 Hwk) by reflexivity.
    cbn [yield gbind Py.drop append].
    rewrite (IHt2 Hwv _ _ (closes_paren rest)), yield_param_fragment.
    cbn [yield gbind gret Py.drop append fragments app].
    rewrite ?app_nil_r, <- ?app_assoc. reflexivity.
  - apply decode_JSON.
Qed.

(** *** Inputs that are cut off *)

Lemma scan_while_all (p : ascii -> bool) (s : string) (i : nat) :
  all_chars p s = true -> scan_while p s i = Raise IndexError.
Proof.
  revert i; induction s as [|c s IH]; intros i H;
    cbn [scan_while all_chars] in *; [reflexivity|].
  apply andb_true_iff in H as [Hc H]. rewrite Hc. now apply IH.
Qed.

Lemma cut_FixedString (ds param : string) :
  all_chars Py.isdigit ds = true ->
  inspect_field_type DEFAULT_PRECISION repr ("FixedString(" ++ ds) param
  = ([], Raise IndexError).
Proof.
  intros H. unfold inspect_field_type.
  rewrite inspect_field_type_fuel_FixedString
    by (reflexivity || apply (startswith_append "FixedString" ("(" ++ ds))).
  change (Py.drop 12 ("FixedString(" ++ ds)) with ds.
  now rewrite scan_while_all.
Qed.

Lemma cut_Decimal (ds param : string) :
  all_chars Py.isdigit ds = true ->
  inspect_field_type DEFAULT_PRECISION repr ("Decimal(" ++ ds) param
  = ([], Raise IndexError).
Proof.
  intros H. unfold inspect_field_type.
  rewrite inspect_field_type_fuel_Decimal
    by (reflexivity || apply (startswith_append "Decimal" ("(" ++ ds))).
  change (Py.drop 8 ("Decimal(" ++ ds)) with ds.
  now rewrite scan_while_all.
Qed.

Lemma cut_Decimal_scale (p ds param : string) :
  all_chars Py.isdecimal p = true -> all_chars Py.isdigit ds = true ->
  inspect_field_type DEFAULT_PRECISION repr ("Decimal(" ++ p ++ ", " ++ ds)
                     param
  = ([], Raise IndexError).
Proof.
  intros Hp H. unfold inspect_field_type.
  rewrite inspect_field_type_fuel_Decimal
    by (reflexivity || apply (startswith_append "Decimal" ("(" ++ _))).
  change (Py.drop 8 ("Decimal(" ++ p ++ ", " ++ ds)) with (p ++ ", " ++ ds).
  rewrite scan_while_digits by (assumption || now apply stops_digits_cons).
  cbn [lift gbind].
  rewrite <- Nat.add_assoc.
  rewrite (drop_length_plus "Decimal(" _ 8) by reflexivity.
  rewrite (drop_length_plus p _ (String.length p)) by reflexivity.
  change (Py.drop 2 (", " ++ ds)) with ds.
  now rewrite scan_while_all.
Qed.

Lemma cut_Enum (ds param : string) :
  all_chars Py.isdigit ds = true ->
  inspect_field_type DEFAULT_PRECISION repr ("Enum" ++ ds) param
  = ([], Raise IndexError).
Proof.
  intros H. unfold inspect_field_type.
  rewrite inspect_field_type_fuel_Enum
    by (reflexivity || apply (startswith_append "Enum" ds)).
  change (Py.drop 4 ("Enum" ++ ds)) with ds.
  now rewrite scan_while_all.
Qed.

Lemma item_short (s : string) (i : nat) :
  String.length s <= i -> item s i = Raise IndexError.
Proof.
  unfold item. revert i; induction s as [|c s IH]; intros i H;
    cbn [String.length] in H.
  - now destruct i.
  - destruct i as [|i]; [lia|]. cbn [String.get]. apply IH. lia.
Qed.

(** X6.  The precision of [DateTime64] is the one character after the
    opening parenthesis, handed to [int]: a character that is not a
    decimal digit raises [ValueError] before anything is yielded. *)
Theorem datetime64_bad_precision_raises (c : ascii) (rest param : string) :
  Py.isdecimal c = false ->
  inspect_field_type DEFAULT_PRECISION repr ("DateTime64(" ++ String c rest)
                     param
  = ([], Raise ValueError).
Proof.
  intros Hc. unfold inspect_field_type.
  rewrite inspect_field_type_fuel_DateTime64
    by (reflexivity || apply (startswith_append "DateTime64" ("(" ++ _))).
  change (item _ 11) with (Return (A:=ascii) c).
  cbn [lift gbind]. unfold int_of_char. now rewrite Hc.
Qed.

Lemma cut_DateTime64 (tail param : string) :
  String.length tail <= 1 ->
  inspect_field_type DEFAULT_PRECISION repr ("DateTime64" ++ tail) param
  = ([], Raise IndexError).
Proof.
  intros H. unfold inspect_field_type.
  rewrite inspect_field_type_fuel_DateTime64
    by (reflexivity || apply (startswith_append "DateTime64" tail)).
  rewrite item_short; [reflexivity|].
  rewrite length_append. cbn [String.length]. lia.
Qed.

Lemma cut_DateTime64_precision (p : ascii) (param : string) :
  Py.isdecimal p = true ->
  inspect_field_type DEFAULT_PRECISION repr
                     ("DateTime64(" ++ String p EmptyString) param
  = (fragments DEFAULT_PRECISION (TDateTime64 p None) param, Raise IndexError).
Proof.
  intros Hp. unfold inspect_field_type.
  rewrite inspect_field_type_fuel_DateTime64 by reflexivity.
  change (item _ 11) with (Return (A:=ascii) p).
  change (item _ 12) with (Raise (A:=ascii) IndexError).
  cbn [lift gbind]. rewrite (int_of_char_decimal p Hp).
  cbn [lift gbind yield gret app fragments]. now rewrite negb_if.
Qed.

(** *** The closing parenthesis *)

Lemma close_unchecked_Nullable (t : type_expr) (tail param : string) :
  well_formed t = true -> closes tail = true ->
  inspect_field_type DEFAULT_PRECISION repr
                     ("Nullable(" ++ type_text t ++ tail) param
  = (fragments DEFAULT_PRECISION (TNullable t) param, Return (Py.drop 1 tail)).
Proof.
  intros Hwf Htail. rewrite inspect_field_type_Nullable.
  rewrite (decodes_all t Hwf _ _ Htail).
  cbn [gbind gret fragments]. now rewrite app_nil_r.
Qed.

Lemma close_unchecked_LowCardinality (t : type_expr) (tail param : string) :
  well_formed t = true -> closes tail = true ->
  inspect_field_type DEFAULT_PRECISION repr
                     ("LowCardinality(" ++ type_text t ++ tail) param
  = (fragments DEFAULT_PRECISION (TLowCardinality t) param,
     Return (Py.drop 1 tail)).
Proof.
  intros Hwf Htail. rewrite inspect_field_type_LowCardinality.
  rewrite (decodes_all t Hwf _ _ Htail).
  cbn [gbind gret fragments]. now rewrite app_nil_r.
Qed.

Lemma close_unchecked_Array (t : type_expr) (tail param : string) :
  well_formed t = true -> closes tail = true ->
  inspect_field_type DEFAULT_PRECISION repr
                     ("Array(" ++ type_text t ++ tail) param
  = (fragments DEFAULT_PRECISION (TArray t) param, Return (Py.drop 1 tail)).
Proof.
  intros Hwf Htail. rewrite inspect_field_type_Array.
  rewrite (decodes_all t Hwf _ _ Htail), yield_param_fragment.
  cbn [yield gbind gret fragments app].
  rewrite ?app_nil_r, <- ?app_assoc. reflexivity.
Qed.

(** X4.  A [Tuple] whose text ends after its first element raises
    [IndexError] when it looks for the next comma; the opening fragment
    and the fragments of the element have been yielded by then. *)
Theorem tuple_cut_off_raises (t : type_expr) (param : string) :
  well_formed t = true ->
  inspect_field_type DEFAULT_PRECISION repr ("Tuple(" ++ type_text t) param
  = ("models.TupleField([" :: fragments DEFAULT_PRECISION t "",
     Raise IndexError).
Proof.
  intros Hwf. rewrite inspect_field_type_Tuple.
  rewrite <- (append_empty_r (type_text t)).
  rewrite (decodes_all t Hwf "" "" eq_refl).
  cbn [yield gbind String.length tuple_loop lift item String.get app].
  now rewrite app_nil_r.
Qed.

(** *** What the decoder gives *)

(** X1.  On the text of a well-formed type, followed by nothing or by a
    character that is neither a letter, a digit nor an opening
    parenthesis, the decoder yields the fragments of the type in order
    and returns what follows the type: the parameters of the caller and
    the flags of the wrappers go into the innermost field, a container
    decodes its elements without parameters and puts its own after
    them. *)
Theorem decoder_reads_well_formed_type (t : type_expr) (param rest : string) :
  well_formed t = true -> closes rest = true ->
  inspect_field_type DEFAULT_PRECISION repr (type_text t ++ rest) param
  = (fragments DEFAULT_PRECISION t param, Return rest).
Proof. intros Hwf. now apply decodes_all. Qed.

(** X2.  [DateTime64(p)] and [DateTime64(p, 'tz')] with a decimal digit
    [p]: one [DateTime64Field], with [precision=p] among its parameters
    unless [p] is the default precision; the time zone leaves no trace,
    and whatever follows the closing parenthesis is returned. *)
Theorem datetime64_precision_and_zone (p : ascii) (tz rest param : string) :
  Py.isdecimal p = true -> all_chars not_quote tz = true ->
  let field :=
    "models.DateTime64Field("
    ++ (if Z.eqb (Z.of_nat (nat_of_ascii p) - 48) DEFAULT_PRECISION
        then param
        else merge_params [param; "precision=" ++ Py.chr p])
    ++ ")" in
  inspect_field_type DEFAULT_PRECISION repr
                     ("DateTime64(" ++ String p (")" ++ rest)) param
  = ([field], Return rest)
  /\ inspect_field_type DEFAULT_PRECISION repr
                        ("DateTime64(" ++ String p (", '" ++ tz ++ "')" ++ rest))
                        param
     = ([field], Return rest).
Proof.
  intros Hp Htz. cbv zeta. split.
  - now rewrite decode_DateTime64.
  - now rewrite decode_DateTime64_tz.
Qed.

(** X3.  The closing parenthesis of [Nullable], [LowCardinality] and
    [Array] is not looked at: the character after the inner type is
    dropped whatever it is, and an input that ends there is read without
    an error. *)
Theorem closing_parenthesis_unchecked (t : type_expr) (tail param : string) :
  well_formed t = true -> closes tail = true ->
  inspect_field_type DEFAULT_PRECISION repr
                     ("Nullable(" ++ type_text t ++ tail) param
  = (fragments DEFAULT_PRECISION (TNullable t) param, Return (Py.drop 1 tail))
  /\ inspect_field_type DEFAULT_PRECISION repr
                        ("LowCardinality(" ++ type_text t ++ tail) param
     = (fragments DEFAULT_PRECISION (TLowCardinality t) param,
        Return (Py.drop 1 tail))
  /\ inspect_field_type DEFAULT_PRECISION repr
                        ("Array(" ++ type_text t ++ tail) param
     = (fragments DEFAULT_PRECISION (TArray t) param, Return (Py.drop 1 tail)).
Proof.
  intros Hwf Htail. split; [|split].
  - now apply close_unchecked_Nullable.
  - now apply close_unchecked_LowCardinality.
  - now apply close_unchecked_Array.
Qed.

(** X5.  A type whose text ends inside a number raises [IndexError]
    before anything is yielded: the digit loops of [FixedString],
    [Decimal] and [Enum] read on until a character that is not a digit
    and run past the end of the string. *)
Theorem cut_off_number_raises (p ds param : string) :
  all_chars Py.isdecimal p = true -> all_chars Py.isdigit ds = true ->
  inspect_field_type DEFAULT_PRECISION repr ("FixedString(" ++ ds) param
  = ([], Raise IndexError)
  /\ inspect_field_type DEFAULT_PRECISION repr ("Decimal(" ++ ds) param
     = ([], Raise IndexError)
  /\ inspect_field_type DEFAULT_PRECISION repr
                        ("Decimal(" ++ p ++ ", " ++ ds) param
     = ([], Raise IndexError)
  /\ inspect_field_type DEFAULT_PRECISION repr ("Enum" ++ ds) param
     = ([], Raise IndexError).
Proof.
  intros Hp Hds. repeat split.
  - now apply cut_FixedString.
  - now apply cut_Decimal.
  - now apply cut_Decimal_scale.
  - now apply cut_Enum.
Qed.

(** X7.  [DateTime64] with at most one character after the keyword raises
    [IndexError] before anything is yielded; with the precision as its
    last character it yields the field and then raises [IndexError],
    looking for the character after the precision. *)
Theorem datetime64_cut_off_raises (p : ascii) (tail param : string) :
  Py.isdecimal p = true -> String.length tail <= 1 ->
  inspect_field_type DEFAULT_PRECISION repr ("DateTime64" ++ tail) param
  = ([], Raise IndexError)
  /\ inspect_field_type DEFAULT_PRECISION repr
                        ("DateTime64(" ++ String p EmptyString) param
     = (["models.DateTime64Field("
         ++ (if Z.eqb (Z.of_nat (nat_of_ascii p) - 48) DEFAULT_PRECISION
             then param
             else merge_params [param; "precision=" ++ Py.chr p])
         ++ ")"],
        Raise IndexError).
Proof.
  intros Hp Htail. split.
  - now apply cut_DateTime64.
  - now rewrite cut_DateTime64_precision.
Qed.

End GrammarFacts.

Lemma decoder_reads_well_formed_type_nested :
  well_formed
    (TArray (TTuple (TSimple "String") [TEnum "8" ("a", "1") [("b", "2")]]))
  = true
  /\ closes "" = true
  /\ inspect_field_type 6 repr_str
       "Array(Tuple(String, Enum8('a' = 1, 'b' = 2)))" ""
     = (["models.ArrayField("; "models.TupleField(["; "models.StringField()";
         ", "; "models.Enum8Field(choices=[(1, 'a'), (2, 'b')])"; "]"; ")";
         ")"],
        Return "").
Proof.
  split; [reflexivity|]. split; [reflexivity|].
  apply (decoder_reads_well_formed_type
           6 repr_str
           (TArray (TTuple (TSimple "String")
                           [TEnum "8" ("a", "1") [("b", "2")]]))
           "" "");
    reflexivity.
Defined.

Lemma datetime64_precision_and_zone_UTC :
  Py.isdecimal "3" = true /\ all_chars not_quote "UTC" = true
  /\ inspect_field_type 6 repr_str "DateTime64(3), String)" ""
     = (["models.DateTime64Field(precision=3)"], Return ", String)")
  /\ inspect_field_type 6 repr_str "DateTime64(3, 'UTC'), String)" ""
     = (["models.DateTime64Field(precision=3)"], Return ", String)").
Proof.
  split; [reflexivity|]. split; [reflexivity|].
  apply (datetime64_precision_and_zone 6 repr_str "3" "UTC" ", String)" "");
    reflexivity.
Defined.

Lemma closing_parenthesis_unchecked_bracket :
  well_formed (TSimple "Int8") = true /\ closes "]x" = true
  /\ inspect_field_type 6 repr_str "Nullable(Int8]x" ""
     = (["models.Int8Field(null=True, blank=True)"], Return "x")
  /\ inspect_field_type 6 repr_str "LowCardinality(Int8]x" ""
     = (["models.Int8Field(low_cardinality=True)"], Return "x")
  /\ inspect_field_type 6 repr_str "Array(Int8]x" ""
     = (["models.ArrayField("; "models.Int8Field()"; ")"], Return "x").
Proof.
  split; [reflexivity|]. split; [reflexivity|].
  apply (closing_parenthesis_unchecked 6 repr_str (TSimple "Int8") "]x" "");
    reflexivity.
Defined.

Lemma tuple_cut_off_raises_Int8 :
  well_formed (TSimple "Int8") = true
  /\ inspect_field_type 6 repr_str "Tuple(Int8" ""
     = (["models.TupleField(["; "models.Int8Field()"], Raise IndexError).
Proof.
  split; [reflexivity|].
  apply (tuple_cut_off_raises 6 repr_str (TSimple "Int8") ""). reflexivity.
Defined.

Lemma cut_off_number_raises_12 :
  all_chars Py.isdecimal "9" = true /\ all_chars Py.isdigit "12" = true
  /\ inspect_field_type 6 repr_str "FixedString(12" "" = ([], Raise IndexError)
  /\ inspect_field_type 6 repr_str "Decimal(12" "" = ([], Raise IndexError)
  /\ inspect_field_type 6 repr_str "Decimal(9, 12" "" = ([], Raise IndexError)
  /\ inspect_field_type 6 repr_str "Enum12" "" = ([], Raise IndexError).
Proof.
  split; [reflexivity|]. split; [reflexivity|].
  apply (cut_off_number_raises 6 repr_str "9" "12" ""); reflexivity.
Defined.

Lemma datetime64_bad_precision_raises_x :
  Py.isdecimal "x" = false
  /\ inspect_field_type 6 repr_str "DateTime64(x)" "" = ([], Raise ValueError).
Proof.
  split; [reflexivity|].
  apply (datetime64_bad_precision_raises 6 repr_str "x" ")" ""). reflexivity.
Defined.

Lemma datetime64_cut_off_raises_3 :
  Py.isdecimal "3" = true /\ String.length "(" <= 1
  /\ inspect_field_type 6 repr_str "DateTime64(" "" = ([], Raise IndexError)
  /\ inspect_field_type 6 repr_str "DateTime64(3" ""
     = (["models.DateTime64Field(precision=3)"], Raise IndexError).
Proof.
  split; [reflexivity|]. split; [apply le_n|].
  apply (datetime64_cut_off_raises 6 repr_str "3" "(" "");
    [reflexivity | apply le_n].
Defined.

Section ChoiceFacts.

Variable repr : list N -> string.

Lemma scan_label_unclosed (l : string) :
  unclosed_label l = true ->
  forall i hb, scan_label l i hb = Raise IndexError.
Proof.
  assert (H : forall n l, String.length l <= n -> unclosed_label l = true ->
            forall i hb, scan_label l i hb = Raise IndexError).
  { clear l. induction n as [|n IH]; intros [|c r] Hn Hl i hb;
      cbn [String.length] in Hn; try lia; try reflexivity.
    cbn [unclosed_label] in Hl. cbn [scan_label].
    destruct (Ascii.eqb c Py.backslash).
    - destruct r as [|d r']; [reflexivity|].
      cbn [String.length] in Hn. apply IH; [lia | exact Hl].
    - apply andb_true_iff in Hl as [Hq Hl]. apply negb_true_iff in Hq.
      rewrite Hq. apply IH; [lia | exact Hl]. }
  intros Hl. now apply (H (String.length l)).
Qed.

Lemma consume_enum_choice_unclosed (q : ascii) (l : string) :
  unclosed_label l = true ->
  consume_enum_choice repr (String q l) = Raise IndexError.
Proof.
  intros H. unfold consume_enum_choice. cbn [Py.drop].
  now rewrite scan_label_unclosed.
Qed.

Lemma take_opened (q : ascii) (l rest : string) :
  Py.take (1 + String.length l + 1) (String q (l ++ String "'" rest))
  = String q (l ++ "'").
Proof.
  cbn [Nat.add Py.take]. f_equal. rewrite take_plus_append. reflexivity.
Qed.

Lemma drop_opened (q : ascii) (l rest : string) (n : nat) :
  Py.drop (1 + String.length l + 1 + n) (String q (l ++ String "'" rest))
  = Py.drop n rest.
Proof.
  cbn [Nat.add Py.drop]. rewrite <- Nat.add_assoc, drop_plus_append.
  reflexivity.
Qed.

(** The scan of a choice: the first character and the three characters
    after the label are passed over unread. *)
Lemma consume_enum_choice_reads (q a b c : ascii) (l v rest : string) :
  plain_label l = true -> all_chars Py.isdecimal v = true ->
  stops_digits rest ->
  consume_enum_choice repr
    (String q (l ++ String "'" (String a (String b (String c (v ++ rest))))))
  = Return (String q (l ++ "'"), v, rest).
Proof.
  intros Hl Hv Hrest. apply plain_label_closed in Hl as [Hc Hx].
  unfold consume_enum_choice. cbn [Py.drop].
  rewrite (scan_label_closed l _ Hc). cbn [obind fst snd orb].
  rewrite Hx. cbn [resolve_label obind].
  rewrite take_opened, drop_opened. cbn [Py.drop].
  rewrite (scan_while_digits v rest _ Hv Hrest). cbn [obind].
  unfold Py.slice.
  rewrite (drop_drop (1 + String.length l + 1 + 3) (String.length v)).
  rewrite drop_opened. cbn [Py.drop].
  rewrite drop_append_length, Nat.add_comm, Nat.add_sub, take_append_length.
  reflexivity.
Qed.

Lemma consume_enum_choice_cut_value (q a b c : ascii) (l v : string) :
  plain_label l = true -> all_chars Py.isdigit v = true ->
  consume_enum_choice repr
    (String q (l ++ String "'" (String a (String b (String c v)))))
  = Raise IndexError.
Proof.
  intros Hl Hv. apply plain_label_closed in Hl as [Hc Hx].
  unfold consume_enum_choice. cbn [Py.drop].
  rewrite (scan_label_closed l _ Hc). cbn [obind fst snd orb].
  rewrite Hx. cbn [resolve_label obind].
  rewrite drop_opened. cbn [Py.drop].
  now rewrite scan_while_all.
Qed.

(** X9.  [consume_enum_choice] never looks at the first character of its
    input nor at the three characters after the label: for a label
    without byte escapes it returns the input up to the closing quote as
    the name, the run of digits after those three characters as the
    value, which is empty when no digit stands there, a sign for one, and
    what follows the digits. *)
Theorem choice_scan_skips_unread (q a b c : ascii) (l v rest : string) :
  plain_label l = true -> all_chars Py.isdecimal v = true ->
  stops_digits rest ->
  consume_enum_choice repr
    (String q (l ++ String "'" (String a (String b (String c (v ++ rest))))))
  = Return (String q (l ++ "'"), v, rest).
Proof. apply consume_enum_choice_reads. Qed.

(** X10.  [consume_enum_choice] raises [IndexError] on an input that is
    cut off: on the empty string, on an input whose label has no closing
    quote, and on an input that ends with the digits of the value. *)
Theorem choice_cut_off_raises (q a b c : ascii) (l l' v : string) :
  unclosed_label l = true -> plain_label l' = true ->
  all_chars Py.isdigit v = true ->
  consume_enum_choice repr EmptyString = Raise IndexError
  /\ consume_enum_choice repr (String q l) = Raise IndexError
  /\ consume_enum_choice repr
       (String q (l' ++ String "'" (String a (String b (String c v)))))
     = Raise IndexError.
Proof.
  intros Hl Hl' Hv. split; [reflexivity|]. split.
  - now apply consume_enum_choice_unclosed.
  - now apply consume_enum_choice_cut_value.
Qed.

End ChoiceFacts.

Lemma choice_scan_skips_unread_signed :
  plain_label "a" = true /\ all_chars Py.isdecimal "" = true
  /\ stops_digits "-1)"
  /\ consume_enum_choice repr_str "'a' = -1)" = Return ("'a'", "", "-1)").
Proof.
  assert (H : stops_digits "-1)") by (now exists "-"%char, "1)").
  split; [reflexivity|]. split; [reflexivity|]. split; [exact H|].
  apply (choice_scan_skips_unread repr_str "'" " " "=" " " "a" "" "-1)");
    [reflexivity | reflexivity | exact H].
Defined.

Lemma choice_cut_off_raises_abc :
  unclosed_label "abc" = true /\ plain_label "a" = true
  /\ all_chars Py.isdigit "12" = true
  /\ consume_enum_choice repr_str "" = Raise IndexError
  /\ consume_enum_choice repr_str "'abc" = Raise IndexError
  /\ consume_enum_choice repr_str "'a' = 12" = Raise IndexError.
Proof.
  split; [reflexivity|]. split; [reflexivity|]. split; [reflexivity|].
  apply (choice_cut_off_raises repr_str "'" " " "=" " " "abc" "a" "12");
    reflexivity.
Defined.

Section SignedValue.

Variable DEFAULT_PRECISION : Z.
Variable repr : list N -> string.

Lemma unclosed_digits (x : string) :
  all_chars Py.isdecimal x = true -> unclosed_label (x ++ ")") = true.
Proof.
  induction x as [|c x IH]; cbn [append all_chars unclosed_label];
    [reflexivity|].
  intros H. apply andb_true_iff in H as [Hc H].
  rewrite (eqb_false_of_test Py.isdecimal c Py.backslash Hc eq_refl).
  rewrite (eqb_false_of_test Py.isdecimal c "'" Hc eq_refl).
  now apply IH.
Qed.

Lemma consume_enum_choice_digits (x : string) :
  all_chars Py.isdecimal x = true ->
  consume_enum_choice repr (x ++ ")") = Raise IndexError.
Proof.
  intros H. destruct x as [|c x]; [reflexivity|].
  cbn [append]. apply consume_enum_choice_unclosed.
  cbn [all_chars] in H. apply andb_true_iff in H as [_ H].
  now apply unclosed_digits.
Qed.

(** X8.  An enumeration with one variant whose value is negative cannot
    be decoded: the sign is not read as part of the value, the loop over
    the variants takes it for the start of a next variant, and the scan
    of that variant runs past the end: [IndexError], nothing yielded. *)
Theorem enum_negative_value_raises (width l : string) (d : ascii)
        (v param : string) :
  all_chars Py.isdecimal width = true -> plain_label l = true ->
  all_chars Py.isdecimal (String d v) = true ->
  inspect_field_type DEFAULT_PRECISION repr
    ("Enum" ++ width ++ "('" ++ l ++ "' = -" ++ String d v ++ ")") param
  = ([], Raise IndexError).
Proof.
  intros Hw Hl Hv. unfold inspect_field_type.
  rewrite inspect_field_type_fuel_Enum
    by (reflexivity || apply (startswith_append "Enum")).
  set (remain := String "-" (String d (v ++ ")"))).
  change (Py.drop 4 ("Enum" ++ width ++ "('" ++ l ++ "' = -" ++ String d v ++ ")"))
    with (width ++ String "(" (String "'" (l ++ String "'" (String " "
            (String "=" (String " " ("" ++ remain))))))).
  rewrite scan_while_digits by (assumption || now apply stops_digits_cons).
  cbn [lift gbind].
  replace (Py.drop (4 + String.length width + 1)
             ("Enum" ++ width ++ "('" ++ l ++ "' = -" ++ String d v ++ ")"))
    with (String "'" (l ++ String "'" (String " "
            (String "=" (String " " ("" ++ remain))))))
    by (cbn [Nat.add Py.drop append]; now rewrite drop_plus_append).
  rewrite (consume_enum_choice_reads repr "'" " " "=" " " l "" remain Hl eq_refl)
    by now apply stops_digits_cons.
  cbv beta iota. unfold remain.
  change (String.length (String "-" (String d (v ++ ")"))))
    with (S (String.length (String d (v ++ ")")))).
  cbn [enum_loop item String.get obind Py.drop].
  change (negb (Ascii.eqb "-" ")")) with true. cbv iota.
  cbn [all_chars] in Hv. apply andb_true_iff in Hv as [_ Hv].
  now rewrite consume_enum_choice_digits.
Qed.

End SignedValue.

Lemma enum_negative_value_raises_Enum8 :
  all_chars Py.isdecimal "8" = true /\ plain_label "a" = true
  /\ all_chars Py.isdecimal "1" = true
  /\ inspect_field_type 6 repr_str "Enum8('a' = -1)" ""
     = ([], Raise IndexError).
Proof.
  split; [reflexivity|]. split; [reflexivity|]. split; [reflexivity|].
  apply (enum_negative_value_raises 6 repr_str "8" "a" "1" "" "");
    reflexivity.
Defined.

(** X11.  [merge_params] leaves out its empty arguments, and merging what
    was merged before with more parameters gives what merging all of them
    at once gives: the way the wrappers hand their flags down. *)
Theorem merge_params_accumulates (ps qs : list string) :
  merge_params (ps ++ EmptyString :: qs) = merge_params (ps ++ qs)
  /\ merge_params (merge_params ps :: qs) = merge_params (ps ++ qs).
Proof.
  split; [|apply merge_params_nested].
  unfold merge_params. now rewrite !filter_app.
Qed.

(** * The rest of the introspection *)

(** ** The values of the mapping *)

Lemma get_set {V} (d : Dict.t V) (k name : string) (v : V) :
  Dict.get (Dict.set d k v) name
  = if String.eqb k name then Some v else Dict.get d name.
Proof.
  destruct (String.eqb_spec k name) as [->|Hne].
  - apply get_set_same.
  - apply get_set_other. now apply String.eqb_neq.
Qed.

Lemma all_shaped_set (d : Dict.t constraint_info) (k : string)
      (v : constraint_info) :
  all_shaped d -> entry_shape v -> all_shaped (Dict.set d k v).
Proof.
  intros Hd Hv name v' H. rewrite get_set in H.
  destruct (String.eqb k name); [now injection H as <- | eauto].
Qed.

Lemma all_shaped_add_check (ms : list (list string)) :
  forall d, all_shaped d -> all_shaped (fold_left add_check ms d).
Proof.
  induction ms as [|m ms IH]; intros d Hd; cbn [fold_left]; [exact Hd|].
  apply IH. destruct m as [|a [|b [|c [|x m]]]]; cbn [add_check]; try exact Hd.
  apply all_shaped_set; [exact Hd | left; eauto].
Qed.

Lemma all_shaped_add_index (ms : list (list string)) :
  forall d, all_shaped d -> all_shaped (fold_left add_index ms d).
Proof.
  induction ms as [|m ms IH]; intros d Hd; cbn [fold_left]; [exact Hd|].
  apply IH. destruct m as [|a [|b [|c [|x [|y m]]]]]; cbn [add_index];
    try exact Hd.
  apply all_shaped_set; [exact Hd | right; eauto].
Qed.

(** X13.  Whatever the text of the table definition, a value of the
    mapping is the record of a CHECK clause or the record of an INDEX
    clause: it is a check or an index and not both, and it never names
    columns, a primary key, a unique constraint, a foreign key or
    options. *)
Theorem constraint_entries_shape (table_sql name : string)
        (v : constraint_info) :
  Dict.get (constraints_of_sql table_sql) name = Some v ->
  entry_shape v
  /\ check v = negb (index v)
  /\ columns v = [] /\ primary_key v = false /\ unique v = false
  /\ foreign_key v = None /\ options v = None.
Proof.
  intros H.
  assert (Hs : entry_shape v).
  { revert H. unfold constraints_of_sql.
    apply all_shaped_add_index, all_shaped_add_check.
    intros n v' H'. discriminate. }
  split; [exact Hs|].
  destruct Hs as [[d ->]|[d [ty ->]]]; repeat split.
Qed.

Lemma constraint_entries_shape_c :
  Dict.get (constraints_of_sql ddl_index_then_check) "c"
  = Some (index_info "x TYPE set(1) GRANULARITY 4" "set")
  /\ entry_shape (index_info "x TYPE set(1) GRANULARITY 4" "set").
Proof.
  split; [vm_compute; reflexivity|].
  apply (constraint_entries_shape ddl_index_then_check "c").
  vm_compute. reflexivity.
Defined.

(** ** Texts without clauses *)

Section KeywordFacts.
Context {R : Type}.

Lemma mtch_Lit_startswith (w s : string) (caps : Re.captures)
      (k : string -> Re.captures -> option R) (x : R) :
  Re.mtch (Re.Lit w) s caps k = Some x -> Py.startswith s w = true.
Proof.
  revert s; induction w as [|c w IH]; intros s H.
  - now destruct s.
  - cbn [Re.Lit] in H. rewrite mtch_Seq in H. cbn [Re.mtch] in H.
    destruct s as [|d s]; [discriminate|].
    unfold Py.startswith. cbn [String.prefix].
    destruct (Ascii.eqb_spec d c) as [->|]; [|discriminate].
    destruct (ascii_dec c c); [|congruence].
    exact (IH s H).
Qed.

End KeywordFacts.

Lemma findall_from_no_keyword (w : string) (r : Re.regex) (n : nat)
      (s : string) :
  contains w s = false ->
  forall skip, Re.findall_from (Re.Seq (Re.Lit w) r) n s skip = [].
Proof.
  induction s as [|c s IH]; intros H skip; cbn [contains] in H;
    apply orb_false_iff in H as [Hhere Hrest].
  - destruct skip; cbn [Re.findall_from]; [|reflexivity].
    destruct (Re.match_here _ _) as [[rest caps]|] eqn:E; [|reflexivity].
    unfold Re.match_here in E. rewrite mtch_Seq in E.
    apply mtch_Lit_startswith in E. congruence.
  - destruct skip; cbn [Re.findall_from]; [|now apply IH].
    destruct (Re.match_here _ _) as [[rest caps]|] eqn:E; [|now apply IH].
    unfold Re.match_here in E. rewrite mtch_Seq in E.
    apply mtch_Lit_startswith in E. congruence.
Qed.

(** X14.  A text that holds neither the keyword [CONSTRAINT ] nor the
    keyword [INDEX ], each with its space, gives the empty mapping. *)
Theorem no_keyword_no_entry (table_sql : string) :
  contains "CONSTRAINT " table_sql = false ->
  contains "INDEX " table_sql = false ->
  constraints_of_sql table_sql = [].
Proof.
  intros Hc Hi. unfold constraints_of_sql, Re.findall.
  assert (Ec : exists r, constraint_pattern = Re.Seq (Re.Lit "CONSTRAINT ") r)
    by (eexists; reflexivity).
  assert (Ei : exists r, index_pattern = Re.Seq (Re.Lit "INDEX ") r)
    by (eexists; reflexivity).
  destruct Ec as [rc ->]. destruct Ei as [ri ->].
  now rewrite (findall_from_no_keyword _ _ _ _ Hc),
              (findall_from_no_keyword _ _ _ _ Hi).
Qed.

Lemma no_keyword_no_entry_events :
  contains "CONSTRAINT " "CREATE TABLE events (...) ENGINE = Memory" = false
  /\ contains "INDEX " "CREATE TABLE events (...) ENGINE = Memory" = false
  /\ constraints_of_sql "CREATE TABLE events (...) ENGINE = Memory" = [].
Proof.
  split; [reflexivity|]. split; [reflexivity|].
  apply (no_keyword_no_entry "CREATE TABLE events (...) ENGINE = Memory");
    reflexivity.
Defined.

(** X15.  In a text without a line feed the CHECK scan finds nothing,
    whatever CHECK clauses the text holds: the mapping then comes from
    the INDEX clauses alone. *)
Theorem check_scan_needs_line_feed (table_sql : string) :
  all_chars Re.dot table_sql = true ->
  check_scan table_sql = []
  /\ constraints_of_sql table_sql
     = fold_left add_index (Re.findall index_pattern 4 table_sql) [].
Proof.
  intros H.
  assert (E : Re.findall constraint_pattern 3 table_sql = []).
  { unfold Re.findall. apply (findall_from_none Py.LF); [reflexivity|].
    exact H. }
  unfold check_scan, constraints_of_sql. now rewrite E.
Qed.

Lemma check_scan_needs_line_feed_one_line :
  all_chars Re.dot "CONSTRAINT c CHECK (x > 0), INDEX i x TYPE set(1) GRANULARITY 4" = true
  /\ check_scan "CONSTRAINT c CHECK (x > 0), INDEX i x TYPE set(1) GRANULARITY 4" = [].
Proof.
  split; [reflexivity|].
  apply (check_scan_needs_line_feed
           "CONSTRAINT c CHECK (x > 0), INDEX i x TYPE set(1) GRANULARITY 4").
  reflexivity.
Defined.

(** ** Field types *)

Section ResolveFacts.

Variable description : Type.

(** X18.  Every type of [data_types_reverse] is resolved to the field
    type the table gives for it: none of the prefix tests of
    [get_field_type] takes a key of the table away. *)
Theorem data_types_reverse_resolved (data_type field_type : string)
        (d : description) :
  Dict.get data_types_reverse data_type = Some field_type ->
  get_field_type description base_get_field_type data_type d
  = Return field_type.
Proof.
  intros H. unfold data_types_reverse in H. cbn [Dict.get] in H.
  repeat match type of H with
         | (if String.eqb ?key data_type then _ else _) = _ =>
             destruct (String.eqb_spec key data_type) as [<-|_];
             [injection H as <-; rewrite get_field_type_eq; reflexivity|]
         end.
  discriminate.
Qed.

(** X19.  [get_field_type] unwraps [Nullable] only: a type that opens
    with [LowCardinality(] reaches the lookup of Django as it is, and
    the lookup raises [KeyError] with the whole type as its key. *)
Theorem low_cardinality_not_resolved (inner : string) (d : description) :
  get_field_type description base_get_field_type
                 ("LowCardinality(" ++ inner) d
  = Raise (KeyError ("LowCardinality(" ++ inner)).
Proof.
  rewrite get_field_type_eq.
  change (Py.startswith ("LowCardinality(" ++ inner) "FixedString") with false.
  change (Py.startswith ("LowCardinality(" ++ inner) "DateTime64") with false.
  change (Py.startswith ("LowCardinality(" ++ inner) "Decimal") with false.
  change (Py.startswith ("LowCardinality(" ++ inner) "Nullable") with false.
  reflexivity.
Qed.

End ResolveFacts.

Lemma data_types_reverse_resolved_Date32 :
  Dict.get data_types_reverse "Date32" = Some "DateField"
  /\ get_field_type unit base_get_field_type "Date32" tt = Return "DateField".
Proof.
  split; [reflexivity|].
  apply (data_types_reverse_resolved unit "Date32" "DateField" tt).
  reflexivity.
Defined.

Section ClauseFacts.
Context {R : Type}.
Implicit Types (k : string -> Re.captures -> option R) (caps : Re.captures).








End ClauseFacts.




(** ** An INDEX clause on its own *)




Section LazyFacts.
Context {R : Type}.
Implicit Types (k : string -> Re.captures -> option R) (caps : Re.captures).



End LazyFacts.

Section IndexTail.
Context {R : Type}.
Implicit Types (k : string -> Re.captures -> option R) (caps : Re.captures).



End IndexTail.

Section IndexDefinition.
Context {R : Type}.
Implicit Types (k : string -> Re.captures -> option R) (caps : Re.captures).



End IndexDefinition.





Example index_clause_backticks :
  constraints_of_sql "INDEX `by day` (a, b) TYPE set(f(1), 2) GRANULARITY 16"
  = [("by day", index_info "(a, b) TYPE set(f(1), 2) GRANULARITY 16" "set")].
Proof. vm_compute. reflexivity. Qed.

(** ** [findall] over a text with clauses *)















(** * The rest of the command *)

Lemma yield_all_run (lines : list string) :
  yield_all lines = (lines, Return tt).
Proof.
  induction lines as [|l ls IH]; cbn [yield_all]; [reflexivity|].
  rewrite IH. reflexivity.
Qed.

Lemma is_ascii_alnum_upper (c : ascii) :
  is_ascii_letter c = true -> is_ascii_alnum (upper c) = true.
Proof.
  destruct c as [[] [] [] [] [] [] [] []]; intros H;
    try discriminate H; reflexivity.
Qed.

Lemma is_ascii_alnum_lower (c : ascii) :
  is_ascii_letter c = true -> is_ascii_alnum (lower c) = true.
Proof.
  destruct c as [[] [] [] [] [] [] [] []]; intros H;
    try discriminate H; reflexivity.
Qed.

(** X24.  The model name of a table holds ASCII letters and digits only,
    whatever the table name. *)
Theorem table2model_ascii_alnum (table_name : string) :
  all_chars is_ascii_alnum (table2model table_name) = true.
Proof.
  unfold table2model. generalize false.
  induction table_name as [|c s IH]; intros in_word;
    cbn [table2model_from all_chars]; [reflexivity|].
  destruct (is_ascii_letter c) eqn:Hl.
  - cbn [all_chars]. rewrite IH, andb_true_r.
    destruct in_word;
      [now apply is_ascii_alnum_lower | now apply is_ascii_alnum_upper].
  - destruct (Py.isalpha c).
    + rewrite all_chars_app, IH, andb_true_r.
      now destruct (Ascii.eqb c "223" && negb in_word).
    + destruct (Py.isdecimal c) eqn:Hd; [|apply IH].
      cbn [all_chars]. rewrite IH, andb_true_r.
      unfold is_ascii_alnum. now rewrite Hd, orb_true_r.
Qed.

Section CommandFacts.

Variable DEFAULT_PRECISION : Z.
Variable repr : list N -> string.
Variable dj_ge42 : bool.
Variable str_of_exn : exn -> string.
Variable normalize_col_name :
  string -> list string -> bool -> string * Dict.t pyval * list string.
Variable get_meta :
  string -> Dict.t constraint_info -> Dict.t string -> bool -> bool ->
  option string -> list string.

(** The run on a connection that is found and whose cursor opens. *)
Lemma handle_inspection_connected
      (connections : string -> outcome connection) (conn : connection)
      (opts : command_options) :
  connections (opt_database opts) = Return conn ->
  open_cursor conn = Return tt ->
  handle_inspection DEFAULT_PRECISION repr dj_ge42 str_of_exn
                    normalize_col_name get_meta connections opts
  = gbind (yield_all (header db_module))
      (fun _ =>
         gbind (lift (get_table_list conn))
           (fun table_list =>
              inspect_tables DEFAULT_PRECISION repr dj_ge42 str_of_exn
                normalize_col_name get_meta conn opts
                (table_info_of (opt_include_views opts) table_list)
                (match opt_table opts with
                 | [] => sorted (Dict.keys
                                   (table_info_of (opt_include_views opts)
                                                  table_list))
                 | _ :: _ => opt_table opts
                 end))).
Proof.
  intros Hc Ho. unfold handle_inspection. rewrite Hc.
  change (lift (Return conn)) with (gret conn). rewrite gbind_gret_l.
  rewrite Ho. change (lift (Return tt)) with (gret tt).
  rewrite gbind_gret_l. reflexivity.
Qed.

(** X21.  An exception of [get_table_list] is not handled: on a
    connection that is found and whose cursor opens, the run yields the
    header and ends with that exception. *)
Theorem table_list_failure (connections : string -> outcome connection)
        (conn : connection) (opts : command_options) (e : exn) :
  connections (opt_database opts) = Return conn ->
  open_cursor conn = Return tt ->
  get_table_list conn = Raise e ->
  handle_inspection DEFAULT_PRECISION repr dj_ge42 str_of_exn
                    normalize_col_name get_meta connections opts
  = (header db_module, Raise e).
Proof.
  intros Hc Ho H. rewrite (handle_inspection_connected _ conn) by assumption.
  rewrite yield_all_run, H. cbn [gbind lift]. now rewrite app_nil_r.
Qed.

(** X22.  An exception of the two catalog calls for a table is handled:
    the run yields the two comment lines with the table name and the
    message, and goes on with the tables after it. *)
Theorem catalog_failure_skips_table
        (conn : connection) (opts : command_options)
        (table_info : Dict.t TableInfo) (table_name : string)
        (names : list string) (e : exn) :
  selected opts table_name ->
  fetch_table conn table_name = Raise e ->
  inspect_tables DEFAULT_PRECISION repr dj_ge42 str_of_exn normalize_col_name
                 get_meta conn opts table_info (table_name :: names)
  = let rest :=
      inspect_tables DEFAULT_PRECISION repr dj_ge42 str_of_exn
                     normalize_col_name get_meta conn opts table_info names in
    (("# Unable to inspect table '" ++ table_name ++ "'")
       :: ("# The error was: " ++ str_of_exn e) :: fst rest,
     snd rest).
Proof.
  intros Hsel Hfetch. cbn [inspect_tables].
  assert (Hskip : match opt_table_name_filter opts with
                  | Some table_name_filter =>
                      negb (table_name_filter table_name)
                  | None => false
                  end = false).
  { unfold selected in Hsel. destruct (opt_table_name_filter opts);
      [now rewrite Hsel | reflexivity]. }
  rewrite Hskip. unfold inspect_table. rewrite Hfetch.
  cbn [yield gbind app]. cbv zeta.
  now destruct (inspect_tables _ _ _ _ _ _ _ _ _ _) as [ys o].
Qed.

(** X23.  A table the name filter rejects leaves no trace: the run over
    a list of names is the run, without a filter, over the names the
    filter lets through. *)
Theorem name_filter_composes (conn : connection) (opts : command_options)
        (table_info : Dict.t TableInfo) (names : list string) :
  inspect_tables DEFAULT_PRECISION repr dj_ge42 str_of_exn normalize_col_name
                 get_meta conn opts table_info names
  = inspect_tables DEFAULT_PRECISION repr dj_ge42 str_of_exn
                   normalize_col_name get_meta conn (without_filter opts)
                   table_info (filtered opts names).
Proof.
  unfold filtered.
  induction names as [|n names IH]; cbn [inspect_tables].
  - now destruct (opt_table_name_filter opts).
  - cbn [without_filter opt_table_name_filter] in *.
    destruct (opt_table_name_filter opts) as [f|].
    + cbn [filter]. destruct (f n); cbn [negb inspect_tables].
      * cbn [without_filter opt_table_name_filter]. now rewrite IH.
      * now rewrite gbind_gret_l.
    + now rewrite IH.
Qed.

Lemma inspect_row_returned (conn : connection) (row : FieldInfo)
      (st st' : list string * Dict.t string) (ys : list string) :
  inspect_row DEFAULT_PRECISION repr dj_ge42 normalize_col_name conn row st
  = (ys, Return st') ->
  (exists line, ys = ["    " ++ line])
  /\ (exists att_name,
        fst st' = (fst st ++ [att_name])%list
        /\ snd st' = Dict.set (snd st) (fi_name row) att_name).
Proof.
  unfold inspect_row. destruct st as [used c2f].
  destruct (normalize_col_name _ _ _) as [[att_name extra_params] notes].
  destruct (dj_ge42 && supports_comments conn);
    [intros H; discriminate H|].
  cbn [lift gbind].
  match goal with
  | |- context [inspect_field_type _ _ _ ?p] =>
      destruct (inspect_field_type DEFAULT_PRECISION repr (fi_type_code row) p)
        as [fs [r|e|w]]
  end; cbn [join_gen lift gbind yield gret app]; intros H;
    try discriminate H.
  injection H as <- <-. split; [eexists; reflexivity|].
  exists att_name. now split.
Qed.

Lemma inspect_rows_keeps_keys (conn : connection) (rows : list FieldInfo) :
  forall (st st' : list string * Dict.t string) (ys : list string),
    inspect_rows DEFAULT_PRECISION repr dj_ge42 normalize_col_name conn
                 rows st
    = (ys, Return st') ->
    forall name, Dict.get (snd st) name <> None ->
                 Dict.get (snd st') name <> None.
Proof.
  induction rows as [|row rows IH]; intros st st' ys H name Hname;
    cbn [inspect_rows] in H.
  - now apply gret_return in H as [<- ->].
  - apply gbind_return in H as (ys1 & st1 & ys2 & Hrow & Hrows & ->).
    apply inspect_row_returned in Hrow as [_ [att [_ Hmap]]].
    apply (IH st1 st' ys2 Hrows). rewrite Hmap, get_set.
    now destruct (String.eqb (fi_name row) name).
Qed.

(** X25.  When the columns of a table are all decoded, they give one
    line each, every line indented by four spaces; one attribute name
    per column is added to the names in use, and every column name has
    its entry in the map from column names to field names. *)
Theorem one_line_per_column (conn : connection) (rows : list FieldInfo)
        (st st' : list string * Dict.t string) (ys : list string) :
  inspect_rows DEFAULT_PRECISION repr dj_ge42 normalize_col_name conn rows st
  = (ys, Return st') ->
  List.length ys = List.length rows
  /\ Forall (fun y => Py.startswith y "    " = true) ys
  /\ List.length (fst st') = List.length (fst st) + List.length rows
  /\ Forall (fun row => Dict.get (snd st') (fi_name row) <> None) rows.
Proof.
  revert st ys; induction rows as [|row rows IH]; intros st ys H;
    cbn [inspect_rows] in H.
  - apply gret_return in H as [<- ->]. cbn [List.length].
    rewrite Nat.add_0_r. repeat split; constructor.
  - apply gbind_return in H as (ys1 & st1 & ys2 & Hrow & Hrows & ->).
    apply inspect_row_returned in Hrow as [[line ->] [att [Hused Hmap]]].
    destruct (IH st1 ys2 Hrows) as (Hlen & Hind & Hcount & Hkeys).
    cbn [List.length app]. rewrite Hlen, Hcount, Hused, length_app.
    cbn [List.length]. repeat split; try lia.
    + constructor; [apply (startswith_append "    " line) | exact Hind].
    + constructor; [|exact Hkeys].
      apply (inspect_rows_keeps_keys conn rows st1 st' ys2 Hrows).
      rewrite Hmap, get_set, String.eqb_refl. discriminate.
Qed.

(** X30.  A row of a table description has no comment.  With Django at
    least 4.2 on a connection that supports comments the comment of the
    first column is read, which raises [AttributeError]: of a table with
    columns the run yields the class line and ends there, with no line
    for any column. *)
Theorem column_comment_raises
        (conn : connection) (opts : command_options)
        (table_info : Dict.t TableInfo) (table_name : string)
        (names : list string) (constraints : Dict.t constraint_info)
        (row : FieldInfo) (rows : list FieldInfo) :
  dj_ge42 && supports_comments conn = true ->
  selected opts table_name ->
  fetch_table conn table_name = Return (constraints, row :: rows) ->
  inspect_tables DEFAULT_PRECISION repr dj_ge42 str_of_exn normalize_col_name
                 get_meta conn opts table_info (table_name :: names)
  = ([ ""; "";
       "class " ++ table2model table_name ++ "(models.ClickhouseModel):" ],
     Raise AttributeError).
Proof.
  intros Hflags Hsel Hfetch. cbn [inspect_tables].
  assert (Hskip : match opt_table_name_filter opts with
                  | Some table_name_filter =>
                      negb (table_name_filter table_name)
                  | None => false
                  end = false).
  { unfold selected in Hsel. destruct (opt_table_name_filter opts);
      [now rewrite Hsel | reflexivity]. }
  rewrite Hskip. unfold inspect_table. rewrite Hfetch.
  cbn [inspect_rows]. unfold inspect_row.
  destruct (normalize_col_name _ _ _) as [[att_name extra_params] notes].
  rewrite Hflags. reflexivity.
Qed.

(** X31.  Nor has an entry of the table list a comment.  On a connection
    that supports comments, a table of the table list whose columns are
    all decoded gives its class line and the lines of its columns, and
    then reading its comment raises [AttributeError]: the lines of
    [get_meta] are never reached. *)
Theorem table_comment_raises
        (conn : connection) (opts : command_options)
        (table_info : Dict.t TableInfo) (table_name : string)
        (names : list string) (info : TableInfo)
        (constraints : Dict.t constraint_info) (rows : list FieldInfo)
        (ys : list string) (st : list string * Dict.t string) :
  supports_comments conn = true ->
  selected opts table_name ->
  Dict.get table_info table_name = Some info ->
  fetch_table conn table_name = Return (constraints, rows) ->
  inspect_rows DEFAULT_PRECISION repr dj_ge42 normalize_col_name conn rows
               ([], [])
  = (ys, Return st) ->
  inspect_tables DEFAULT_PRECISION repr dj_ge42 str_of_exn normalize_col_name
                 get_meta conn opts table_info (table_name :: names)
  = ("" :: ""
      :: ("class " ++ table2model table_name ++ "(models.ClickhouseModel):")
      :: ys,
     Raise AttributeError).
Proof.
  intros Hsc Hsel Hinfo Hfetch Hrows. cbn [inspect_tables].
  assert (Hskip : match opt_table_name_filter opts with
                  | Some table_name_filter =>
                      negb (table_name_filter table_name)
                  | None => false
                  end = false).
  { unfold selected in Hsel. destruct (opt_table_name_filter opts);
      [now rewrite Hsel | reflexivity]. }
  rewrite Hskip. unfold inspect_table. rewrite Hfetch, Hrows, Hinfo, Hsc.
  cbn [yield gbind lift obind ti_comment app]. now rewrite app_nil_r.
Qed.

Lemma inspect_tables_not_implemented
      (sc : bool) (oc : outcome unit) (tl : outcome (list TableInfo))
      (td : string -> outcome (list FieldInfo)) (opts : command_options)
      (table_info : Dict.t TableInfo) (names : list string) :
  inspect_tables DEFAULT_PRECISION repr dj_ge42 str_of_exn normalize_col_name
                 get_meta
                 (mk_connection sc oc tl (fun _ => Raise NotImplementedError)
                                td)
                 opts table_info names
  = inspect_tables DEFAULT_PRECISION repr dj_ge42 str_of_exn
                   normalize_col_name get_meta
                   (mk_connection sc oc tl (fun _ => Return EmptyString) td)
                   opts table_info names.
Proof.
  induction names as [|n names IH]; cbn [inspect_tables]; [reflexivity|].
  now rewrite IH.
Qed.

(** X27.  A [NotImplementedError] of [get_constraints] is no failure: the
    run on a connection whose cursor raises it is the run on the same
    connection with a cursor whose table definition holds no
    constraint. *)
Theorem constraints_not_implemented
        (connections1 connections2 : string -> outcome connection)
        (sc : bool) (oc : outcome unit) (tl : outcome (list TableInfo))
        (td : string -> outcome (list FieldInfo)) (opts : command_options) :
  connections1 (opt_database opts)
  = Return (mk_connection sc oc tl (fun _ => Raise NotImplementedError) td) ->
  connections2 (opt_database opts)
  = Return (mk_connection sc oc tl (fun _ => Return EmptyString) td) ->
  handle_inspection DEFAULT_PRECISION repr dj_ge42 str_of_exn
                    normalize_col_name get_meta connections1 opts
  = handle_inspection DEFAULT_PRECISION repr dj_ge42 str_of_exn
                      normalize_col_name get_meta connections2 opts.
Proof.
  intros H1 H2. unfold handle_inspection. rewrite H1, H2.
  change (lift (Return ?c)) with (gret c). rewrite !gbind_gret_l.
  cbn [open_cursor get_table_list].
  apply gbind_ext. intros _. apply gbind_ext. intros _.
  apply gbind_ext. intros table_list.
  apply inspect_tables_not_implemented.
Qed.

Lemma table_info_wanted (include_views : bool) (table_list : list TableInfo) :
  forall d,
    fold_left
      (fun d info =>
         if existsb (String.eqb (ti_type info))
                    (if include_views then ["t"; "v"] else ["t"])
         then Dict.set d (ti_name info) info else d)
      (filter (wanted include_views) table_list) d
    = fold_left
        (fun d info =>
           if existsb (String.eqb (ti_type info))
                      (if include_views then ["t"; "v"] else ["t"])
           then Dict.set d (ti_name info) info else d)
        table_list d.
Proof.
  induction table_list as [|info tl IH]; intros d; cbn [filter fold_left];
    [reflexivity|].
  unfold wanted at 1.
  destruct (existsb _ _) eqn:E; cbn [fold_left]; [rewrite E|]; apply IH.
Qed.

Lemma inspect_tables_table_list
      (sc : bool) (oc : outcome unit) (tl1 tl2 : outcome (list TableInfo))
      (cur : string -> outcome string)
      (td : string -> outcome (list FieldInfo)) (opts : command_options)
      (table_info : Dict.t TableInfo) (names : list string) :
  inspect_tables DEFAULT_PRECISION repr dj_ge42 str_of_exn normalize_col_name
                 get_meta (mk_connection sc oc tl1 cur td) opts table_info
                 names
  = inspect_tables DEFAULT_PRECISION repr dj_ge42 str_of_exn
                   normalize_col_name get_meta
                   (mk_connection sc oc tl2 cur td) opts table_info names.
Proof.
  induction names as [|n names IH]; cbn [inspect_tables]; [reflexivity|].
  now rewrite IH.
Qed.

(** X28.  The entries of the table list whose type is not asked for,
    [t], and [v] with [include_views], play no part: the run on a
    connection is the run on the same connection with the table list
    without them. *)
Theorem other_tables_ignored
        (connections1 connections2 : string -> outcome connection)
        (sc : bool) (oc : outcome unit) (table_list : list TableInfo)
        (cur : string -> outcome string)
        (td : string -> outcome (list FieldInfo)) (opts : command_options) :
  connections1 (opt_database opts)
  = Return (mk_connection sc oc (Return table_list) cur td) ->
  connections2 (opt_database opts)
  = Return (mk_connection
              sc oc
              (Return (filter (wanted (opt_include_views opts)) table_list))
              cur td) ->
  handle_inspection DEFAULT_PRECISION repr dj_ge42 str_of_exn
                    normalize_col_name get_meta connections1 opts
  = handle_inspection DEFAULT_PRECISION repr dj_ge42 str_of_exn
                      normalize_col_name get_meta connections2 opts.
Proof.
  intros H1 H2. unfold handle_inspection. rewrite H1, H2.
  change (lift (Return ?c)) with (gret c). rewrite !gbind_gret_l.
  cbn [open_cursor get_table_list].
  apply gbind_ext. intros _. apply gbind_ext. intros _.
  change (lift (Return ?c)) with (gret c). rewrite !gbind_gret_l.
  rewrite table_info_wanted. apply inspect_tables_table_list.
Qed.

End CommandFacts.

Lemma table_list_failure_down :
  one_database
    (mk_connection false (Return tt)
       (Raise (DatabaseError "connection refused"))
       (fun _ => Return EmptyString) (fun _ => Return []))
    (opt_database demo_options)
  = Return (mk_connection false (Return tt)
              (Raise (DatabaseError "connection refused"))
              (fun _ => Return EmptyString) (fun _ => Return []))
  /\ handle_inspection 6 repr_str true demo_str_of_exn demo_normalize_col_name
                       demo_get_meta
                       (one_database
                          (mk_connection false (Return tt)
                             (Raise (DatabaseError "connection refused"))
                             (fun _ => Return EmptyString)
                             (fun _ => Return [])))
                       demo_options
     = (header db_module, Raise (DatabaseError "connection refused")).
Proof.
  split; [reflexivity|].
  apply (table_list_failure
           6 repr_str true demo_str_of_exn demo_normalize_col_name
           demo_get_meta _
           (mk_connection false (Return tt)
              (Raise (DatabaseError "connection refused"))
              (fun _ => Return EmptyString) (fun _ => Return [])));
    reflexivity.
Defined.

Lemma catalog_failure_skips_table_broken :
  selected demo_options "broken"
  /\ fetch_table
       (mk_connection false (Return tt) (Return [])
          (fun _ => Return EmptyString)
          (fun name => if String.eqb name "broken"
                       then Raise (DatabaseError "no such table")
                       else Return [mk_field "id" "Int32"]))
       "broken"
     = Raise (DatabaseError "no such table")
  /\ inspect_tables 6 repr_str true demo_str_of_exn demo_normalize_col_name
                    demo_get_meta
                    (mk_connection false (Return tt) (Return [])
                       (fun _ => Return EmptyString)
                       (fun name => if String.eqb name "broken"
                                    then Raise (DatabaseError "no such table")
                                    else Return [mk_field "id" "Int32"]))
                    demo_options [] ["broken"; "events"]
     = (["# Unable to inspect table 'broken'";
         "# The error was: no such table";
         ""; ""; "class Events(models.ClickhouseModel):";
         "    id = models.Int32Field()";
         ""; "    class Meta:"; "        managed = False";
         "        db_table = 'events'"],
        Return tt).
Proof.
  split; [exact I|]. split; [reflexivity|].
  apply (catalog_failure_skips_table
           6 repr_str true demo_str_of_exn demo_normalize_col_name
           demo_get_meta
           (mk_connection false (Return tt) (Return [])
              (fun _ => Return EmptyString)
              (fun name => if String.eqb name "broken"
                           then Raise (DatabaseError "no such table")
                           else Return [mk_field "id" "Int32"]))
           demo_options [] "broken" ["events"]
           (DatabaseError "no such table"));
    [exact I | reflexivity].
Defined.

Lemma one_line_per_column_events :
  inspect_rows 6 repr_str true demo_normalize_col_name demo_connection
               [mk_field "id" "Int32"; mk_field "count" "Int16"]
               ([], [])
  = (["    id = models.Int32Field()"; "    count = models.Int16Field()"],
     Return (["id"; "count"], [("id", "id"); ("count", "count")]))
  /\ List.length
       ["    id = models.Int32Field()"; "    count = models.Int16Field()"]
     = 2.
Proof.
  split; [reflexivity|].
  apply (one_line_per_column
           6 repr_str true demo_normalize_col_name demo_connection
           [mk_field "id" "Int32"; mk_field "count" "Int16"]
           ([], []) (["id"; "count"], [("id", "id"); ("count", "count")])
           ["    id = models.Int32Field()"; "    count = models.Int16Field()"]).
  reflexivity.
Defined.

(** A connection that says it supports comments. *)
Lemma column_comment_raises_events :
  true && supports_comments
            (mk_connection true (Return tt) (Return [mk_table "events" "t"])
               (fun _ => Return EmptyString)
               (fun _ => Return [mk_field "id" "Int32"]))
  = true
  /\ selected demo_options "events"
  /\ fetch_table
       (mk_connection true (Return tt) (Return [mk_table "events" "t"])
          (fun _ => Return EmptyString)
          (fun _ => Return [mk_field "id" "Int32"]))
       "events"
     = Return ([], [mk_field "id" "Int32"])
  /\ inspect_tables 6 repr_str true demo_str_of_exn demo_normalize_col_name
                    demo_get_meta
                    (mk_connection true (Return tt)
                       (Return [mk_table "events" "t"])
                       (fun _ => Return EmptyString)
                       (fun _ => Return [mk_field "id" "Int32"]))
                    demo_options [("events", mk_table "events" "t")]
                    ["events"]
     = ([""; ""; "class Events(models.ClickhouseModel):"],
        Raise AttributeError).
Proof.
  split; [reflexivity|]. split; [exact I|]. split; [reflexivity|].
  apply (column_comment_raises
           6 repr_str true demo_str_of_exn demo_normalize_col_name
           demo_get_meta
           (mk_connection true (Return tt) (Return [mk_table "events" "t"])
              (fun _ => Return EmptyString)
              (fun _ => Return [mk_field "id" "Int32"]))
           demo_options [("events", mk_table "events" "t")] "events" [] []
           (mk_field "id" "Int32") []);
    [reflexivity | exact I | reflexivity].
Defined.

Lemma table_comment_raises_old_django :
  supports_comments
    (mk_connection true (Return tt) (Return [mk_table "events" "t"])
       (fun _ => Return EmptyString)
       (fun _ => Return [mk_field "id" "Int32"]))
  = true
  /\ selected demo_options "events"
  /\ Dict.get [("events", mk_table "events" "t")] "events"
     = Some (mk_table "events" "t")
  /\ fetch_table
       (mk_connection true (Return tt) (Return [mk_table "events" "t"])
          (fun _ => Return EmptyString)
          (fun _ => Return [mk_field "id" "Int32"]))
       "events"
     = Return ([], [mk_field "id" "Int32"])
  /\ inspect_rows 6 repr_str false demo_normalize_col_name
                  (mk_connection true (Return tt)
                     (Return [mk_table "events" "t"])
                     (fun _ => Return EmptyString)
                     (fun _ => Return [mk_field "id" "Int32"]))
                  [mk_field "id" "Int32"] ([], [])
     = (["    id = models.Int32Field()"], Return (["id"], [("id", "id")]))
  /\ inspect_tables 6 repr_str false demo_str_of_exn demo_normalize_col_name
                    demo_get_meta
                    (mk_connection true (Return tt)
                       (Return [mk_table "events" "t"])
                       (fun _ => Return EmptyString)
                       (fun _ => Return [mk_field "id" "Int32"]))
                    demo_options [("events", mk_table "events" "t")]
                    ["events"]
     = ([""; ""; "class Events(models.ClickhouseModel):";
         "    id = models.Int32Field()"],
        Raise AttributeError).
Proof.
  split; [reflexivity|]. split; [exact I|]. split; [reflexivity|].
  split; [reflexivity|]. split; [reflexivity|].
  apply (table_comment_raises
           6 repr_str false demo_str_of_exn demo_normalize_col_name
           demo_get_meta
           (mk_connection true (Return tt) (Return [mk_table "events" "t"])
              (fun _ => Return EmptyString)
              (fun _ => Return [mk_field "id" "Int32"]))
           demo_options [("events", mk_table "events" "t")] "events" []
           (mk_table "events" "t") [] [mk_field "id" "Int32"]
           ["    id = models.Int32Field()"] (["id"], [("id", "id")]));
    [reflexivity | exact I | reflexivity | reflexivity | reflexivity].
Defined.

Lemma constraints_not_implemented_events :
  one_database
    (mk_connection false (Return tt) (Return [mk_table "events" "t"])
       (fun _ => Raise NotImplementedError)
       (fun _ => Return [mk_field "id" "Int32"]))
    (opt_database demo_options)
  = Return (mk_connection false (Return tt) (Return [mk_table "events" "t"])
              (fun _ => Raise NotImplementedError)
              (fun _ => Return [mk_field "id" "Int32"]))
  /\ handle_inspection 6 repr_str true demo_str_of_exn demo_normalize_col_name
                       demo_get_meta
                       (one_database
                          (mk_connection false (Return tt)
                             (Return [mk_table "events" "t"])
                             (fun _ => Raise NotImplementedError)
                             (fun _ => Return [mk_field "id" "Int32"])))
                       demo_options
     = handle_inspection 6 repr_str true demo_str_of_exn
                         demo_normalize_col_name demo_get_meta
                         (one_database
                            (mk_connection false (Return tt)
                               (Return [mk_table "events" "t"])
                               (fun _ => Return EmptyString)
                               (fun _ => Return [mk_field "id" "Int32"])))
                         demo_options
  /\ handle_inspection 6 repr_str true demo_str_of_exn demo_normalize_col_name
                       demo_get_meta
                       (one_database
                          (mk_connection false (Return tt)
                             (Return [mk_table "events" "t"])
                             (fun _ => Raise NotImplementedError)
                             (fun _ => Return [mk_field "id" "Int32"])))
                       demo_options
     = ((header db_module
         ++ [""; ""; "class Events(models.ClickhouseModel):";
             "    id = models.Int32Field()";
             ""; "    class Meta:"; "        managed = False";
             "        db_table = 'events'"])%list,
        Return tt).
Proof.
  split; [reflexivity|]. split; [|vm_compute; reflexivity].
  apply (constraints_not_implemented
           6 repr_str true demo_str_of_exn demo_normalize_col_name
           demo_get_meta _ _ false (Return tt)
           (Return [mk_table "events" "t"])
           (fun _ => Return [mk_field "id" "Int32"]) demo_options);
    reflexivity.
Defined.

Lemma other_tables_ignored_views :
  one_database
    (mk_connection false (Return tt)
       (Return [mk_table "daily" "v"; mk_table "events" "t"])
       (fun _ => Return EmptyString)
       (fun _ => Return [mk_field "id" "Int32"]))
    (opt_database demo_options)
  = Return (mk_connection false (Return tt)
              (Return [mk_table "daily" "v"; mk_table "events" "t"])
              (fun _ => Return EmptyString)
              (fun _ => Return [mk_field "id" "Int32"]))
  /\ filter (wanted (opt_include_views demo_options))
            [mk_table "daily" "v"; mk_table "events" "t"]
     = [mk_table "events" "t"]
  /\ handle_inspection 6 repr_str true demo_str_of_exn demo_normalize_col_name
                       demo_get_meta
                       (one_database
                          (mk_connection false (Return tt)
                             (Return [mk_table "daily" "v";
                                      mk_table "events" "t"])
                             (fun _ => Return EmptyString)
                             (fun _ => Return [mk_field "id" "Int32"])))
                       demo_options
     = handle_inspection 6 repr_str true demo_str_of_exn
                         demo_normalize_col_name demo_get_meta
                         (one_database
                            (mk_connection false (Return tt)
                               (Return [mk_table "events" "t"])
                               (fun _ => Return EmptyString)
                               (fun _ => Return [mk_field "id" "Int32"])))
                         demo_options.
Proof.
  split; [reflexivity|]. split; [reflexivity|].
  apply (other_tables_ignored
           6 repr_str true demo_str_of_exn demo_normalize_col_name
           demo_get_meta _ _ false (Return tt)
           [mk_table "daily" "v"; mk_table "events" "t"]
           (fun _ => Return EmptyString)
           (fun _ => Return [mk_field "id" "Int32"]) demo_options);
    reflexivity.
Defined.

(** ** The tables that are inspected *)

Lemma ascending_insert_sorted (x : string) (l : list string) :
  ascending l = true -> ascending (insert_sorted x l) = true.
Proof.
  induction l as [|y l IH]; intros H; [reflexivity|].
  cbn [insert_sorted]. destruct (String.leb x y) eqn:E.
  - cbn [ascending]. now rewrite E.
  - assert (Hyx : String.leb y x = true)
      by (destruct (String.leb_total x y); congruence).
    assert (Hl : ascending l = true).
    { destruct l as [|z l]; [reflexivity|]. cbn [ascending] in H.
      now apply andb_true_iff in H. }
    specialize (IH Hl).
    destruct l as [|z l]; cbn [insert_sorted] in *.
    + cbn [ascending]. now rewrite Hyx.
    + cbn [ascending] in H. apply andb_true_iff in H as [Hyz _].
      destruct (String.leb x z); cbn [ascending] in *.
      * now rewrite Hyx, IH.
      * now rewrite Hyz, IH.
Qed.

Lemma ascending_sorted (l : list string) : ascending (sorted l) = true.
Proof.
  unfold sorted. induction l as [|x l IH]; [reflexivity|].
  cbn [fold_right]. now apply ascending_insert_sorted.
Qed.

Lemma Permutation_insert_sorted (x : string) (l : list string) :
  Permutation (x :: l) (insert_sorted x l).
Proof.
  induction l as [|y l IH]; cbn [insert_sorted]; [reflexivity|].
  destruct (String.leb x y); [reflexivity|].
  rewrite perm_swap. now constructor.
Qed.

Lemma Permutation_sorted (l : list string) : Permutation l (sorted l).
Proof.
  unfold sorted. induction l as [|x l IH]; [reflexivity|].
  cbn [fold_right]. rewrite <- Permutation_insert_sorted. now constructor.
Qed.

Lemma In_keys_set {V} (d : Dict.t V) (k n : string) (v : V) :
  In n (Dict.keys (Dict.set d k v)) <-> n = k \/ In n (Dict.keys d).
Proof.
  rewrite keys_set. destruct (existsb _ _) eqn:E.
  - apply existsb_exists in E as (k' & Hin & Hk).
    apply String.eqb_eq in Hk as <-. split; [tauto|].
    intros [->|H]; assumption.
  - rewrite in_app_iff. cbn [In]. split; [intros [H|[H|[]]]|intros [H|H]];
      auto.
Qed.

Lemma table_info_names (include_views : bool) (table_list : list TableInfo)
      (n : string) :
  forall d,
    In n (Dict.keys
            (fold_left
               (fun d info =>
                  if existsb (String.eqb (ti_type info))
                             (if include_views then ["t"; "v"] else ["t"])
                  then Dict.set d (ti_name info) info else d)
               table_list d))
    <-> In n (Dict.keys d)
        \/ exists info, In info table_list /\ ti_name info = n
                        /\ wanted include_views info = true.
Proof.
  induction table_list as [|info tl IH]; intros d; cbn [fold_left].
  - split; [tauto|]. intros [H|(info & [] & _)]. exact H.
  - rewrite IH. unfold wanted at 2.
    destruct (existsb _ _) eqn:E.
    + rewrite In_keys_set. split.
      * intros [[->|H]|(i & Hi & Hn & Hw)].
        -- right. exists info. cbn [In]. unfold wanted. auto.
        -- now left.
        -- right. exists i. cbn [In]. auto.
      * intros [H|(i & [<-|Hi] & Hn & Hw)].
        -- left. now right.
        -- left. left. now symmetry.
        -- right. now exists i.
    + split.
      * intros [H|(i & Hi & Hn & Hw)]; [now left|].
        right. exists i. cbn [In]. auto.
      * intros [H|(i & [<-|Hi] & Hn & Hw)]; [now left | |].
        -- unfold wanted in Hw. congruence.
        -- right. now exists i.
Qed.

Lemma NoDup_table_info (include_views : bool) (table_list : list TableInfo) :
  forall d,
    NoDup (Dict.keys d) ->
    NoDup (Dict.keys
             (fold_left
                (fun d info =>
                   if existsb (String.eqb (ti_type info))
                              (if include_views then ["t"; "v"] else ["t"])
                   then Dict.set d (ti_name info) info else d)
                table_list d)).
Proof.
  induction table_list as [|info tl IH]; intros d Hd; cbn [fold_left];
    [exact Hd|].
  apply IH. destruct (existsb _ _); [now apply NoDup_keys_set | exact Hd].
Qed.

Section DefaultTables.

Variable DEFAULT_PRECISION : Z.
Variable repr : list N -> string.
Variable dj_ge42 : bool.
Variable str_of_exn : exn -> string.
Variable normalize_col_name :
  string -> list string -> bool -> string * Dict.t pyval * list string.
Variable get_meta :
  string -> Dict.t constraint_info -> Dict.t string -> bool -> bool ->
  option string -> list string.

(** X29.  Without an explicit list of tables, on a connection that is
    found and whose cursor opens, the tables that are inspected are the
    entries of the table list whose type is asked for: each name once,
    however often the table list gives it, and in ascending order of the
    names. *)
Theorem default_tables_sorted_once
        (connections : string -> outcome connection) (conn : connection)
        (opts : command_options) (table_list : list TableInfo) :
  connections (opt_database opts) = Return conn ->
  open_cursor conn = Return tt ->
  opt_table opts = [] -> get_table_list conn = Return table_list ->
  exists names,
    handle_inspection DEFAULT_PRECISION repr dj_ge42 str_of_exn
                      normalize_col_name get_meta connections opts
    = gbind (yield_all (header db_module))
        (fun _ =>
           inspect_tables DEFAULT_PRECISION repr dj_ge42 str_of_exn
                          normalize_col_name get_meta conn opts
                          (table_info_of (opt_include_views opts) table_list)
                          names)
    /\ NoDup names /\ ascending names = true
    /\ forall n,
         In n names
         <-> exists info, In info table_list /\ ti_name info = n
                          /\ wanted (opt_include_views opts) info = true.
Proof.
  intros Hc Ho Hopt Hlist.
  exists (sorted (Dict.keys (table_info_of (opt_include_views opts)
                                           table_list))).
  split; [|split; [|split]].
  - rewrite (handle_inspection_connected
               DEFAULT_PRECISION repr dj_ge42 str_of_exn normalize_col_name
               get_meta _ conn) by assumption.
    rewrite Hlist, Hopt.
    apply gbind_ext. intros _.
    change (lift (Return table_list)) with (gret table_list).
    now rewrite gbind_gret_l.
  - apply (Permutation_NoDup (Permutation_sorted _)).
    apply NoDup_table_info. constructor.
  - apply ascending_sorted.
  - intros n. rewrite <- (Permutation_in' eq_refl (Permutation_sorted _)).
    unfold table_info_of. rewrite table_info_names. cbn [Dict.keys map In].
    tauto.
Qed.

End DefaultTables.

Lemma default_tables_sorted_once_views :
  one_database
    (mk_connection false (Return tt)
       (Return [mk_table "visits" "t"; mk_table "daily" "v";
                mk_table "events" "t"; mk_table "visits" "t"])
       (fun _ => Return EmptyString) (fun _ => Return []))
    (opt_database demo_options)
  = Return (mk_connection false (Return tt)
              (Return [mk_table "visits" "t"; mk_table "daily" "v";
                       mk_table "events" "t"; mk_table "visits" "t"])
              (fun _ => Return EmptyString) (fun _ => Return []))
  /\ opt_table demo_options = []
  /\ sorted (Dict.keys
               (table_info_of false
                  [mk_table "visits" "t"; mk_table "daily" "v";
                   mk_table "events" "t"; mk_table "visits" "t"]))
     = ["events"; "visits"]
  /\ exists names,
       NoDup names /\ ascending names = true
       /\ forall n,
            In n names
            <-> exists info,
                  In info [mk_table "visits" "t"; mk_table "daily" "v";
                           mk_table "events" "t"; mk_table "visits" "t"]
                  /\ ti_name info = n /\ wanted false info = true.
Proof.
  split; [reflexivity|]. split; [reflexivity|]. split; [reflexivity|].
  destruct (default_tables_sorted_once
              6 repr_str true demo_str_of_exn demo_normalize_col_name
              demo_get_meta
              (one_database
                 (mk_connection false (Return tt)
                    (Return [mk_table "visits" "t"; mk_table "daily" "v";
                             mk_table "events" "t"; mk_table "visits" "t"])
                    (fun _ => Return EmptyString) (fun _ => Return [])))
              _ demo_options _ eq_refl eq_refl eq_refl eq_refl)
    as (names & _ & Hnodup & Hasc & Hin).
  exists names. split; [exact Hnodup|]. split; [exact Hasc | exact Hin].
Defined.

(** ** The line of a column *)

Section ColumnLine.

Variable DEFAULT_PRECISION : Z.
Variable repr : list N -> string.
Variable dj_ge42 : bool.
Variable normalize_col_name :
  string -> list string -> bool -> string * Dict.t pyval * list string.

(** X12.  The line of a column whose type is well formed, when Django is
    older than 4.2 or the connection does not support comments, so that
    no comment is read: four spaces, the attribute name that
    [normalize_col_name] gives, [ = ], the fragments of the type put
    together, with the field parameters as [key=repr(value)] separated by
    commas, and the notes, if any, behind [  # ].  The attribute name is
    added to the names in use and stored under the column name. *)
Theorem column_line (conn : connection) (row : FieldInfo) (t : type_expr)
      (used : list string) (c2f : Dict.t string) (att_name : string)
      (extra_params : Dict.t pyval) (notes : list string) :
  fi_type_code row = type_text t -> well_formed t = true ->
  normalize_col_name (fi_name row) used false
  = (att_name, extra_params, notes) ->
  dj_ge42 && supports_comments conn = false ->
  inspect_row DEFAULT_PRECISION repr dj_ge42 normalize_col_name conn row
              (used, c2f)
  = ([ "    " ++ att_name ++ " = "
       ++ String.concat ""
            (fragments DEFAULT_PRECISION t
               (Py.join ", "
                  (map (fun kv => fst kv ++ "=" ++ repr_val repr (snd kv))
                       extra_params)))
       ++ match notes with
          | [] => EmptyString
          | _ => "  # " ++ Py.join " " notes
          end ],
     Return ((used ++ [att_name])%list, Dict.set c2f (fi_name row) att_name)).
Proof.
  intros Htype Hwf Hnorm Hcomment. unfold inspect_row.
  rewrite Hnorm, Hcomment, Htype. cbn [lift gbind app].
  assert (Hparam : match extra_params with
                   | [] => EmptyString
                   | _ :: _ =>
                       Py.join ", "
                         (map (fun kv => fst kv ++ "=" ++ repr_val repr (snd kv))
                              extra_params)
                   end
                   = Py.join ", "
                       (map (fun kv => fst kv ++ "=" ++ repr_val repr (snd kv))
                            extra_params))
    by now destruct extra_params.
  rewrite Hparam.
  rewrite <- (append_empty_r (type_text t)).
  rewrite (decodes_all DEFAULT_PRECISION repr t Hwf _ "" eq_refl).
  cbn [join_gen lift gbind yield gret app].
  destruct notes as [|note notes].
  - now rewrite append_empty_r.
  - now rewrite !append_assoc.
Qed.

End ColumnLine.

Lemma column_line_price :
  fi_type_code (mk_field "price" "Nullable(Decimal(9, 3))")
  = type_text (TNullable (TDecimal "9" "3"))
  /\ well_formed (TNullable (TDecimal "9" "3")) = true
  /\ demo_normalize_col_name "price" ["id"] false = ("price", [], [])
  /\ true && supports_comments demo_connection = false
  /\ inspect_row 6 repr_str true demo_normalize_col_name demo_connection
                 (mk_field "price" "Nullable(Decimal(9, 3))")
                 (["id"], [("id", "id")])
     = (["    price = models.DecimalField(null=True, blank=True, "
         ++ "max_digits=9, decimal_places=3)"],
        Return (["id"; "price"], [("id", "id"); ("price", "price")])).
Proof.
  split; [reflexivity|]. split; [reflexivity|]. split; [reflexivity|].
  split; [reflexivity|].
  apply (column_line 6 repr_str true demo_normalize_col_name demo_connection
                     (mk_field "price" "Nullable(Decimal(9, 3))")
                     (TNullable (TDecimal "9" "3"))
                     ["id"] [("id", "id")] "price" [] []);
    reflexivity.
Defined.
